(** * Browser agent: perception, policy gate, tool dispatch and control loop

    A shallow embedding of the agent's JavaScript sources
    (security.js, pageSnapshot.js, tools.js, browser.js, agent.js) together
    with the properties its specification states about them.

    Conventions of the embedding.
    - A JavaScript string is the list of its UTF-16 code units.
    - A JavaScript number is [NaN], an infinity, an integer, or a finite
      non-integral value carried as its floor and its decimal rendering
      (the code only compares numbers with integers and prints them).
    - Whatever the code obtains from the browser, the model service or the
      user is an environment call; a program is the tree of its calls. *)

From Stdlib Require Import List ZArith NArith Bool String Ascii Lia FinFun.
From Stdlib Require Import DecimalString.
Import ListNotations.

Set Implicit Arguments.
Set Warnings "-register-all".

(* ===================================================================== *)
(** * JavaScript strings                                                  *)
(* ===================================================================== *)

Module JsString.

Definition jsstring := list N.

Fixpoint bytes (s : string) : list N :=
  match s with
  | EmptyString => []
  | String a s' => N_of_ascii a :: bytes s'
  end.

(** Literals are written as in the source; the file holds them in UTF-8,
    so [utf8] rebuilds the code units (one, two and three byte forms). *)
Fixpoint utf8 (bs : list N) : jsstring :=
  match bs with
  | [] => []
  | b0 :: r0 =>
      if (b0 <? 128)%N then b0 :: utf8 r0
      else if (b0 <? 224)%N then
        match r0 with
        | b1 :: r1 => ((b0 - 192) * 64 + (b1 - 128))%N :: utf8 r1
        | [] => []
        end
      else
        match r0 with
        | b1 :: b2 :: r2 =>
            ((b0 - 224) * 4096 + (b1 - 128) * 64 + (b2 - 128))%N :: utf8 r2
        | _ => []
        end
  end.

Definition js (s : string) : jsstring := utf8 (bytes s).

(** [jsq] is [js] for a literal that contains double quotes: each
    apostrophe of the argument stands for one double quote. *)
Definition jsq (s : string) : jsstring :=
  map (fun c => if (c =? 39)%N then 34%N else c) (js s).

Fixpoint eqb (a b : jsstring) : bool :=
  match a, b with
  | [], [] => true
  | x :: a', y :: b' => (x =? y)%N && eqb a' b'
  | _, _ => false
  end.

Definition is_empty (s : jsstring) : bool :=
  match s with [] => true | _ => false end.

(** [a || b] on strings: the empty string is the only falsy one. *)
Definition or_else (a b : jsstring) : jsstring :=
  if is_empty a then b else a.

(** WhiteSpace and LineTerminator code units: what [trim] strips and what
    [\s] matches. *)
Definition is_space (c : N) : bool :=
  ((9 <=? c) && (c <=? 13) || (c =? 32) || (c =? 160) || (c =? 5760)
   || (8192 <=? c) && (c <=? 8202) || (c =? 8232) || (c =? 8233)
   || (c =? 8239) || (c =? 8287) || (c =? 12288) || (c =? 65279))%N.

Definition is_line_terminator (c : N) : bool :=
  ((c =? 10) || (c =? 13) || (c =? 8232) || (c =? 8233))%N.

(** [\w] without the unicode flag: ASCII letters, digits and underscore. *)
Definition is_word_char (c : N) : bool :=
  ((48 <=? c) && (c <=? 57) || (65 <=? c) && (c <=? 90) || (c =? 95)
   || (97 <=? c) && (c <=? 122))%N.

Fixpoint trimStart (s : jsstring) : jsstring :=
  match s with
  | c :: s' => if is_space c then trimStart s' else s
  | [] => []
  end.

Definition trimEnd (s : jsstring) : jsstring := rev (trimStart (rev s)).

Definition trim (s : jsstring) : jsstring := trimEnd (trimStart s).

(** [s.slice(0, n)] *)
Definition slice0 (n : nat) (s : jsstring) : jsstring := firstn n s.

(** ** Case conversion

    The case tables of Unicode 14.0, as ranges sorted by their first code
    point.  An entry [(first, last, step, image)] of a mapping sends
    [first], [first + step], ..., up to [last], to [image],
    [image + step], ...; every other code point is left as it is. *)

Fixpoint mapped (table : list (N * N * N * N)) (c : N) : N :=
  match table with
  | [] => c
  | (first, last, step, image) :: rest =>
      if (c <? first)%N then c
      else if (c <=? last)%N && ((c - first) mod step =? 0)%N
      then (image + (c - first))%N
      else mapped rest c
  end.

Fixpoint inRanges (table : list (N * N)) (c : N) : bool :=
  match table with
  | [] => false
  | (first, last) :: rest =>
      if (c <? first)%N then false
      else if (c <=? last)%N then true
      else inRanges rest c
  end.

(** The simple lower-case mapping of UnicodeData.txt. *)
Definition LOWERCASE : list (N * N * N * N) :=
  [
   (65, 90, 1, 97); (192, 214, 1, 224); (216, 222, 1, 248);
   (256, 302, 2, 257); (306, 310, 2, 307); (313, 327, 2, 314);
   (330, 374, 2, 331); (376, 376, 1, 255); (377, 381, 2, 378);
   (385, 385, 1, 595); (386, 388, 2, 387); (390, 390, 1, 596);
   (391, 391, 1, 392); (393, 394, 1, 598); (395, 395, 1, 396);
   (398, 398, 1, 477); (399, 399, 1, 601); (400, 400, 1, 603);
   (401, 401, 1, 402); (403, 403, 1, 608); (404, 404, 1, 611);
   (406, 406, 1, 617); (407, 407, 1, 616); (408, 408, 1, 409);
   (412, 412, 1, 623); (413, 413, 1, 626); (415, 415, 1, 629);
   (416, 420, 2, 417); (422, 422, 1, 640); (423, 423, 1, 424);
   (425, 425, 1, 643); (428, 428, 1, 429); (430, 430, 1, 648);
   (431, 431, 1, 432); (433, 434, 1, 650); (435, 437, 2, 436);
   (439, 439, 1, 658); (440, 440, 1, 441); (444, 444, 1, 445);
   (452, 452, 1, 454); (453, 453, 1, 454); (455, 455, 1, 457);
   (456, 456, 1, 457); (458, 458, 1, 460); (459, 475, 2, 460);
   (478, 494, 2, 479); (497, 497, 1, 499); (498, 500, 2, 499);
   (502, 502, 1, 405); (503, 503, 1, 447); (504, 542, 2, 505);
   (544, 544, 1, 414); (546, 562, 2, 547); (570, 570, 1, 11365);
   (571, 571, 1, 572); (573, 573, 1, 410); (574, 574, 1, 11366);
   (577, 577, 1, 578); (579, 579, 1, 384); (580, 580, 1, 649);
   (581, 581, 1, 652); (582, 590, 2, 583); (880, 882, 2, 881);
   (886, 886, 1, 887); (895, 895, 1, 1011); (902, 902, 1, 940);
   (904, 906, 1, 941); (908, 908, 1, 972); (910, 911, 1, 973);
   (913, 929, 1, 945); (931, 939, 1, 963); (975, 975, 1, 983);
   (984, 1006, 2, 985); (1012, 1012, 1, 952); (1015, 1015, 1, 1016);
   (1017, 1017, 1, 1010); (1018, 1018, 1, 1019); (1021, 1023, 1, 891);
   (1024, 1039, 1, 1104); (1040, 1071, 1, 1072); (1120, 1152, 2, 1121);
   (1162, 1214, 2, 1163); (1216, 1216, 1, 1231); (1217, 1229, 2, 1218);
   (1232, 1326, 2, 1233); (1329, 1366, 1, 1377); (4256, 4293, 1, 11520);
   (4295, 4295, 1, 11559); (4301, 4301, 1, 11565); (5024, 5103, 1, 43888);
   (5104, 5109, 1, 5112); (7312, 7354, 1, 4304); (7357, 7359, 1, 4349);
   (7680, 7828, 2, 7681); (7838, 7838, 1, 223); (7840, 7934, 2, 7841);
   (7944, 7951, 1, 7936); (7960, 7965, 1, 7952); (7976, 7983, 1, 7968);
   (7992, 7999, 1, 7984); (8008, 8013, 1, 8000); (8025, 8031, 2, 8017);
   (8040, 8047, 1, 8032); (8072, 8079, 1, 8064); (8088, 8095, 1, 8080);
   (8104, 8111, 1, 8096); (8120, 8121, 1, 8112); (8122, 8123, 1, 8048);
   (8124, 8124, 1, 8115); (8136, 8139, 1, 8050); (8140, 8140, 1, 8131);
   (8152, 8153, 1, 8144); (8154, 8155, 1, 8054); (8168, 8169, 1, 8160);
   (8170, 8171, 1, 8058); (8172, 8172, 1, 8165); (8184, 8185, 1, 8056);
   (8186, 8187, 1, 8060); (8188, 8188, 1, 8179); (8486, 8486, 1, 969);
   (8490, 8490, 1, 107); (8491, 8491, 1, 229); (8498, 8498, 1, 8526);
   (8544, 8559, 1, 8560); (8579, 8579, 1, 8580); (9398, 9423, 1, 9424);
   (11264, 11311, 1, 11312); (11360, 11360, 1, 11361);
   (11362, 11362, 1, 619); (11363, 11363, 1, 7549); (11364, 11364, 1, 637);
   (11367, 11371, 2, 11368); (11373, 11373, 1, 593);
   (11374, 11374, 1, 625); (11375, 11375, 1, 592); (11376, 11376, 1, 594);
   (11378, 11378, 1, 11379); (11381, 11381, 1, 11382);
   (11390, 11391, 1, 575); (11392, 11490, 2, 11393);
   (11499, 11501, 2, 11500); (11506, 11506, 1, 11507);
   (42560, 42604, 2, 42561); (42624, 42650, 2, 42625);
   (42786, 42798, 2, 42787); (42802, 42862, 2, 42803);
   (42873, 42875, 2, 42874); (42877, 42877, 1, 7545);
   (42878, 42886, 2, 42879); (42891, 42891, 1, 42892);
   (42893, 42893, 1, 613); (42896, 42898, 2, 42897);
   (42902, 42920, 2, 42903); (42922, 42922, 1, 614);
   (42923, 42923, 1, 604); (42924, 42924, 1, 609); (42925, 42925, 1, 620);
   (42926, 42926, 1, 618); (42928, 42928, 1, 670); (42929, 42929, 1, 647);
   (42930, 42930, 1, 669); (42931, 42931, 1, 43859);
   (42932, 42946, 2, 42933); (42948, 42948, 1, 42900);
   (42949, 42949, 1, 642); (42950, 42950, 1, 7566);
   (42951, 42953, 2, 42952); (42960, 42960, 1, 42961);
   (42966, 42968, 2, 42967); (42997, 42997, 1, 42998);
   (65313, 65338, 1, 65345); (66560, 66599, 1, 66600);
   (66736, 66771, 1, 66776); (66928, 66938, 1, 66967);
   (66940, 66954, 1, 66979); (66956, 66962, 1, 66995);
   (66964, 66965, 1, 67003); (68736, 68786, 1, 68800);
   (71840, 71871, 1, 71872); (93760, 93791, 1, 93792);
   (125184, 125217, 1, 125218)
  ]%N.

(** Code points that are cased and not case-ignorable, and code points
    that are case-ignorable (DerivedCoreProperties.txt). *)
Definition CASED : list (N * N) :=
  [
   (65, 90); (97, 122); (170, 170); (181, 181); (186, 186); (192, 214);
   (216, 246); (248, 442); (444, 447); (452, 659); (661, 687); (880, 883);
   (886, 887); (891, 893); (895, 895); (902, 902); (904, 906); (908, 908);
   (910, 929); (931, 1013); (1015, 1153); (1162, 1327); (1329, 1366);
   (1376, 1416); (4256, 4293); (4295, 4295); (4301, 4301); (4304, 4346);
   (4349, 4351); (5024, 5109); (5112, 5117); (7296, 7304); (7312, 7354);
   (7357, 7359); (7424, 7467); (7531, 7543); (7545, 7578); (7680, 7957);
   (7960, 7965); (7968, 8005); (8008, 8013); (8016, 8023); (8025, 8025);
   (8027, 8027); (8029, 8029); (8031, 8061); (8064, 8116); (8118, 8124);
   (8126, 8126); (8130, 8132); (8134, 8140); (8144, 8147); (8150, 8155);
   (8160, 8172); (8178, 8180); (8182, 8188); (8450, 8450); (8455, 8455);
   (8458, 8467); (8469, 8469); (8473, 8477); (8484, 8484); (8486, 8486);
   (8488, 8488); (8490, 8493); (8495, 8500); (8505, 8505); (8508, 8511);
   (8517, 8521); (8526, 8526); (8544, 8575); (8579, 8580); (9398, 9449);
   (11264, 11387); (11390, 11492); (11499, 11502); (11506, 11507);
   (11520, 11557); (11559, 11559); (11565, 11565); (42560, 42605);
   (42624, 42651); (42786, 42863); (42865, 42887); (42891, 42894);
   (42896, 42954); (42960, 42961); (42963, 42963); (42965, 42969);
   (42997, 42998); (43002, 43002); (43824, 43866); (43872, 43880);
   (43888, 43967); (64256, 64262); (64275, 64279); (65313, 65338);
   (65345, 65370); (66560, 66639); (66736, 66771); (66776, 66811);
   (66928, 66938); (66940, 66954); (66956, 66962); (66964, 66965);
   (66967, 66977); (66979, 66993); (66995, 67001); (67003, 67004);
   (68736, 68786); (68800, 68850); (71840, 71903); (93760, 93823);
   (119808, 119892); (119894, 119964); (119966, 119967); (119970, 119970);
   (119973, 119974); (119977, 119980); (119982, 119993); (119995, 119995);
   (119997, 120003); (120005, 120069); (120071, 120074); (120077, 120084);
   (120086, 120092); (120094, 120121); (120123, 120126); (120128, 120132);
   (120134, 120134); (120138, 120144); (120146, 120485); (120488, 120512);
   (120514, 120538); (120540, 120570); (120572, 120596); (120598, 120628);
   (120630, 120654); (120656, 120686); (120688, 120712); (120714, 120744);
   (120746, 120770); (120772, 120779); (122624, 122633); (122635, 122654);
   (125184, 125251); (127280, 127305); (127312, 127337); (127344, 127369)
  ]%N.

Definition CASE_IGNORABLE : list (N * N) :=
  [
   (39, 39); (46, 46); (58, 58); (94, 94); (96, 96); (168, 168);
   (173, 173); (175, 175); (180, 180); (183, 184); (688, 879); (884, 885);
   (890, 890); (900, 901); (903, 903); (1155, 1161); (1369, 1369);
   (1375, 1375); (1425, 1469); (1471, 1471); (1473, 1474); (1476, 1477);
   (1479, 1479); (1524, 1524); (1536, 1541); (1552, 1562); (1564, 1564);
   (1600, 1600); (1611, 1631); (1648, 1648); (1750, 1757); (1759, 1768);
   (1770, 1773); (1807, 1807); (1809, 1809); (1840, 1866); (1958, 1968);
   (2027, 2037); (2042, 2042); (2045, 2045); (2070, 2093); (2137, 2139);
   (2184, 2184); (2192, 2193); (2200, 2207); (2249, 2306); (2362, 2362);
   (2364, 2364); (2369, 2376); (2381, 2381); (2385, 2391); (2402, 2403);
   (2417, 2417); (2433, 2433); (2492, 2492); (2497, 2500); (2509, 2509);
   (2530, 2531); (2558, 2558); (2561, 2562); (2620, 2620); (2625, 2626);
   (2631, 2632); (2635, 2637); (2641, 2641); (2672, 2673); (2677, 2677);
   (2689, 2690); (2748, 2748); (2753, 2757); (2759, 2760); (2765, 2765);
   (2786, 2787); (2810, 2815); (2817, 2817); (2876, 2876); (2879, 2879);
   (2881, 2884); (2893, 2893); (2901, 2902); (2914, 2915); (2946, 2946);
   (3008, 3008); (3021, 3021); (3072, 3072); (3076, 3076); (3132, 3132);
   (3134, 3136); (3142, 3144); (3146, 3149); (3157, 3158); (3170, 3171);
   (3201, 3201); (3260, 3260); (3263, 3263); (3270, 3270); (3276, 3277);
   (3298, 3299); (3328, 3329); (3387, 3388); (3393, 3396); (3405, 3405);
   (3426, 3427); (3457, 3457); (3530, 3530); (3538, 3540); (3542, 3542);
   (3633, 3633); (3636, 3642); (3654, 3662); (3761, 3761); (3764, 3772);
   (3782, 3782); (3784, 3789); (3864, 3865); (3893, 3893); (3895, 3895);
   (3897, 3897); (3953, 3966); (3968, 3972); (3974, 3975); (3981, 3991);
   (3993, 4028); (4038, 4038); (4141, 4144); (4146, 4151); (4153, 4154);
   (4157, 4158); (4184, 4185); (4190, 4192); (4209, 4212); (4226, 4226);
   (4229, 4230); (4237, 4237); (4253, 4253); (4348, 4348); (4957, 4959);
   (5906, 5908); (5938, 5939); (5970, 5971); (6002, 6003); (6068, 6069);
   (6071, 6077); (6086, 6086); (6089, 6099); (6103, 6103); (6109, 6109);
   (6155, 6159); (6211, 6211); (6277, 6278); (6313, 6313); (6432, 6434);
   (6439, 6440); (6450, 6450); (6457, 6459); (6679, 6680); (6683, 6683);
   (6742, 6742); (6744, 6750); (6752, 6752); (6754, 6754); (6757, 6764);
   (6771, 6780); (6783, 6783); (6823, 6823); (6832, 6862); (6912, 6915);
   (6964, 6964); (6966, 6970); (6972, 6972); (6978, 6978); (7019, 7027);
   (7040, 7041); (7074, 7077); (7080, 7081); (7083, 7085); (7142, 7142);
   (7144, 7145); (7149, 7149); (7151, 7153); (7212, 7219); (7222, 7223);
   (7288, 7293); (7376, 7378); (7380, 7392); (7394, 7400); (7405, 7405);
   (7412, 7412); (7416, 7417); (7468, 7530); (7544, 7544); (7579, 7679);
   (8125, 8125); (8127, 8129); (8141, 8143); (8157, 8159); (8173, 8175);
   (8189, 8190); (8203, 8207); (8216, 8217); (8228, 8228); (8231, 8231);
   (8234, 8238); (8288, 8292); (8294, 8303); (8305, 8305); (8319, 8319);
   (8336, 8348); (8400, 8432); (11388, 11389); (11503, 11505);
   (11631, 11631); (11647, 11647); (11744, 11775); (11823, 11823);
   (12293, 12293); (12330, 12333); (12337, 12341); (12347, 12347);
   (12441, 12446); (12540, 12542); (40981, 40981); (42232, 42237);
   (42508, 42508); (42607, 42610); (42612, 42621); (42623, 42623);
   (42652, 42655); (42736, 42737); (42752, 42785); (42864, 42864);
   (42888, 42890); (42994, 42996); (43000, 43001); (43010, 43010);
   (43014, 43014); (43019, 43019); (43045, 43046); (43052, 43052);
   (43204, 43205); (43232, 43249); (43263, 43263); (43302, 43309);
   (43335, 43345); (43392, 43394); (43443, 43443); (43446, 43449);
   (43452, 43453); (43471, 43471); (43493, 43494); (43561, 43566);
   (43569, 43570); (43573, 43574); (43587, 43587); (43596, 43596);
   (43632, 43632); (43644, 43644); (43696, 43696); (43698, 43700);
   (43703, 43704); (43710, 43711); (43713, 43713); (43741, 43741);
   (43756, 43757); (43763, 43764); (43766, 43766); (43867, 43871);
   (43881, 43883); (44005, 44005); (44008, 44008); (44013, 44013);
   (64286, 64286); (64434, 64450); (65024, 65039); (65043, 65043);
   (65056, 65071); (65106, 65106); (65109, 65109); (65279, 65279);
   (65287, 65287); (65294, 65294); (65306, 65306); (65342, 65342);
   (65344, 65344); (65392, 65392); (65438, 65439); (65507, 65507);
   (65529, 65531); (66045, 66045); (66272, 66272); (66422, 66426);
   (67456, 67461); (67463, 67504); (67506, 67514); (68097, 68099);
   (68101, 68102); (68108, 68111); (68152, 68154); (68159, 68159);
   (68325, 68326); (68900, 68903); (69291, 69292); (69446, 69456);
   (69506, 69509); (69633, 69633); (69688, 69702); (69744, 69744);
   (69747, 69748); (69759, 69761); (69811, 69814); (69817, 69818);
   (69821, 69821); (69826, 69826); (69837, 69837); (69888, 69890);
   (69927, 69931); (69933, 69940); (70003, 70003); (70016, 70017);
   (70070, 70078); (70089, 70092); (70095, 70095); (70191, 70193);
   (70196, 70196); (70198, 70199); (70206, 70206); (70367, 70367);
   (70371, 70378); (70400, 70401); (70459, 70460); (70464, 70464);
   (70502, 70508); (70512, 70516); (70712, 70719); (70722, 70724);
   (70726, 70726); (70750, 70750); (70835, 70840); (70842, 70842);
   (70847, 70848); (70850, 70851); (71090, 71093); (71100, 71101);
   (71103, 71104); (71132, 71133); (71219, 71226); (71229, 71229);
   (71231, 71232); (71339, 71339); (71341, 71341); (71344, 71349);
   (71351, 71351); (71453, 71455); (71458, 71461); (71463, 71467);
   (71727, 71735); (71737, 71738); (71995, 71996); (71998, 71998);
   (72003, 72003); (72148, 72151); (72154, 72155); (72160, 72160);
   (72193, 72202); (72243, 72248); (72251, 72254); (72263, 72263);
   (72273, 72278); (72281, 72283); (72330, 72342); (72344, 72345);
   (72752, 72758); (72760, 72765); (72767, 72767); (72850, 72871);
   (72874, 72880); (72882, 72883); (72885, 72886); (73009, 73014);
   (73018, 73018); (73020, 73021); (73023, 73029); (73031, 73031);
   (73104, 73105); (73109, 73109); (73111, 73111); (73459, 73460);
   (78896, 78904); (92912, 92916); (92976, 92982); (92992, 92995);
   (94031, 94031); (94095, 94111); (94176, 94177); (94179, 94180);
   (110576, 110579); (110581, 110587); (110589, 110590); (113821, 113822);
   (113824, 113827); (118528, 118573); (118576, 118598); (119143, 119145);
   (119155, 119170); (119173, 119179); (119210, 119213); (119362, 119364);
   (121344, 121398); (121403, 121452); (121461, 121461); (121476, 121476);
   (121499, 121503); (121505, 121519); (122880, 122886); (122888, 122904);
   (122907, 122913); (122915, 122916); (122918, 122922); (123184, 123197);
   (123566, 123566); (123628, 123631); (125136, 125142); (125252, 125259);
   (127995, 127999); (917505, 917505); (917536, 917631); (917760, 917999)
  ]%N.

(** The upper-case form of a code unit where it is one code unit again
    and does not turn a code unit from 128 on into an ASCII one: what
    Canonicalize yields for the others. *)
Definition CANONICAL : list (N * N * N * N) :=
  [
   (97, 122, 1, 65); (181, 181, 1, 924); (224, 246, 1, 192);
   (248, 254, 1, 216); (255, 255, 1, 376); (257, 303, 2, 256);
   (307, 311, 2, 306); (314, 328, 2, 313); (331, 375, 2, 330);
   (378, 382, 2, 377); (384, 384, 1, 579); (387, 389, 2, 386);
   (392, 392, 1, 391); (396, 396, 1, 395); (402, 402, 1, 401);
   (405, 405, 1, 502); (409, 409, 1, 408); (410, 410, 1, 573);
   (414, 414, 1, 544); (417, 421, 2, 416); (424, 424, 1, 423);
   (429, 429, 1, 428); (432, 432, 1, 431); (436, 438, 2, 435);
   (441, 441, 1, 440); (445, 445, 1, 444); (447, 447, 1, 503);
   (453, 453, 1, 452); (454, 454, 1, 452); (456, 456, 1, 455);
   (457, 457, 1, 455); (459, 459, 1, 458); (460, 460, 1, 458);
   (462, 476, 2, 461); (477, 477, 1, 398); (479, 495, 2, 478);
   (498, 498, 1, 497); (499, 499, 1, 497); (501, 501, 1, 500);
   (505, 543, 2, 504); (547, 563, 2, 546); (572, 572, 1, 571);
   (575, 576, 1, 11390); (578, 578, 1, 577); (583, 591, 2, 582);
   (592, 592, 1, 11375); (593, 593, 1, 11373); (594, 594, 1, 11376);
   (595, 595, 1, 385); (596, 596, 1, 390); (598, 599, 1, 393);
   (601, 601, 1, 399); (603, 603, 1, 400); (604, 604, 1, 42923);
   (608, 608, 1, 403); (609, 609, 1, 42924); (611, 611, 1, 404);
   (613, 613, 1, 42893); (614, 614, 1, 42922); (616, 616, 1, 407);
   (617, 617, 1, 406); (618, 618, 1, 42926); (619, 619, 1, 11362);
   (620, 620, 1, 42925); (623, 623, 1, 412); (625, 625, 1, 11374);
   (626, 626, 1, 413); (629, 629, 1, 415); (637, 637, 1, 11364);
   (640, 640, 1, 422); (642, 642, 1, 42949); (643, 643, 1, 425);
   (647, 647, 1, 42929); (648, 648, 1, 430); (649, 649, 1, 580);
   (650, 651, 1, 433); (652, 652, 1, 581); (658, 658, 1, 439);
   (669, 669, 1, 42930); (670, 670, 1, 42928); (837, 837, 1, 921);
   (881, 883, 2, 880); (887, 887, 1, 886); (891, 893, 1, 1021);
   (940, 940, 1, 902); (941, 943, 1, 904); (945, 961, 1, 913);
   (962, 962, 1, 931); (963, 971, 1, 931); (972, 972, 1, 908);
   (973, 974, 1, 910); (976, 976, 1, 914); (977, 977, 1, 920);
   (981, 981, 1, 934); (982, 982, 1, 928); (983, 983, 1, 975);
   (985, 1007, 2, 984); (1008, 1008, 1, 922); (1009, 1009, 1, 929);
   (1010, 1010, 1, 1017); (1011, 1011, 1, 895); (1013, 1013, 1, 917);
   (1016, 1016, 1, 1015); (1019, 1019, 1, 1018); (1072, 1103, 1, 1040);
   (1104, 1119, 1, 1024); (1121, 1153, 2, 1120); (1163, 1215, 2, 1162);
   (1218, 1230, 2, 1217); (1231, 1231, 1, 1216); (1233, 1327, 2, 1232);
   (1377, 1414, 1, 1329); (4304, 4346, 1, 7312); (4349, 4351, 1, 7357);
   (5112, 5117, 1, 5104); (7296, 7296, 1, 1042); (7297, 7297, 1, 1044);
   (7298, 7298, 1, 1054); (7299, 7300, 1, 1057); (7301, 7301, 1, 1058);
   (7302, 7302, 1, 1066); (7303, 7303, 1, 1122); (7304, 7304, 1, 42570);
   (7545, 7545, 1, 42877); (7549, 7549, 1, 11363); (7566, 7566, 1, 42950);
   (7681, 7829, 2, 7680); (7835, 7835, 1, 7776); (7841, 7935, 2, 7840);
   (7936, 7943, 1, 7944); (7952, 7957, 1, 7960); (7968, 7975, 1, 7976);
   (7984, 7991, 1, 7992); (8000, 8005, 1, 8008); (8017, 8023, 2, 8025);
   (8032, 8039, 1, 8040); (8048, 8049, 1, 8122); (8050, 8053, 1, 8136);
   (8054, 8055, 1, 8154); (8056, 8057, 1, 8184); (8058, 8059, 1, 8170);
   (8060, 8061, 1, 8186); (8112, 8113, 1, 8120); (8126, 8126, 1, 921);
   (8144, 8145, 1, 8152); (8160, 8161, 1, 8168); (8165, 8165, 1, 8172);
   (8526, 8526, 1, 8498); (8560, 8575, 1, 8544); (8580, 8580, 1, 8579);
   (9424, 9449, 1, 9398); (11312, 11359, 1, 11264);
   (11361, 11361, 1, 11360); (11365, 11365, 1, 570);
   (11366, 11366, 1, 574); (11368, 11372, 2, 11367);
   (11379, 11379, 1, 11378); (11382, 11382, 1, 11381);
   (11393, 11491, 2, 11392); (11500, 11502, 2, 11499);
   (11507, 11507, 1, 11506); (11520, 11557, 1, 4256);
   (11559, 11559, 1, 4295); (11565, 11565, 1, 4301);
   (42561, 42605, 2, 42560); (42625, 42651, 2, 42624);
   (42787, 42799, 2, 42786); (42803, 42863, 2, 42802);
   (42874, 42876, 2, 42873); (42879, 42887, 2, 42878);
   (42892, 42892, 1, 42891); (42897, 42899, 2, 42896);
   (42900, 42900, 1, 42948); (42903, 42921, 2, 42902);
   (42933, 42947, 2, 42932); (42952, 42954, 2, 42951);
   (42961, 42961, 1, 42960); (42967, 42969, 2, 42966);
   (42998, 42998, 1, 42997); (43859, 43859, 1, 42931);
   (43888, 43967, 1, 5024); (65345, 65370, 1, 65313)
  ]%N.

(** The code points of a string: a high surrogate followed by a low one
    is one code point, any other code unit stands for itself. *)
Fixpoint codePoints (s : jsstring) : list N :=
  match s with
  | [] => []
  | hi :: tail =>
      match tail with
      | lo :: rest =>
          if ((55296 <=? hi) && (hi <=? 56319) && (56320 <=? lo) && (lo <=? 57343))%N
          then (65536 + (hi - 55296) * 1024 + (lo - 56320))%N :: codePoints rest
          else hi :: codePoints tail
      | [] => [hi]
      end
  end.

Definition codeUnits (cp : N) : jsstring :=
  if (cp <? 65536)%N then [cp]
  else [55296 + (cp - 65536) / 1024; 56320 + (cp - 65536) mod 1024]%N.

(** The part of Final_Sigma that looks ahead: case-ignorable code points,
    then a cased one. *)
Fixpoint followedByCased (cps : list N) : bool :=
  match cps with
  | [] => false
  | c :: rest =>
      if inRanges CASE_IGNORABLE c then followedByCased rest else inRanges CASED c
  end.

(** Lower-casing of code points.  [afterCased] tells that a cased code
    point came before, with nothing but case-ignorable ones since.  The
    capital sigma becomes the final sigma in the Final_Sigma context, and
    the capital I with dot above becomes i and the combining dot
    (SpecialCasing.txt); the other code points follow [LOWERCASE]. *)
Fixpoint lowerPoints (afterCased : bool) (cps : list N) : list N :=
  match cps with
  | [] => []
  | c :: rest =>
      (if (c =? 931)%N
       then [if afterCased && negb (followedByCased rest) then 962%N else 963%N]
       else if (c =? 304)%N then [105; 775]%N
       else [mapped LOWERCASE c])
      ++ lowerPoints
           (if inRanges CASE_IGNORABLE c then afterCased else inRanges CASED c)
           rest
  end.

(** [s.toLowerCase()] *)
Definition toLowerCase (s : jsstring) : jsstring :=
  flat_map codeUnits (lowerPoints false (codePoints s)).

(** Canonicalize of a case-insensitive regular expression without the
    unicode flag, on one code unit. *)
Definition canonicalize (c : N) : N := mapped CANONICAL c.

(** [parts.join(sep)] *)
Fixpoint join (sep : jsstring) (parts : list jsstring) : jsstring :=
  match parts with
  | [] => []
  | [p] => p
  | p :: rest => p ++ sep ++ join sep rest
  end.

End JsString.

Import JsString.

(* ===================================================================== *)
(** * JavaScript numbers and values                                       *)
(* ===================================================================== *)

(** [Frac fl repr] is a finite non-integral number [x]: [fl] is its floor
    and [repr] the text [String(x)]. *)
Inductive number :=
| NaN
| Infinity (negative : bool)
| Int (z : Z)
| Frac (fl : Z) (repr : jsstring).

Module Number.

(** [a === b] on numbers. *)
Definition eqb (a b : number) : bool :=
  match a, b with
  | Int x, Int y => (x =? y)%Z
  | Infinity s, Infinity t => Bool.eqb s t
  | Frac f r, Frac g q => (f =? g)%Z && JsString.eqb r q
  | _, _ => false
  end.

(** [x < k] and [x >= k] for an integer [k]. *)
Definition lt_int (x : number) (k : Z) : bool :=
  match x with
  | NaN => false
  | Infinity neg => neg
  | Int z => (z <? k)%Z
  | Frac fl _ => (fl <? k)%Z
  end.

Definition ge_int (x : number) (k : Z) : bool :=
  match x with
  | NaN => false
  | Infinity neg => negb neg
  | Int z => (k <=? z)%Z
  | Frac fl _ => (k <=? fl)%Z
  end.

(** [Math.max(k, x)] and [Math.min(k, x)] for an integer [k]. *)
Definition max_int (k : Z) (x : number) : number :=
  match x with
  | NaN => NaN
  | _ => if lt_int x k then Int k else x
  end.

Definition min_int (k : Z) (x : number) : number :=
  match x with
  | NaN => NaN
  | _ => if ge_int x k then Int k else x
  end.

(** Truthiness: [0] and [NaN] are falsy. *)
Definition truthy (x : number) : bool :=
  match x with
  | NaN => false
  | Int z => negb (z =? 0)%Z
  | _ => true
  end.

Definition decimal (z : Z) : jsstring :=
  bytes (NilZero.string_of_int (Z.to_int z)).

(** The double nearest to the whole number [m >= 0]: [m] cut to 53
    significant bits, a tie going to the even neighbour. *)
Definition nearestDouble (m : Z) : Z :=
  let bits := (Z.log2 m + 1)%Z in
  if (bits <=? 53)%Z then m
  else
    let shift := (bits - 53)%Z in
    let q := Z.shiftr m shift in
    let r := (m - Z.shiftl q shift)%Z in
    let half := Z.shiftl 1 (shift - 1) in
    let q' := if (half <? r)%Z || (half =? r)%Z && Z.odd q then (q + 1)%Z else q in
    Z.shiftl q' shift.

(** The digits [s] and the exponent [n] of Number::toString for the
    double [x] of [d] decimal digits: [s] has the least number [k] of
    digits such that [s * 10^(n-k)] rounds to [x]; of two such [s] the
    nearer to [x] is taken, the even one on a tie.  Seventeen digits tell
    any double from its neighbours. *)
Fixpoint shortest (fuel : nat) (k : Z) (x d : Z) : Z * Z :=
  match fuel with
  | O => (x, d)
  | S fuel' =>
      let unit := (10 ^ (d - k))%Z in
      let s := (x / unit)%Z in
      let low := (s * unit)%Z in
      let high := (low + unit)%Z in
      let okLow := (nearestDouble low =? x)%Z in
      let okHigh := (nearestDouble high =? x)%Z in
      let pickHigh :=
        if (s + 1 =? 10 ^ k)%Z then ((10 ^ (k - 1))%Z, (d + 1)%Z)
        else ((s + 1)%Z, d) in
      if okLow && okHigh then
        if (x - low <? high - x)%Z || (x - low =? high - x)%Z && Z.even s
        then (s, d) else pickHigh
      else if okLow then (s, d)
      else if okHigh then pickHigh
      else shortest fuel' (k + 1)%Z x d
  end.

(** The digits followed by zeros up to 21 digits, the exponent form
    beyond. *)
Definition render (x : Z) : jsstring :=
  let d := Z.of_nat (List.length (decimal x)) in
  let (s, n) := shortest 17 1 x d in
  let digits := decimal s in
  let k := Z.of_nat (List.length digits) in
  if (n <=? 21)%Z then digits ++ repeat 48%N (Z.to_nat (n - k))
  else
    match digits with
    | first :: rest =>
        first :: (match rest with [] => [] | _ => 46%N :: rest end)
        ++ [101; 43]%N ++ decimal (n - 1)
    | [] => []
    end.

(** [String(x)].  A whole number below 2^53 prints as its decimal
    digits; from there on the digits are the shortest that tell the
    double from its neighbours ([Int z] standing for the double nearest
    to [z]). *)
Definition toString (x : number) : jsstring :=
  match x with
  | NaN => js "NaN"
  | Infinity neg => if neg then js "-Infinity" else js "Infinity"
  | Int z =>
      if (Z.abs z <? 2 ^ 53)%Z then decimal z
      else
        let m := nearestDouble (Z.abs z) in
        (if (z <? 0)%Z then js "-" else [])
        ++ (if (2 ^ 1024 <=? m)%Z then js "Infinity" else render m)
  | Frac _ repr => repr
  end.

Definition ofNat (n : nat) : number := Int (Z.of_nat n).

End Number.

(** Values as [JSON.parse] builds them, with [undefined] for a property
    that is absent. *)
Inductive JsValue :=
| JUndefined
| JNull
| JBool (b : bool)
| JNum (n : number)
| JStr (s : jsstring)
| JArr (items : list JsValue)
| JObj (fields : list (jsstring * JsValue)).

(** The argument record of a tool call, [Record<string, unknown>]. *)
Definition JsObject := list (jsstring * JsValue).

Fixpoint prop (o : JsObject) (k : jsstring) : JsValue :=
  match o with
  | [] => JUndefined
  | (k', v) :: o' => if JsString.eqb k' k then v else prop o' k
  end.

Definition is_number (v : JsValue) : bool :=
  match v with JNum _ => true | _ => false end.

Definition is_string (v : JsValue) : bool :=
  match v with JStr _ => true | _ => false end.

Definition is_boolean (v : JsValue) : bool :=
  match v with JBool _ => true | _ => false end.

(** ToBoolean *)
Definition truthy (v : JsValue) : bool :=
  match v with
  | JUndefined | JNull => false
  | JBool b => b
  | JNum n => Number.truthy n
  | JStr s => negb (is_empty s)
  | JArr _ | JObj _ => true
  end.

(** ToString; an array joins its items with commas, [null] and
    [undefined] items printing as nothing. *)
Fixpoint ToString (v : JsValue) : jsstring :=
  match v with
  | JUndefined => js "undefined"
  | JNull => js "null"
  | JBool b => if b then js "true" else js "false"
  | JNum n => Number.toString n
  | JStr s => s
  | JArr items =>
      join (js ",")
        (map (fun i => match i with
                       | JUndefined | JNull => []
                       | _ => ToString i
                       end) items)
  | JObj _ => js "[object Object]"
  end.

(** What a [throw] carries: an error with its name and message. *)
Record JsError := { err_name : jsstring; err_message : jsstring }.

Definition TypeError (msg : jsstring) : JsError :=
  {| err_name := js "TypeError"; err_message := msg |}.

Definition Error (msg : jsstring) : JsError :=
  {| err_name := js "Error"; err_message := msg |}.

(** [String(err?.message || err)] *)
Definition errorText (e : JsError) : jsstring :=
  or_else (err_message e) (err_name e).

(** A computation that returns or throws. *)
Inductive Result (A : Type) :=
| Ok (a : A)
| Err (e : JsError).

Arguments Err {A} e.

(* ===================================================================== *)
(** * Regular expressions                                                 *)
(* ===================================================================== *)

(** The fragment the sources use, all with the [i] flag and without the
    unicode flag: literals, [.], [\s], [\b], sequence, alternation and
    the greedy star. *)
Module Regex.

Inductive regex :=
| RChar (c : N)
| RAny
| RSpace
| RWordB
| REps
| RSeq (r1 r2 : regex)
| RAlt (r1 r2 : regex)
| RStar (r : regex).

Definition cont := option N -> jsstring -> bool.

Definition word_before (prev : option N) : bool :=
  match prev with Some c => is_word_char c | None => false end.

Definition word_after (s : jsstring) : bool :=
  match s with c :: _ => is_word_char c | [] => false end.

(** Iteration of a starred body: each round must consume input, so the
    length of the input bounds the number of rounds. *)
Fixpoint star (body : option N -> jsstring -> cont -> bool) (rounds : nat)
    (prev : option N) (s : jsstring) (k : cont) : bool :=
  match rounds with
  | O => k prev s
  | S n =>
      body prev s
        (fun p t =>
           if (List.length t <? List.length s)%nat then star body n p t k else false)
      || k prev s
  end.

(** Backtracking matcher: [rmatch r prev s k] tries [r] at the head of [s]
    ([prev] is the code unit before it) and hands what is left to [k]. *)
Fixpoint rmatch (r : regex) (prev : option N) (s : jsstring) (k : cont) : bool :=
  match r with
  | RChar c =>
      match s with
      | x :: s' =>
          if (canonicalize x =? canonicalize c)%N then k (Some x) s' else false
      | [] => false
      end
  | RAny =>
      match s with
      | x :: s' => if is_line_terminator x then false else k (Some x) s'
      | [] => false
      end
  | RSpace =>
      match s with
      | x :: s' => if is_space x then k (Some x) s' else false
      | [] => false
      end
  | RWordB => if xorb (word_before prev) (word_after s) then k prev s else false
  | REps => k prev s
  | RSeq r1 r2 => rmatch r1 prev s (fun p t => rmatch r2 p t k)
  | RAlt r1 r2 => rmatch r1 prev s k || rmatch r2 prev s k
  | RStar r1 => star (rmatch r1) (S (List.length s)) prev s k
  end.

(** A match may start at any index, tried from the left. *)
Fixpoint search (r : regex) (prev : option N) (s : jsstring) : bool :=
  rmatch r prev s (fun _ _ => true)
  || match s with
     | c :: s' => search r (Some c) s'
     | [] => false
     end.

(** [pattern.test(s)] *)
Definition test (r : regex) (s : jsstring) : bool := search r None s.

Fixpoint lit (s : jsstring) : regex :=
  match s with
  | [] => REps
  | [c] => RChar c
  | c :: s' => RSeq (RChar c) (lit s')
  end.

Fixpoint seqs (rs : list regex) : regex :=
  match rs with
  | [] => REps
  | [r] => r
  | r :: rs' => RSeq r (seqs rs')
  end.

Fixpoint alts (rs : list regex) : regex :=
  match rs with
  | [] => REps
  | [r] => r
  | r :: rs' => RAlt r (alts rs')
  end.

(** [\b( ... | ... )\b] *)
Definition whole_word (rs : list regex) : regex :=
  seqs [RWordB; alts rs; RWordB].

End Regex.

Import Regex.

(* ===================================================================== *)
(** * Snapshot data                                                       *)
(* ===================================================================== *)

(** The selector descriptor of an element, tagged by its [type] field:
    ['selector'], ['nth'] or ['xpath']. *)
Inductive SelectorDescriptor :=
| SelPlain (value : jsstring)
| SelNth (selector : jsstring) (index : number)
| SelXPath (value : jsstring).

(** One entry of [snapshot.elements].  A field that the source leaves
    [undefined] is [None]; the two flags are [true] or absent. *)
Record Element := {
  el_id : number;
  el_role : jsstring;
  el_tagName : jsstring;
  el_text : jsstring;
  el_placeholder : option jsstring;
  el_href : option jsstring;
  el_value : option jsstring;
  el_type : option jsstring;
  el_labelText : option jsstring;
  el_title : option jsstring;
  el_selector : SelectorDescriptor;
  el_isInDialog : bool;
  el_disabled : bool;
  el_options : option (list (jsstring * jsstring))
}.

Record Heading := { h_level : number; h_text : jsstring }.

Record TabInfo := { tab_index : number; tab_url : jsstring; tab_title : jsstring }.

Record Snapshot := {
  snap_url : jsstring;
  snap_title : jsstring;
  snap_elements : list Element;
  snap_headings : list Heading;
  snap_contentExcerpt : jsstring;
  snap_tabs : list TabInfo;
  snap_activeTabIndex : number
}.

(** [snapshot.elements.find((e) => e.id === id)] *)
Definition findById (els : list Element) (id : number) : option Element :=
  find (fun e => Number.eqb (el_id e) id) els.

(* ===================================================================== *)
(** * Policy gate (security.js)                                           *)
(* ===================================================================== *)

Module Security.

Definition DESTRUCTIVE_PATTERNS : list regex :=
  [ whole_word [lit (js "pay"); lit (js "оплат"); lit (js "купи"); lit (js "buy")];
    whole_word [lit (js "checkout"); lit (js "оформл");
                seqs [lit (js "place"); RStar RSpace; lit (js "order")];
                seqs [lit (js "подтвержд"); RStar RAny; lit (js "заказ")]];
    whole_word [seqs [lit (js "confirm"); RStar RSpace; lit (js "order")];
                lit (js "подтвердить")];
    whole_word [lit (js "delete"); lit (js "удал"); lit (js "remove");
                lit (js "удалить")];
    whole_word [lit (js "unsubscribe"); lit (js "отпис")];
    whole_word [seqs [lit (js "cancel"); RStar RSpace; lit (js "subscription")];
                seqs [lit (js "отменить"); RStar RSpace; lit (js "подписк")]];
    whole_word [seqs [lit (js "send"); RStar RSpace; lit (js "money")];
                lit (js "перевод"); lit (js "transfer")];
    whole_word [seqs [lit (js "submit"); RStar RSpace; lit (js "payment")];
                lit (js "оплатить")] ].

Record SecurityVerdict := {
  destructive : bool;
  description : option jsstring
}.

Definition not_destructive : SecurityVerdict :=
  {| destructive := false; description := None |}.

(** [[...].filter(Boolean)] on optional strings. *)
Definition filterBoolean (l : list (option jsstring)) : list jsstring :=
  flat_map (fun o => match o with
                     | Some s => if is_empty s then [] else [s]
                     | None => []
                     end) l.

(** The text the patterns are tried on. *)
Definition textSurface (el : Element) : jsstring :=
  join (js " ")
    (map toLowerCase
       (filterBoolean
          [Some (el_text el); el_value el; el_title el; el_labelText el])).

(** [(el.text || el.value || 'Action').toString().slice(0, 80)], trimmed,
    with ['Sensitive action'] when nothing is left. *)
Definition describe (el : Element) : jsstring :=
  let d :=
    slice0 80
      (or_else (el_text el)
         (or_else (match el_value el with Some v => v | None => [] end)
            (js "Action"))) in
  or_else (trim d) (js "Sensitive action").

(** The [for (const pattern of DESTRUCTIVE_PATTERNS)] loop. *)
Fixpoint firstMatch (patterns : list regex) (text : jsstring) (el : Element)
    : SecurityVerdict :=
  match patterns with
  | [] => not_destructive
  | pattern :: rest =>
      if test pattern text
      then {| destructive := true; description := Some (describe el) |}
      else firstMatch rest text el
  end.

Definition checkDestructiveAction (toolName : jsstring) (args : JsObject)
    (snapshot : Snapshot) : SecurityVerdict :=
  if negb (JsString.eqb toolName (js "click_element")) then not_destructive
  else
    match prop args (js "element_id") with
    | JNum elementId =>
        match findById (snap_elements snapshot) elementId with
        | None => not_destructive
        | Some el =>
            let text := textSurface el in
            if is_empty text then not_destructive
            else firstMatch DESTRUCTIVE_PATTERNS text el
        end
    | _ => not_destructive
    end.

End Security.

(* ===================================================================== *)
(** * Perception builder (pageSnapshot.js)                                *)
(* ===================================================================== *)

Module PageSnapshot.

Definition MAX_ELEMENTS : nat := 200.
Definition MAX_CONTENT_CHARS : nat := 1200.
Definition MAX_HEADINGS : nat := 30.
Definition MAX_OPTIONS : nat := 30.

(** ** The document as the script sees it

    An element is what the DOM answers about it: its properties, and the
    results of [getAttribute], [matches] and [closest].  [dom_node] is the
    identity of the node. *)

Record DOMRect := {
  rect_width : number;
  rect_height : number;
  rect_top : number;
  rect_left : number
}.

Record DomElement := {
  dom_node : nat;
  dom_tagName : jsstring;
  dom_id : jsstring;
  dom_htmlFor : option jsstring;
  dom_innerText : jsstring;
  dom_textContent : jsstring;
  dom_value : JsValue;
  dom_options : option (list (jsstring * jsstring));
  getAttribute : jsstring -> option jsstring;
  matches : jsstring -> bool;
  closest : jsstring -> bool;
  getBoundingClientRect : DOMRect;
  style_visibility : jsstring;
  style_display : jsstring
}.

(** [el.children], recursively. *)
Inductive DomNode :=
| DNode (el : DomElement) (children : list DomNode).

(** [querySelectorAll] of the document throws on a selector it cannot
    parse; the two queries made on the body use constant selectors. *)
Record Document := {
  doc_body : option DomNode;
  doc_href : jsstring;
  doc_title : jsstring;
  doc_querySelectorAll : jsstring -> Result (list DomElement);
  body_querySelectorAll : jsstring -> list DomElement;
  body_querySelector : jsstring -> option DomElement
}.

(** [el.getAttribute(name) || ''] *)
Definition attr (el : DomElement) (name : jsstring) : jsstring :=
  match getAttribute el name with Some v => v | None => [] end.

Definition hasAttribute (el : DomElement) (name : jsstring) : bool :=
  match getAttribute el name with Some _ => true | None => false end.

(** ** getAssociatedLabelText *)

Fixpoint labelFor (id : jsstring) (labels : list DomElement) : option jsstring :=
  match labels with
  | [] => None
  | label :: rest =>
      match dom_htmlFor label with
      | Some f =>
          if JsString.eqb f id
          then Some (slice0 80 (trim (dom_textContent label)))
          else labelFor id rest
      | None => labelFor id rest
      end
  end.

(** The [while (parent && parent !== document.body)] loop; [ancestors] is
    the chain of [parentElement]s of the element, nearest first. *)
Fixpoint enclosingLabel (body : DomElement) (ancestors : list DomElement)
    : jsstring :=
  match ancestors with
  | [] => []
  | parent :: up =>
      if (dom_node parent =? dom_node body)%nat then []
      else if JsString.eqb (dom_tagName parent) (js "LABEL")
      then slice0 80 (trim (dom_textContent parent))
      else enclosingLabel body up
  end.

Definition getAssociatedLabelText (doc : Document) (body : DomElement)
    (ancestors : list DomElement) (el : DomElement) : Result jsstring :=
  if is_empty (dom_id el) then Ok (enclosingLabel body ancestors)
  else
    match doc_querySelectorAll doc (js "label[for]") with
    | Err e => Err e
    | Ok labels =>
        match labelFor (dom_id el) labels with
        | Some t => Ok t
        | None => Ok (enclosingLabel body ancestors)
        end
    end.

(** ** getStableSelector *)

(** [(el.innerText || el.value || el.getAttribute('aria-label') || '')
    .trim().slice(0, 80)]; a truthy [el.value] that is not a string has no
    [trim]. *)
Definition selectorText (el : DomElement) : Result jsstring :=
  let finish (t : jsstring) := Ok (slice0 80 (trim t)) in
  if negb (is_empty (dom_innerText el)) then finish (dom_innerText el)
  else if truthy (dom_value el) then
    match dom_value el with
    | JStr v => finish v
    | _ => Err (TypeError (js "trim is not a function"))
    end
  else finish (attr el (js "aria-label")).

(** [selector]: the tag, then the role, name and type attributes. *)
Definition structuralSelector (el : DomElement) : jsstring :=
  let tag := toLowerCase (dom_tagName el) in
  let role := attr el (js "role") in
  let name := trim (attr el (js "name")) in
  let type := trim (attr el (js "type")) in
  let is_input := JsString.eqb tag (js "input") in
  let is_textarea := JsString.eqb tag (js "textarea") in
  tag
  ++ (if is_empty role then [] else jsq "[role='" ++ role ++ jsq "']")
  ++ (if negb (is_empty name) && (is_input || is_textarea)
      then jsq "[name='" ++ name ++ jsq "']" else [])
  ++ (if negb (is_empty type) && is_input
      then jsq "[type='" ++ type ++ jsq "']" else []).

(** The three [replace] calls on the text put into the XPath. *)
Definition escapeText (text : jsstring) : jsstring :=
  let r1 := flat_map (fun c => if (c =? 92)%N then [92; 92]%N else [c]) text in
  let r2 := flat_map (fun c => if (c =? 34)%N then [92; 34]%N else [c]) r1 in
  map (fun c => if (c =? 10)%N then 32%N else c) r2.

(** [Array.from(all).indexOf(el)] *)
Fixpoint indexOfNode (el : DomElement) (all : list DomElement) (i : Z) : Z :=
  match all with
  | [] => (-1)%Z
  | x :: rest =>
      if (dom_node x =? dom_node el)%nat then i else indexOfNode el rest (i + 1)%Z
  end.

Definition getStableSelector (doc : Document) (el : DomElement)
    : Result SelectorDescriptor :=
  match selectorText el with
  | Err e => Err e
  | Ok text =>
      let selector := structuralSelector el in
      match doc_querySelectorAll doc selector with
      | Err e => Err e
      | Ok all =>
          if (1 <? List.length all)%nat && negb (is_empty text) then
            Ok (SelXPath (js "//" ++ selector
                          ++ jsq "[contains(normalize-space(.), '"
                          ++ escapeText text ++ jsq "')]"))
          else if (1 <? List.length all)%nat then
            Ok (SelNth selector (Int (indexOfNode el all 0)))
          else Ok (SelPlain selector)
      end
  end.

(** ** collectSnapshotScript *)

Definition interactiveSelector : jsstring :=
  join (js ", ")
    [ js "a[href]"; js "button"; jsq "[role='button']";
      jsq "a[class*='button' i]"; jsq "[role='switch']";
      jsq "input:not([type='hidden'])"; js "textarea"; js "select";
      jsq "[role='link']"; jsq "[role='menuitem']"; jsq "[role='tab']";
      jsq "[role='option']"; jsq "[contenteditable='true']";
      jsq "[tabindex]:not([tabindex='-1'])" ].

Definition leafSelector : jsstring :=
  jsq "a, button, input, textarea, select, [role='button'], [role='link']".

Definition dialogSelector : jsstring :=
  jsq "[role='dialog'], [role='alertdialog']".

(** [x || undefined] on a string. *)
Definition orUndefined (s : jsstring) : option jsstring :=
  if is_empty s then None else Some s.

(** Line 270: the text shown for an element. *)
Definition displayText
    (text ariaLabel titleAttr value placeholder href labelText : jsstring)
    : jsstring :=
  or_else
    (or_else
       (or_else
          (or_else (or_else (or_else text ariaLabel) titleAttr) value)
          (if is_empty placeholder then [] else js "placeholder: " ++ placeholder))
       (if is_empty href then [] else js "link: " ++ href))
    (if is_empty labelText then [] else js "label: " ++ labelText).

Definition selectOptions (el : DomElement) (tagName : jsstring)
    : option (list (jsstring * jsstring)) :=
  if JsString.eqb tagName (js "select") then
    match dom_options el with
    | Some opts =>
        Some (map (fun o => (or_else (fst o) (snd o), slice0 60 (trim (snd o))))
                (firstn MAX_OPTIONS opts))
    | None => None
    end
  else None.

(** The two accumulators of the traversal: the [seen] set of keys and the
    [elements] array. *)
Record WalkState := {
  seen : list jsstring;
  elements : list Element
}.

Definition dedupKey (el : DomElement) (rawInner : jsstring) : jsstring :=
  let rect := getBoundingClientRect el in
  dom_tagName el ++ js "-" ++ slice0 50 rawInner ++ js "-"
  ++ attr el (js "href") ++ js "-" ++ Number.toString (rect_top rect)
  ++ js "-" ++ Number.toString (rect_left rect).

(** The record pushed for [el], with [id] the next free id. *)
Definition capture (doc : Document) (body : DomElement)
    (ancestors : list DomElement) (el : DomElement) (rawInner : jsstring)
    (id : number) : Result Element :=
  let text := slice0 200 rawInner in
  let titleAttr := slice0 100 (trim (attr el (js "title"))) in
  let role := or_else (attr el (js "role")) (toLowerCase (dom_tagName el)) in
  let tagName := toLowerCase (dom_tagName el) in
  let placeholder := slice0 60 (trim (attr el (js "placeholder"))) in
  let href := trim (attr el (js "href")) in
  let ariaLabel := slice0 100 (trim (attr el (js "aria-label"))) in
  let value :=
    slice0 100
      (trim (match dom_value el with
             | JUndefined => []
             | v => ToString v
             end)) in
  let type := trim (attr el (js "type")) in
  let labelled :=
    JsString.eqb tagName (js "input") || JsString.eqb tagName (js "textarea")
    || JsString.eqb tagName (js "select") in
  match (if labelled then getAssociatedLabelText doc body ancestors el
         else Ok []) with
  | Err e => Err e
  | Ok labelText =>
      let isInDialog := closest el dialogSelector in
      let disabled :=
        hasAttribute el (js "disabled")
        || match getAttribute el (js "aria-disabled") with
           | Some v => JsString.eqb v (js "true")
           | None => false
           end in
      match getStableSelector doc el with
      | Err e => Err e
      | Ok stable =>
          Ok {| el_id := id;
                el_role := role;
                el_tagName := tagName;
                el_text := displayText text ariaLabel titleAttr value
                             placeholder href labelText;
                el_placeholder := orUndefined placeholder;
                el_href := orUndefined href;
                el_value := orUndefined value;
                el_type := orUndefined type;
                el_labelText := orUndefined labelText;
                el_title := orUndefined titleAttr;
                el_selector := stable;
                el_isInDialog := isInDialog;
                el_disabled := disabled;
                el_options := selectOptions el tagName |}
      end
  end.

(** [for (let i = 0; i < el.children.length; i++) walk(el.children[i])] *)
Fixpoint eachChild (visit : DomNode -> WalkState -> Result WalkState)
    (children : list DomNode) (st : WalkState) : Result WalkState :=
  match children with
  | [] => Ok st
  | c :: rest =>
      match visit c st with
      | Ok st1 => eachChild visit rest st1
      | Err e => Err e
      end
  end.

(** [walk]: the depth-first traversal from the body.  A node that is not
    recorded hands the traversal to its children; a recorded node does so
    only when it is not one of the leaf kinds. *)
Fixpoint walk (doc : Document) (body : DomElement) (ancestors : list DomElement)
    (node : DomNode) (st : WalkState) {struct node} : Result WalkState :=
  match node with
  | DNode el children =>
      let walkChildren := eachChild (walk doc body (el :: ancestors)) children in
      if (MAX_ELEMENTS <=? List.length (elements st))%nat then Ok st
      else if negb (matches el interactiveSelector) then walkChildren st
      else
        let rect := getBoundingClientRect el in
        let roleAttr := attr el (js "role") in
        let isButtonLike :=
          JsString.eqb roleAttr (js "button")
          || JsString.eqb (dom_tagName el) (js "A")
             && negb (is_empty (attr el (js "href"))) in
        let hasLabel :=
          negb (is_empty
                  (trim (or_else (or_else (dom_innerText el) (dom_textContent el))
                           (attr el (js "aria-label"))))) in
        let skipSmall :=
          Number.lt_int (rect_width rect) 2 || Number.lt_int (rect_height rect) 2 in
        if skipSmall && negb (isButtonLike && hasLabel) then walkChildren st
        else if JsString.eqb (style_visibility el) (js "hidden")
                || JsString.eqb (style_display el) (js "none")
        then walkChildren st
        else
          let rawInner := trim (or_else (dom_innerText el) (dom_textContent el)) in
          let key := dedupKey el rawInner in
          if existsb (JsString.eqb key) (seen st) then walkChildren st
          else
            let id := Number.ofNat (List.length (elements st) + 1) in
            match capture doc body ancestors el rawInner id with
            | Err e => Err e
            | Ok recorded =>
                let st' := {| seen := key :: seen st;
                              elements := elements st ++ [recorded] |} in
                if negb (matches el leafSelector) then walkChildren st'
                else Ok st'
            end
  end.

(** [parseInt(h.tagName.charAt(1), 10)] *)
Definition headingLevel (tagName : jsstring) : number :=
  match tagName with
  | _ :: c :: _ =>
      if ((48 <=? c) && (c <=? 57))%N then Int (Z.of_N (c - 48)) else NaN
  | _ => NaN
  end.

(** The [forEach] over the heading nodes. *)
Fixpoint collectHeadings (nodes : list DomElement) (headings : list Heading)
    : list Heading :=
  match nodes with
  | [] => headings
  | h :: rest =>
      if (MAX_HEADINGS <=? List.length headings)%nat
      then collectHeadings rest headings
      else
        let text := slice0 120 (trim (dom_textContent h)) in
        if is_empty text then collectHeadings rest headings
        else collectHeadings rest
               (headings ++ [{| h_level := headingLevel (dom_tagName h);
                                h_text := text |}])
  end.

(** [s.replace(/\s+/g, ' ')] *)
Fixpoint collapseSpaces (inRun : bool) (s : jsstring) : jsstring :=
  match s with
  | [] => []
  | c :: s' =>
      if is_space c
      then (if inRun then collapseSpaces true s' else 32%N :: collapseSpaces true s')
      else c :: collapseSpaces false s'
  end.

Record PageSnapshot := {
  ps_url : jsstring;
  ps_title : jsstring;
  ps_elements : list Element;
  ps_headings : list Heading;
  ps_contentExcerpt : jsstring
}.

Definition collectSnapshotScript (doc : Document) : Result PageSnapshot :=
  match doc_body doc with
  | None =>
      Ok {| ps_url := []; ps_title := []; ps_elements := [];
            ps_headings := []; ps_contentExcerpt := [] |}
  | Some (DNode root _ as rootNode) =>
      let headings :=
        collectHeadings (body_querySelectorAll doc (js "H1,H2,H3,H4,H5,H6")) [] in
      let mainEl :=
        match body_querySelector doc (jsq "main, [role='main']") with
        | Some m => m
        | None => root
        end in
      let raw := trim (collapseSpaces false (dom_textContent mainEl)) in
      let contentExcerpt := slice0 MAX_CONTENT_CHARS raw in
      match walk doc root [] rootNode {| seen := []; elements := [] |} with
      | Err e => Err e
      | Ok st =>
          Ok {| ps_url := doc_href doc;
                ps_title := doc_title doc;
                ps_elements := elements st;
                ps_headings := headings;
                ps_contentExcerpt := contentExcerpt |}
      end
  end.

End PageSnapshot.

(* ===================================================================== *)
(** * Environment calls and programs                                      *)
(* ===================================================================== *)

Definition PageRef := nat.

(** A Playwright locator: [page.locator(s).first()], [page.locator(s).nth(i)]
    or [outer.locator(s).first()]. *)
Inductive Locator :=
| LocFirst (page : PageRef) (selector : jsstring)
| LocNth (page : PageRef) (selector : jsstring) (index : number)
| LocInnerFirst (outer : Locator) (selector : jsstring).

(** ** The conversation with the model service *)

Record ToolCall := {
  call_id : jsstring;
  call_name : jsstring;
  call_arguments : jsstring
}.

Inductive Message :=
| MsgText (role : jsstring) (content : jsstring)
| MsgToolCalls (calls : list ToolCall)
| MsgTool (tool_call_id : jsstring) (content : jsstring).

Record CompletionRequest := {
  req_model : jsstring;
  req_messages : list Message;
  req_tools : bool;
  req_max_tokens : option Z
}.

(** [response.choices?.[0]], with an absent [content] or [tool_calls] as
    the empty string or list. *)
Record Choice := {
  finish_reason : jsstring;
  message_content : jsstring;
  tool_calls : list ToolCall
}.

(** ** Calls

    Every call the code awaits from outside, indexed by what it answers.
    A call that can reject answers with a [Result].  [PageEvaluateSnapshot]
    answers with the document the snapshot script runs on, and
    [PageEvaluateClick] stands for the in-page script of
    [clickViaEvaluate].  [DialogAccept] is [dialog.accept()].  Console
    output is left out. *)
Inductive Cmd : Type -> Type :=
| ChatCompletion (req : CompletionRequest) : Cmd (Result (option Choice))
| GetUserConfirmation (description : jsstring) : Cmd (Result bool)
| SetTimeout (ms : Z) : Cmd unit
| SetTimeoutSeconds (sec : number) : Cmd unit
| ContextPages : Cmd (list PageRef)
| ContextNewPage : Cmd (Result PageRef)
| PageGoto (page : PageRef) (url : jsstring) (timeout : Z) : Cmd (Result unit)
| PageWaitForLoadState (page : PageRef) (state : jsstring) (timeout : Z)
    : Cmd (Result unit)
| PageBringToFront (page : PageRef) : Cmd (Result unit)
| PageUrl (page : PageRef) : Cmd (Result jsstring)
| PageTitle (page : PageRef) : Cmd (Result jsstring)
| PageEvaluateSnapshot (page : PageRef) : Cmd (Result PageSnapshot.Document)
| PageEvaluateClick (page : PageRef) (desc : SelectorDescriptor)
    (textHint : jsstring) : Cmd (Result unit)
| KeyboardType (page : PageRef) (text : jsstring) (delay : Z) : Cmd (Result unit)
| MouseWheel (page : PageRef) (dx dy : Z) : Cmd (Result unit)
| LocatorWaitFor (l : Locator) (timeout : Z) : Cmd (Result unit)
| LocatorScrollIntoViewIfNeeded (l : Locator) (timeout : Z) : Cmd (Result unit)
| LocatorClick (l : Locator) (timeout : Z) (force : bool) : Cmd (Result unit)
| LocatorFill (l : Locator) (text : jsstring) (timeout : option Z)
    : Cmd (Result unit)
| LocatorSelectOption (l : Locator) (byLabel : bool) (v : jsstring)
    (timeout : Z) : Cmd (Result unit)
| LocatorCheck (l : Locator) (timeout : Z) : Cmd (Result unit)
| LocatorUncheck (l : Locator) (timeout : Z) : Cmd (Result unit)
| DialogAccept (dialog : nat) : Cmd (Result unit).

(** A program: it returns, or makes a call and goes on with the answer. *)
Inductive Prog (A : Type) : Type :=
| Ret (a : A)
| Vis (X : Type) (c : Cmd X) (k : X -> Prog A).

Arguments Ret {A} a.
Arguments Vis {A X} c k.

Fixpoint pbind {A B : Type} (p : Prog A) (f : A -> Prog B) : Prog B :=
  match p with
  | Ret a => f a
  | Vis c k => Vis c (fun x => pbind (k x) f)
  end.

(** ** Running a program against an environment

    An environment answers each call from its own state; a run records
    the calls made and the answers given, in order. *)
Inductive Event :=
| Ev (X : Type) (c : Cmd X) (answer : X).

Arguments Ev {X} c answer.

Definition Handler (W : Type) := forall X : Type, Cmd X -> W -> X * W.

Fixpoint run {W A : Type} (h : Handler W) (p : Prog A) (w : W)
    : list Event * A * W :=
  match p with
  | Ret a => ([], a, w)
  | Vis c k =>
      let (x, w1) := h _ c w in
      let '(tr, a, w2) := run h (k x) w1 in
      (Ev c x :: tr, a, w2)
  end.

Definition trace {W A : Type} (h : Handler W) (p : Prog A) (w : W) : list Event :=
  fst (fst (run h p w)).

Definition outcome {W A : Type} (h : Handler W) (p : Prog A) (w : W) : A :=
  snd (fst (run h p w)).

(** ** The browser controller's methods

    [BrowserController] after [launch]: the context is set, the active
    page is [ctl_page] (the [#page] field).  A method is a program over
    that state which returns or throws. *)
Record BrowserController := { ctl_page : option PageRef }.

Definition M (A : Type) : Type :=
  BrowserController -> Prog (Result A * BrowserController).

Definition ret {A : Type} (a : A) : M A := fun b => Ret (Ok a, b).

Definition throw {A : Type} (e : JsError) : M A := fun b => Ret (Err e, b).

Definition bind {A B : Type} (m : M A) (f : A -> M B) : M B :=
  fun b =>
    pbind (m b)
      (fun rb => match rb with
                 | (Ok a, b1) => f a b1
                 | (Err e, b1) => Ret (Err e, b1)
                 end).

(** [try { m } catch (err) { ... }]: the outcome of [m] as a value. *)
Definition attempt {A : Type} (m : M A) : M (Result A) :=
  fun b => pbind (m b) (fun rb => Ret (Ok (fst rb), snd rb)).

(** [await] of a call that can reject, and of one that cannot. *)
Definition await {A : Type} (c : Cmd (Result A)) : M A :=
  fun b => Vis c (fun r => Ret (r, b)).

Definition perform {A : Type} (c : Cmd A) : M A :=
  fun b => Vis c (fun x => Ret (Ok x, b)).

Definition lift {A : Type} (r : Result A) : M A := fun b => Ret (r, b).

Definition getState : M BrowserController := fun b => Ret (Ok b, b).

Definition setPage (p : option PageRef) : M unit :=
  fun _ => Ret (Ok tt, {| ctl_page := p |}).

Declare Scope js_scope.
Delimit Scope js_scope with js_m.

Notation "x <- m ;; k" := (bind m (fun x => k))
  (at level 61, m at next level, right associativity) : js_scope.
Notation "m ;;; k" := (bind m (fun _ => k))
  (at level 61, right associativity) : js_scope.

Open Scope js_scope.

(** [promise.catch(() => {})] *)
Definition swallow (m : M unit) : M unit :=
  _ <- attempt m ;; ret tt.

(* ===================================================================== *)
(** * Browser controller (browser.js)                                     *)
(* ===================================================================== *)

Module Browser.

Definition ACTION_DELAY_MS : Z := 500.
Definition CLICK_AFTER_DELAY_MS : Z := 1200.

(** [JSON.stringify] of a descriptor whose [value] is empty, the only
    plain and XPath descriptors [locatorFromSelector] refuses. *)
Definition invalidDescriptor (type : jsstring) : JsError :=
  Error (js "Invalid selector descriptor: "
         ++ jsq "{'type':'" ++ type ++ jsq "','value':''}").

Definition locatorFromSelector (page : PageRef) (selectorDesc : SelectorDescriptor)
    : Result Locator :=
  match selectorDesc with
  | SelXPath value =>
      if is_empty value then Err (invalidDescriptor (js "xpath"))
      else Ok (LocFirst page (js "xpath=" ++ value))
  | SelNth selector index => Ok (LocNth page selector index)
  | SelPlain value =>
      if is_empty value then Err (invalidDescriptor (js "selector"))
      else Ok (LocFirst page value)
  end.

Definition clickViaEvaluate (page : PageRef) (selectorDesc : SelectorDescriptor)
    (expectedText : jsstring) : M unit :=
  await (PageEvaluateClick page selectorDesc (slice0 40 expectedText)).

Definition findElementInSnapshot (snapshot : Snapshot) (id : number)
    : Result Element :=
  match findById (snap_elements snapshot) id with
  | Some el => Ok el
  | None =>
      Err (Error (js "Element id not found in snapshot: " ++ Number.toString id))
  end.

Definition getPage : M PageRef :=
  b <- getState ;;
  match ctl_page b with
  | Some p => ret p
  | None => throw (Error (js "Browser not launched"))
  end.

Definition getPages : M (list PageRef) := perform ContextPages.

Definition delay : M unit := perform (SetTimeout ACTION_DELAY_MS).

Definition newTab (url : option jsstring) : M PageRef :=
  p <- await ContextNewPage ;;
  setPage (Some p) ;;;
  (match url with
   | Some u =>
       if is_empty u then ret tt
       else
         await (PageGoto p u 30000) ;;;
         swallow (await (PageWaitForLoadState p (js "networkidle") 5000))
   | None => ret tt
   end) ;;;
  delay ;;;
  ret p.

(** [pages[tabIndex]] *)
Definition pageAt (pages : list PageRef) (tabIndex : number) : option PageRef :=
  match tabIndex with
  | Int z => if (z <? 0)%Z then None else nth_error pages (Z.to_nat z)
  | _ => None
  end.

Definition switchTab (tabIndex : number) : M unit :=
  pages <- getPages ;;
  if Number.lt_int tabIndex 0
     || Number.ge_int tabIndex (Z.of_nat (List.length pages))
  then
    throw (Error (js "Invalid tab index: " ++ Number.toString tabIndex
                  ++ js " (tabs: 0–"
                  ++ Number.toString (Int (Z.of_nat (List.length pages) - 1))
                  ++ js ")"))
  else
    setPage (pageAt pages tabIndex) ;;;
    match pageAt pages tabIndex with
    | Some p => await (PageBringToFront p) ;;; delay
    | None =>
        throw (TypeError
                 (js "Cannot read properties of undefined (reading 'bringToFront')"))
    end.

(** [pages.indexOf(page)] *)
Fixpoint indexOfPage (page : PageRef) (pages : list PageRef) (i : Z) : Z :=
  match pages with
  | [] => (-1)%Z
  | p :: rest => if (p =? page)%nat then i else indexOfPage page rest (i + 1)%Z
  end.

(** The [pages.map] that lists the tabs; a page that cannot tell its
    title is listed as loading. *)
Fixpoint listTabs (pages : list PageRef) (i : Z) : M (list TabInfo) :=
  match pages with
  | [] => ret []
  | p :: rest =>
      r <- attempt (url <- await (PageUrl p) ;;
                    title <- await (PageTitle p) ;;
                    ret {| tab_index := Int i; tab_url := url; tab_title := title |}) ;;
      let tab :=
        match r with
        | Ok t => t
        | Err _ => {| tab_index := Int i; tab_url := js "(navigating)";
                      tab_title := js "(loading)" |}
        end in
      tabs <- listTabs rest (i + 1)%Z ;;
      ret (tab :: tabs)
  end.

(** [/Execution context was destroyed|Target closed/i] *)
Definition contextDestroyed : regex :=
  alts [lit (js "Execution context was destroyed"); lit (js "Target closed")].

(** [getPageSnapshot]: the snapshot script run on the page's document. *)
Definition getPageSnapshot (page : PageRef) : M PageSnapshot.PageSnapshot :=
  doc <- await (PageEvaluateSnapshot page) ;;
  lift (PageSnapshot.collectSnapshotScript doc).

Definition getSnapshot : M Snapshot :=
  page <- getPage ;;
  pages <- getPages ;;
  let activeIndex := indexOfPage page pages 0 in
  tabs <- listTabs pages 0 ;;
  swallow (await (PageWaitForLoadState page (js "domcontentloaded") 8000)) ;;;
  first <- attempt (getPageSnapshot page) ;;
  pageSnapshot <-
    match first with
    | Ok ps => ret ps
    | Err err =>
        if test contextDestroyed (err_message err) then
          delay ;;;
          swallow (await (PageWaitForLoadState page (js "domcontentloaded") 10000)) ;;;
          getPageSnapshot page
        else throw err
    end ;;
  ret {| snap_url := PageSnapshot.ps_url pageSnapshot;
         snap_title := PageSnapshot.ps_title pageSnapshot;
         snap_elements := PageSnapshot.ps_elements pageSnapshot;
         snap_headings := PageSnapshot.ps_headings pageSnapshot;
         snap_contentExcerpt := PageSnapshot.ps_contentExcerpt pageSnapshot;
         snap_tabs := tabs;
         snap_activeTabIndex := Int activeIndex |}.

Definition navigate (url : jsstring) : M unit :=
  page <- getPage ;;
  await (PageGoto page url 30000) ;;;
  swallow (await (PageWaitForLoadState page (js "networkidle") 5000)) ;;;
  delay.

(** The element is a wrapper card: a [div] or [span] with the button role. *)
Definition isWrapper (el : Element) : bool :=
  (JsString.eqb (el_tagName el) (js "div") || JsString.eqb (el_tagName el) (js "span"))
  && JsString.eqb (el_role el) (js "button").

(** The last part of [clickElement]: native click, then forced click,
    then the in-page script. *)
Definition clickTiers (page : PageRef) (locator : Locator)
    (selectorDesc : SelectorDescriptor) (textHint : jsstring) : M unit :=
  r1 <- attempt (await (LocatorClick locator 10000 false)) ;;
  match r1 with
  | Ok _ => ret tt
  | Err _ =>
      r2 <- attempt (await (LocatorClick locator 5000 true)) ;;
      match r2 with
      | Ok _ => ret tt
      | Err _ => clickViaEvaluate page selectorDesc textHint
      end
  end ;;;
  perform (SetTimeout CLICK_AFTER_DELAY_MS).

Definition clickElement (snapshot : Snapshot) (elementId : number) : M unit :=
  el <- lift (findElementInSnapshot snapshot elementId) ;;
  page <- getPage ;;
  let selectorDesc := el_selector el in
  let textHint :=
    slice0 40
      (trim (or_else (el_text el)
               (match el_href el with Some h => h | None => [] end))) in
  locator <- lift (locatorFromSelector page selectorDesc) ;;
  await (LocatorWaitFor locator 15000) ;;;
  await (LocatorScrollIntoViewIfNeeded locator 8000) ;;;
  delay ;;;
  if isWrapper el then
    r <- attempt (clickViaEvaluate page selectorDesc textHint) ;;
    match r with
    | Ok _ => perform (SetTimeout CLICK_AFTER_DELAY_MS)
    | Err _ =>
        let innerLink := LocInnerFirst locator (js "a[href]") in
        r' <- attempt (await (LocatorWaitFor innerLink 3000) ;;;
                       await (LocatorClick innerLink 8000 false)) ;;
        match r' with
        | Ok _ => perform (SetTimeout CLICK_AFTER_DELAY_MS)
        | Err _ => clickTiers page locator selectorDesc textHint
        end
    end
  else clickTiers page locator selectorDesc textHint.

Definition typeText (snapshot : Snapshot) (elementId : option number)
    (text : jsstring) : M unit :=
  page <- getPage ;;
  match elementId with
  | Some id =>
      el <- lift (findElementInSnapshot snapshot id) ;;
      locator <- lift (locatorFromSelector page (el_selector el)) ;;
      await (LocatorFill locator [] None) ;;;
      await (LocatorFill locator text (Some 5000%Z))
  | None => await (KeyboardType page text 50)
  end ;;;
  delay.

Definition selectOption (snapshot : Snapshot) (elementId : number)
    (valueOrLabel : jsstring) : M unit :=
  el <- lift (findElementInSnapshot snapshot elementId) ;;
  page <- getPage ;;
  locator <- lift (locatorFromSelector page (el_selector el)) ;;
  r <- attempt (await (LocatorSelectOption locator false valueOrLabel 5000)) ;;
  match r with
  | Ok _ => ret tt
  | Err _ => await (LocatorSelectOption locator true valueOrLabel 5000)
  end ;;;
  delay.

Definition setCheckbox (snapshot : Snapshot) (elementId : number)
    (checked : bool) : M unit :=
  el <- lift (findElementInSnapshot snapshot elementId) ;;
  page <- getPage ;;
  locator <- lift (locatorFromSelector page (el_selector el)) ;;
  (if checked then await (LocatorCheck locator 5000)
   else await (LocatorUncheck locator 5000)) ;;;
  delay.

Definition scroll (direction : jsstring) : M unit :=
  page <- getPage ;;
  let delta := 300%Z in
  (if JsString.eqb direction (js "down") then await (MouseWheel page 0 delta)
   else if JsString.eqb direction (js "up") then await (MouseWheel page 0 (- delta))
   else if JsString.eqb direction (js "left") then await (MouseWheel page (- delta) 0)
   else if JsString.eqb direction (js "right") then await (MouseWheel page delta 0)
   else ret tt) ;;;
  delay.

End Browser.

(* ===================================================================== *)
(** * Tool dispatch (tools.js)                                            *)
(* ===================================================================== *)

Record ActionResult := {
  success : bool;
  message : jsstring;
  stop : bool;
  userQuestion : option jsstring
}.

Module Tools.

Definition failed (msg : jsstring) : ActionResult :=
  {| success := false; message := msg; stop := false; userQuestion := None |}.

Definition succeeded (msg : jsstring) : ActionResult :=
  {| success := true; message := msg; stop := false; userQuestion := None |}.

(** [TOOL_DEFINITIONS]: for each tool its name, the type of each
    parameter and the names of the required ones (the descriptions are
    left out). *)
Record ToolParameter := { param_name : jsstring; param_type : jsstring }.

Record ToolDefinition := {
  tool_name : jsstring;
  tool_parameters : list ToolParameter;
  tool_required : list jsstring
}.

Definition parameter (name type : string) : ToolParameter :=
  {| param_name := js name; param_type := js type |}.

Definition TOOL_DEFINITIONS : list ToolDefinition :=
  [ {| tool_name := js "navigate";
       tool_parameters := [parameter "url" "string"];
       tool_required := [js "url"] |};
    {| tool_name := js "open_new_tab";
       tool_parameters := [parameter "url" "string"];
       tool_required := [] |};
    {| tool_name := js "switch_tab";
       tool_parameters := [parameter "tab_index" "integer"];
       tool_required := [js "tab_index"] |};
    {| tool_name := js "click_element";
       tool_parameters := [parameter "element_id" "integer"];
       tool_required := [js "element_id"] |};
    {| tool_name := js "type_text";
       tool_parameters := [parameter "text" "string"; parameter "element_id" "integer"];
       tool_required := [js "text"] |};
    {| tool_name := js "select_option";
       tool_parameters := [parameter "element_id" "integer";
                           parameter "value_or_label" "string"];
       tool_required := [js "element_id"; js "value_or_label"] |};
    {| tool_name := js "set_checkbox";
       tool_parameters := [parameter "element_id" "integer";
                           parameter "checked" "boolean"];
       tool_required := [js "element_id"; js "checked"] |};
    {| tool_name := js "scroll";
       tool_parameters := [parameter "direction" "string"];
       tool_required := [js "direction"] |};
    {| tool_name := js "wait";
       tool_parameters := [parameter "seconds" "number"];
       tool_required := [js "seconds"] |};
    {| tool_name := js "task_done";
       tool_parameters := [parameter "result" "string"];
       tool_required := [js "result"] |};
    {| tool_name := js "request_user_input";
       tool_parameters := [parameter "question" "string"];
       tool_required := [js "question"] |} ].

Section Dispatch.

(** The numeric value of a string, [Number(s)], as the engine computes it. *)
Variable StringToNumber : jsstring -> number.

(** [Number(v)] *)
Definition ToNumber (v : JsValue) : number :=
  match v with
  | JUndefined => NaN
  | JNull => Int 0
  | JBool b => Int (if b then 1 else 0)
  | JNum n => n
  | JStr s => StringToNumber s
  | JArr _ | JObj _ => StringToNumber (ToString v)
  end.

(** [Math.min(10, Math.max(1, Number(args.seconds) || 2))] *)
Definition waitSeconds (args : JsObject) : number :=
  let n := ToNumber (prop args (js "seconds")) in
  Number.min_int 10 (Number.max_int 1 (if Number.truthy n then n else Int 2)).

Definition CLICK_FAILED_HINT : jsstring :=
  js ". Try scroll(down) to bring the element into view, then wait(2), then click again; or the element may have changed (re-check snapshot).".

Definition DISABLED_MESSAGE : jsstring :=
  js "Element is disabled. Fill required fields or wait for it to become enabled, then try again.".

(** [try { await m; return ok } catch (err) { return { success: false, ... } }] *)
Definition guarded (m : M unit) (ok : ActionResult)
    (onError : JsError -> ActionResult) : M ActionResult :=
  r <- attempt m ;;
  match r with
  | Ok _ => ret ok
  | Err err => ret (onError err)
  end.

Definition reportError (err : JsError) : ActionResult := failed (errorText err).

Definition isDirection (v : JsValue) : option jsstring :=
  match v with
  | JStr d =>
      if existsb (JsString.eqb d) [js "up"; js "down"; js "left"; js "right"]
      then Some d else None
  | _ => None
  end.

Definition executeTool (name : jsstring) (args : JsObject) (snapshot : Snapshot)
    : M ActionResult :=
  if JsString.eqb name (js "navigate") then
    match prop args (js "url") with
    | JStr url =>
        Browser.navigate url ;;;
        ret (succeeded (js "Navigated to " ++ url))
    | _ => ret (failed (js "url must be a string"))
    end
  else if JsString.eqb name (js "open_new_tab") then
    let url := prop args (js "url") in
    r <- attempt (Browser.newTab (match url with JStr u => Some u | _ => None end) ;;;
                  Browser.getPages) ;;
    match r with
    | Ok pages =>
        let idx := Number.toString (Int (Z.of_nat (List.length pages) - 1)) in
        ret (succeeded
               (if truthy url
                then js "Opened new tab " ++ idx ++ js " and navigated to "
                     ++ ToString url
                else js "Opened new tab " ++ idx
                     ++ js " (blank). Use navigate(url) to go to a page."))
    | Err err => ret (reportError err)
    end
  else if JsString.eqb name (js "switch_tab") then
    match prop args (js "tab_index") with
    | JNum tabIndex =>
        guarded (Browser.switchTab tabIndex)
          (succeeded (js "Switched to tab " ++ Number.toString tabIndex))
          reportError
    | _ => ret (failed (js "tab_index must be a number"))
    end
  else if JsString.eqb name (js "click_element") then
    match prop args (js "element_id") with
    | JNum elementId =>
        let targetEl := findById (snap_elements snapshot) elementId in
        if match targetEl with Some el => el_disabled el | None => false end
        then ret (failed DISABLED_MESSAGE)
        else
          guarded (Browser.clickElement snapshot elementId)
            (succeeded (js "Clicked element " ++ Number.toString elementId))
            (fun err => failed (errorText err ++ CLICK_FAILED_HINT))
    | _ => ret (failed (js "element_id must be a number"))
    end
  else if JsString.eqb name (js "type_text") then
    let elementId := prop args (js "element_id") in
    match prop args (js "text") with
    | JStr text =>
        guarded
          (Browser.typeText snapshot
             (match elementId with JNum id => Some id | _ => None end) text)
          (succeeded
             (js "Typed text into "
              ++ match elementId with
                 | JUndefined | JNull => js "focused field"
                 | _ => js "element " ++ ToString elementId
                 end))
          reportError
    | _ => ret (failed (js "text must be a string"))
    end
  else if JsString.eqb name (js "select_option") then
    match prop args (js "element_id") with
    | JNum elementId =>
        match prop args (js "value_or_label") with
        | JStr valueOrLabel =>
            guarded (Browser.selectOption snapshot elementId valueOrLabel)
              (succeeded (jsq "Selected '" ++ valueOrLabel ++ jsq "' in element "
                          ++ Number.toString elementId))
              reportError
        | _ => ret (failed (js "value_or_label must be a string"))
        end
    | _ => ret (failed (js "element_id must be a number"))
    end
  else if JsString.eqb name (js "set_checkbox") then
    match prop args (js "element_id") with
    | JNum elementId =>
        match prop args (js "checked") with
        | JBool checked =>
            guarded (Browser.setCheckbox snapshot elementId checked)
              (succeeded ((if checked then js "Checked" else js "Unchecked")
                          ++ js " element " ++ Number.toString elementId))
              reportError
        | _ => ret (failed (js "checked must be a boolean"))
        end
    | _ => ret (failed (js "element_id must be a number"))
    end
  else if JsString.eqb name (js "scroll") then
    match isDirection (prop args (js "direction")) with
    | Some direction =>
        Browser.scroll direction ;;;
        ret (succeeded (js "Scrolled " ++ direction))
    | None => ret (failed (js "direction must be up, down, left, or right"))
    end
  else if JsString.eqb name (js "wait") then
    let sec := waitSeconds args in
    perform (SetTimeoutSeconds sec) ;;;
    ret (succeeded (js "Waited " ++ Number.toString sec ++ js " seconds"))
  else if JsString.eqb name (js "task_done") then
    ret {| success := true;
           message := match prop args (js "result") with
                      | JStr result => result
                      | _ => js "Done"
                      end;
           stop := true;
           userQuestion := None |}
  else if JsString.eqb name (js "request_user_input") then
    ret {| success := true;
           message := match prop args (js "question") with
                      | JStr question => question
                      | _ => js "Need your input"
                      end;
           stop := true;
           userQuestion := match prop args (js "question") with
                           | JStr question => Some question
                           | _ => None
                           end |}
  else ret (failed (js "Unknown tool: " ++ name)).

End Dispatch.

End Tools.

(* ===================================================================== *)
(** * Rendering of a snapshot (pageSnapshot.js)                           *)
(* ===================================================================== *)

Module Prompt.

Definition nl : jsstring := [10%N].

Definition RangeError (msg : jsstring) : JsError :=
  {| err_name := js "RangeError"; err_message := msg |}.

(** ['#'.repeat(level)] *)
Definition repeatHash (level : number) : Result jsstring :=
  let invalid := Err (RangeError (js "Invalid count value: " ++ Number.toString level)) in
  match level with
  | NaN => Ok []
  | Int z => if (z <? 0)%Z then invalid else Ok (repeat 35%N (Z.to_nat z))
  | Frac fl _ => if (fl <? -1)%Z then invalid else Ok (repeat 35%N (Z.to_nat fl))
  | Infinity _ => invalid
  end.

Definition tabLine (active : number) (t : TabInfo) : jsstring :=
  let mark := if Number.eqb (tab_index t) active then js "*" else js " " in
  let title := slice0 50 (or_else (tab_title t) (js "(no title)")) in
  let url := slice0 70 (or_else (tab_url t) (js "about:blank")) in
  js "  " ++ Number.toString (tab_index t) ++ mark ++ js ": " ++ title
  ++ js " — " ++ url.

Fixpoint headingLines (hs : list Heading) : Result (list jsstring) :=
  match hs with
  | [] => Ok []
  | h :: rest =>
      match repeatHash (h_level h) with
      | Err e => Err e
      | Ok hashes =>
          match headingLines rest with
          | Err e => Err e
          | Ok ls => Ok ((js "  " ++ hashes ++ js " " ++ h_text h) :: ls)
          end
      end
  end.

Definition optionList (opts : list (jsstring * jsstring)) : jsstring :=
  let labels :=
    firstn 15
      (filter (fun l => negb (is_empty l))
         (map (fun o => or_else (snd o) (fst o)) opts)) in
  js " options: " ++ join (js ", ") labels
  ++ (if (15 <? List.length opts)%nat then js "…" else []).

Definition elementLine (el : Element) : jsstring :=
  let opt (o : option jsstring) (f : jsstring -> jsstring) : jsstring :=
    match o with
    | Some v => if is_empty v then [] else f v
    | None => []
    end in
  js "  " ++ Number.toString (el_id el) ++ js ". [" ++ el_tagName el
  ++ opt (el_type el) (fun t => js " type=" ++ t) ++ js "]"
  ++ (if JsString.eqb (el_role el) (js "button") then js " (button)" else [])
  ++ (if el_isInDialog el then js " (in modal/dialog)" else [])
  ++ (if el_disabled el then js " (disabled)" else [])
  ++ opt (el_labelText el) (fun l => jsq " label='" ++ l ++ jsq "'")
  ++ (if is_empty (el_text el) then []
      else jsq " '" ++ slice0 100 (el_text el) ++ jsq "'")
  ++ opt (el_placeholder el) (fun v => jsq " placeholder='" ++ v ++ jsq "'")
  ++ opt (el_value el) (fun v => jsq " value='" ++ slice0 50 v ++ jsq "'")
  ++ opt (el_href el) (fun v => jsq " href='" ++ slice0 60 v ++ jsq "'")
  ++ match el_options el with
     | Some ((_ :: _) as opts) => optionList opts
     | _ => []
     end.

Definition formatSnapshotForPrompt (snapshot : Snapshot) : Result jsstring :=
  match headingLines (snap_headings snapshot) with
  | Err e => Err e
  | Ok hlines =>
      let tabs :=
        match snap_tabs snapshot with
        | [] => []
        | ts =>
            [js "Tabs (current tab marked with *):"]
            ++ map (tabLine (snap_activeTabIndex snapshot)) ts ++ [[]]
        end in
      let head :=
        [js "URL: " ++ snap_url snapshot; js "Title: " ++ snap_title snapshot; []] in
      let headings :=
        match hlines with
        | [] => []
        | _ => [js "Structure (headings):"] ++ hlines ++ [[]]
        end in
      let content :=
        if is_empty (snap_contentExcerpt snapshot) then []
        else [js "Page content (excerpt):"; snap_contentExcerpt snapshot; []] in
      let els :=
        [js "Interactive elements (use id to click or type):"]
        ++ map elementLine (snap_elements snapshot) in
      let truncated :=
        if (PageSnapshot.MAX_ELEMENTS <=? List.length (snap_elements snapshot))%nat
        then [js "  ... (page truncated to 200 elements)"] else [] in
      Ok (join nl (tabs ++ head ++ headings ++ content ++ els ++ truncated))
  end.

End Prompt.

(* ===================================================================== *)
(** * Control loop (agent.js, subAgents.js)                               *)
(* ===================================================================== *)

Record AgentResult := {
  done : bool;
  result : option jsstring;
  agentQuestion : option jsstring;
  error : option jsstring
}.

Module Agent.

Definition MAX_ITERATIONS : nat := 80.
Definition MODEL : jsstring := js "gpt-4o-mini".
Definition TASK_TYPES : list jsstring := [js "browse"; js "form"; js "read"].

Definition CLASSIFIER_PROMPT : jsstring :=
  js "Classify the user task into exactly one word: browse (open pages, follow links), form (fill inputs, submit forms, login), read (find and read content, extract info). Reply with only that one word.".

Definition TASK_PREAMBLE : jsstring :=
  Prompt.nl ++ Prompt.nl
  ++ js "What is the current state of the page? Decide the next action. If you see a blank page or no relevant content, navigate first. Otherwise use the element ids from the snapshot below.".

Definition exhausted : AgentResult :=
  {| done := false; result := None; agentQuestion := None;
     error := Some (js "Max iterations reached") |}.

Definition noResponse : AgentResult :=
  {| done := false; result := None; agentQuestion := None;
     error := Some (js "No response from model") |}.

Definition DENIED : ActionResult :=
  Tools.failed (js "User denied the action.").

Section Loop.

(** What the engine and the prompt table provide: [Number] on strings,
    [JSON.parse] ([None] when it throws), and the system prompt of each
    task type. *)
Variable StringToNumber : jsstring -> number.
Variable JSON_parse : jsstring -> option JsValue.
Variable SUB_AGENT_PROMPTS : jsstring -> jsstring.

(** [deps.getUserConfirmation] is optional. *)
Variable hasUserConfirmation : bool.

Definition classifyTask (userTask : jsstring) : M jsstring :=
  response <- await (ChatCompletion
                       {| req_model := js "gpt-4o-mini";
                          req_messages :=
                            [MsgText (js "system") CLASSIFIER_PROMPT;
                             MsgText (js "user") (js "Task: " ++ userTask)];
                          req_tools := false;
                          req_max_tokens := Some 10%Z |}) ;;
  let content :=
    match response with
    | Some choice => message_content choice
    | None => []
    end in
  let word := toLowerCase (trim (or_else content (js "default"))) in
  ret (if existsb (JsString.eqb word) TASK_TYPES then word else js "default").

(** [messages[1].content += '\n\n' + text] *)
Definition mergeIntoFirstUserTurn (messages : list Message) (text : jsstring)
    : list Message :=
  match messages with
  | m0 :: MsgText role content :: rest =>
      m0 :: MsgText role (content ++ Prompt.nl ++ Prompt.nl ++ text) :: rest
  | _ => messages
  end.

(** The arguments of a tool call: [JSON.parse], [{}] when it throws.
    [logToolCall] then prints them: of that the model keeps the
    [TypeError] that [Object.entries] raises on [null].  A parsed value
    that is not an object has none of the properties the tools read. *)
Definition parseArguments (arguments : jsstring) : Result JsObject :=
  match JSON_parse (or_else arguments (js "{}")) with
  | None => Ok []
  | Some JNull =>
      Err (TypeError (js "Cannot convert undefined or null to object"))
  | Some (JObj fields) => Ok fields
  | Some _ => Ok []
  end.

(** Lines 96 to 107: the policy gate, then the dispatch unless the user
    denies a destructive action. *)
Definition gateAndExecute (name : jsstring) (args : JsObject) (snapshot : Snapshot)
    : M ActionResult :=
  let security := Security.checkDestructiveAction name args snapshot in
  if Security.destructive security && hasUserConfirmation then
    allowed <- await (GetUserConfirmation
                        (match Security.description security with
                         | Some d => d
                         | None => js "Sensitive action"
                         end)) ;;
    if negb allowed then ret DENIED
    else Tools.executeTool StringToNumber name args snapshot
  else Tools.executeTool StringToNumber name args snapshot.

(** The body of the [for] loop for one [i]; [inl] is [continue] with the
    new transcript, [inr] is [return].  The request for a decision is
    the one that offers [TOOL_DEFINITIONS] ([req_tools]). *)
Definition iteration (i : nat) (messages : list Message)
    : M (list Message + AgentResult) :=
  snapshot <- Browser.getSnapshot ;;
  snapshotText <- lift (Prompt.formatSnapshotForPrompt snapshot) ;;
  let stateContent := js "Current page state:" ++ Prompt.nl ++ Prompt.nl ++ snapshotText in
  let messages :=
    if (i =? 0)%nat then mergeIntoFirstUserTurn messages stateContent
    else messages ++ [MsgText (js "user") stateContent] in
  response <- await (ChatCompletion
                       {| req_model := MODEL;
                          req_messages := messages;
                          req_tools := true;
                          req_max_tokens := None |}) ;;
  match response with
  | None => ret (inr noResponse)
  | Some choice =>
      match tool_calls choice with
      | [] =>
          if JsString.eqb (finish_reason choice) (js "stop") then
            ret (inl (messages
                      ++ [MsgText (js "assistant")
                            (or_else (message_content choice) (js "(no content)"))]))
          else
            ret (inl (messages
                      ++ [MsgText (js "assistant") (message_content choice)]))
      | toolCall :: _ =>
          let name := call_name toolCall in
          args <- lift (parseArguments (call_arguments toolCall)) ;;
          let messages :=
            messages
            ++ [MsgToolCalls
                  [{| call_id := call_id toolCall;
                      call_name := name;
                      call_arguments := or_else (call_arguments toolCall) (js "{}") |}]] in
          result <- gateAndExecute name args snapshot ;;
          let toolContent :=
            if success result then message result
            else js "Error: " ++ message result in
          let messages := messages ++ [MsgTool (call_id toolCall) toolContent] in
          if stop result then
            ret (inr {| done := true;
                        result := Some (message result);
                        agentQuestion := userQuestion result;
                        error := None |})
          else ret (inl messages)
      end
  end.

(** [for (let i = 0; i < MAX_ITERATIONS; i++)], with [remaining] the
    number of rounds left. *)
Fixpoint loop (remaining : nat) (i : nat) (messages : list Message)
    : M AgentResult :=
  match remaining with
  | O => ret exhausted
  | S n =>
      step <- iteration i messages ;;
      match step with
      | inl messages' => loop n (S i) messages'
      | inr res => ret res
      end
  end.

Definition runAgent (userTask : jsstring) : M AgentResult :=
  taskType <- classifyTask userTask ;;
  let systemPrompt := SUB_AGENT_PROMPTS taskType in
  let messages :=
    [MsgText (js "system") systemPrompt;
     MsgText (js "user") (js "Current task from user: " ++ userTask ++ TASK_PREAMBLE)] in
  loop MAX_ITERATIONS 0 messages.

End Loop.

End Agent.

(* ===================================================================== *)
(** * Launch and native dialogs (browser.js)                              *)
(* ===================================================================== *)

Module Launch.

(** ** The engine's event emitters

    A page keeps the listeners registered with [page.on('dialog', f)] and
    the context those registered with [context.on('page', g)].  When a
    page is opened in the context (by [context.newPage()] or by a page
    opening a popup) the context's page listeners are called on it. *)

Definition DialogListener := nat -> Prog unit.

Record PageState := {
  page_ref : PageRef;
  dialog_listeners : list DialogListener
}.

Record ContextState := {
  ctx_pages : list PageState;
  page_listeners : list (PageState -> PageState)
}.

Definition onDialog (f : DialogListener) (page : PageState) : PageState :=
  {| page_ref := page_ref page;
     dialog_listeners := dialog_listeners page ++ [f] |}.

Definition onPage (g : PageState -> PageState) (ctx : ContextState) : ContextState :=
  {| ctx_pages := ctx_pages ctx; page_listeners := page_listeners ctx ++ [g] |}.

Definition openPage (ref : PageRef) (ctx : ContextState) : ContextState :=
  let fresh := {| page_ref := ref; dialog_listeners := [] |} in
  {| ctx_pages :=
       ctx_pages ctx ++ [fold_left (fun p g => g p) (page_listeners ctx) fresh];
     page_listeners := page_listeners ctx |}.

(** A dialog raised on a page is handed to each of its listeners. *)
Fixpoint dispatchDialog (listeners : list DialogListener) (dialog : nat)
    : Prog unit :=
  match listeners with
  | [] => Ret tt
  | f :: rest => pbind (f dialog) (fun _ => dispatchDialog rest dialog)
  end.

(** ** The controller's code *)

(** [(dialog) => dialog.accept()] *)
Definition acceptDialog : DialogListener :=
  fun dialog => Vis (DialogAccept dialog) (fun _ => Ret tt).

(** [#attachDialogHandler(page)] *)
Definition attachDialogHandler (page : PageState) : PageState :=
  onDialog acceptDialog page.

(** [launch], from the context that [launchPersistentContext] returned:
    the handler goes on every page there is and on every page to come;
    the first page becomes the active one, and a page is opened when
    there is none ([newRef] is the page the engine then creates). *)
Definition launch (newRef : PageRef) (context : ContextState)
    : ContextState * BrowserController :=
  let attached :=
    {| ctx_pages := map attachDialogHandler (ctx_pages context);
       page_listeners := page_listeners context |} in
  let listening := onPage attachDialogHandler attached in
  match ctx_pages listening with
  | first :: _ => (listening, {| ctl_page := Some (page_ref first) |})
  | [] => (openPage newRef listening, {| ctl_page := Some newRef |})
  end.

(** The context as [launchPersistentContext] hands it over: nothing has
    been registered on it or on its pages. *)
Definition pristine (context : ContextState) : Prop :=
  page_listeners context = []
  /\ Forall (fun p => dialog_listeners p = []) (ctx_pages context).

(** Pages opened after the launch, in order. *)
Definition afterOpening (refs : list PageRef) (ctx : ContextState) : ContextState :=
  fold_left (fun c r => openPage r c) refs ctx.

End Launch.

(* ===================================================================== *)
(** * index.js: the questions put to the user                             *)
(* ===================================================================== *)

Module Launcher.

Definition always : cont := fun _ _ => true.

(** [$] without the [m] flag: the input ends here. *)
Definition atEnd : cont := fun _ rest => is_empty rest.

(** [/^y|yes|да|д$/i.test(s)].  Alternation binds weakest, so the
    alternatives are [^y], [yes], [да] and [д$]; [^] holds at index 0
    only.  [approvalFrom atStart prev s] looks for a match that starts
    at the head of [s] or further to the right. *)
Fixpoint approvalFrom (atStart : bool) (prev : option N) (s : jsstring) : bool :=
  atStart && rmatch (lit (js "y")) prev s always
  || rmatch (lit (js "yes")) prev s always
  || rmatch (lit (js "да")) prev s always
  || rmatch (lit (js "д")) prev s atEnd
  || match s with
     | c :: s' => approvalFrom false (Some c) s'
     | [] => false
     end.

(** The answer that [getUserConfirmation] resolves with, from the line
    the user typed. *)
Definition getUserConfirmation (answer : jsstring) : bool :=
  approvalFrom true None (trim answer).

End Launcher.

(* ===================================================================== *)
(** * Vocabulary of the properties                                        *)
(* ===================================================================== *)

Import Security PageSnapshot Browser Tools Launch.

(** ** Programs under an assumption on the environment

    [wp ok p Q] holds when every run of [p] whose answers all satisfy
    [ok] ends with a trace and a result that satisfy [Q]. *)

Definition Assumption := forall X : Type, Cmd X -> X -> Prop.

Fixpoint wp {A : Type} (ok : Assumption) (p : Prog A)
    (Q : list Event -> A -> Prop) : Prop :=
  match p with
  | Ret a => Q [] a
  | Vis c k => forall x, ok _ c x -> wp ok (k x) (fun tr a => Q (Ev c x :: tr) a)
  end.

Definition obeys {W : Type} (h : Handler W) (ok : Assumption) : Prop :=
  forall (X : Type) (c : Cmd X) (w : W), ok X c (fst (h X c w)).

Definition anything : Assumption := fun _ _ _ => True.

Definition isOk {A : Type} (r : Result A) : bool :=
  match r with Ok _ => true | Err _ => false end.

(** A request for a decision is a completion request that offers the tools. *)
Definition isDecision (e : Event) : bool :=
  match e with
  | Ev c _ => match c with ChatCompletion req => req_tools req | _ => false end
  end.

(** The number of decisions asked of the model, one per round of the loop. *)
Definition decisions (tr : list Event) : nat := List.length (filter isDecision tr).

Arguments decisions : simpl never.

(** A postcondition of the controller's methods: no decision is asked of
    the model and the controller is left as it was. *)
Definition quiet {A : Type} (b : BrowserController)
    (tr : list Event) (rb : Result A * BrowserController) : Prop :=
  decisions tr = 0%nat /\ snd rb = b.

(** A tool that lets the loop go on: no decision asked, the controller
    still on a page, a result without [stop]. *)
Definition carriesOn (tr : list Event)
    (rb : Result ActionResult * BrowserController) : Prop :=
  decisions tr = 0%nat /\ ctl_page (snd rb) <> None
  /\ exists res, fst rb = Ok res /\ stop res = false.

(** ** Click tiers

    Tier 1 is the native click, tier 2 the forced click, tier 3 the
    in-page script; each attempt is recorded with its success. *)
Definition tierOf (e : Event) : option (nat * bool) :=
  match e with
  | Ev c x =>
      match c in Cmd X return X -> option (nat * bool) with
      | LocatorClick _ _ force => fun r => Some (if force then 2%nat else 1%nat, isOk r)
      | PageEvaluateClick _ _ _ => fun r => Some (3%nat, isOk r)
      | _ => fun _ => None
      end x
  end.

Fixpoint attempts (tr : list Event) : list (nat * bool) :=
  match tr with
  | [] => []
  | e :: rest =>
      match tierOf e with
      | Some a => a :: attempts rest
      | None => attempts rest
      end
  end.

Definition tiersInOrder (a : list (nat * bool)) : Prop :=
  a = [] \/ a = [(1%nat, true)] \/ a = [(1%nat, false); (2%nat, true)]
  \/ a = [(1%nat, false); (2%nat, false); (3%nat, true)]
  \/ a = [(1%nat, false); (2%nat, false); (3%nat, false)].

(** ** Decisions of the model and a well-behaved environment *)

Definition terminal (name : jsstring) : bool :=
  JsString.eqb name (js "task_done") || JsString.eqb name (js "request_user_input").

(** A tab index that is a whole number or not a number at all. *)
Definition wholeIndex (v : JsValue) : Prop :=
  match v with
  | JNum NaN | JNum (Frac _ _) => False
  | _ => True
  end.

Section LoopSpec.

Variable JSON_parse : jsstring -> option JsValue.

(** A decision that is not terminal: plain text, or a call of a tool
    other than the two terminal ones whose arguments [logToolCall] can
    list and whose tab index, if it switches tabs, is whole. *)
Definition continuing (choice : Choice) : Prop :=
  match tool_calls choice with
  | [] => True
  | toolCall :: _ =>
      terminal (call_name toolCall) = false
      /\ exists args,
           Agent.parseArguments JSON_parse (call_arguments toolCall) = Ok args
           /\ (call_name toolCall = js "switch_tab" ->
               wholeIndex (prop args (js "tab_index")))
  end.

(** A decision that calls [task_done] with [summary] as its result. *)
Definition finishing (summary : jsstring) (choice : Choice) : Prop :=
  exists toolCall rest args,
    tool_calls choice = toolCall :: rest
    /\ call_name toolCall = js "task_done"
    /\ Agent.parseArguments JSON_parse (call_arguments toolCall) = Ok args
    /\ prop args (js "result") = JStr summary.

(** The environment the loop properties assume: the model service
    answers, and every decision it returns satisfies [decision]; the
    user answers when asked; the snapshot script runs to its end on the
    page's document; navigation and wheel events go through.  Every
    other call may succeed or fail. *)
Definition healthy (decision : Choice -> Prop) : Assumption :=
  fun X c =>
    match c in Cmd X return X -> Prop with
    | ChatCompletion req =>
        fun r =>
          match r with
          | Ok (Some choice) => req_tools req = true -> decision choice
          | Ok None => req_tools req = false
          | Err _ => False
          end
    | GetUserConfirmation _ => fun r => isOk r = true
    | PageEvaluateSnapshot _ =>
        fun r =>
          match r with
          | Ok doc => isOk (collectSnapshotScript doc) = true
          | Err _ => False
          end
    | PageGoto _ _ _ => fun r => isOk r = true
    | MouseWheel _ _ _ => fun r => isOk r = true
    | _ => fun _ => True
    end.

End LoopSpec.

(** [typeof v] *)
Definition typeof (v : JsValue) : jsstring :=
  match v with
  | JUndefined => js "undefined"
  | JBool _ => js "boolean"
  | JNum _ => js "number"
  | JStr _ => js "string"
  | JNull | JArr _ | JObj _ => js "object"
  end.

(** The [typeof] of the values of a declared type: a parameter declared
    [integer] holds a number, whole or not, as one declared [number]. *)
Definition typeofDeclared (type : jsstring) : jsstring :=
  if JsString.eqb type (js "integer") then js "number" else type.

Definition declaredType (tool : ToolDefinition) (p : jsstring) : jsstring :=
  match find (fun q => JsString.eqb (param_name q) p) (tool_parameters tool) with
  | Some q => param_type q
  | None => []
  end.

(** The tools that take their argument as it comes. *)
Definition lenient (name : jsstring) : bool :=
  JsString.eqb name (js "wait") || terminal name.

(** Headings whose level ['#'.repeat] accepts. *)
Definition renderable (hs : list Heading) : Prop :=
  Forall (fun h => isOk (Prompt.repeatHash (h_level h)) = true) hs.

(** ** Perception *)

(** The ids [1..N], in order. *)
Definition dense (els : list Element) : Prop :=
  map el_id els = map Number.ofNat (seq 1 (List.length els)).

Definition bounded (st : WalkState) : Prop :=
  dense (elements st) /\ (List.length (elements st) <= MAX_ELEMENTS)%nat.

(** What [getSnapshot] returns, when it returns: ids dense, within the cap. *)
Definition denseSnapshot (rb : Result Snapshot * BrowserController) : Prop :=
  forall snapshot,
    fst rb = Ok snapshot ->
    dense (snap_elements snapshot)
    /\ (List.length (snap_elements snapshot) <= MAX_ELEMENTS)%nat.

(** [placeholder ? 'placeholder: ' + placeholder : ''] and its like. *)
Definition hinted (prefix s : jsstring) : jsstring :=
  if is_empty s then [] else prefix ++ s.

(** The seven sources of the display text, in priority order. *)
Definition textSources
    (text ariaLabel titleAttr value placeholder href labelText : jsstring)
    : list jsstring :=
  [text; ariaLabel; titleAttr; value; hinted (js "placeholder: ") placeholder;
   hinted (js "link: ") href; hinted (js "label: ") labelText].

(** Source [k] wins: it is not empty and every earlier one is. *)
Definition wins (sources : list jsstring) (k : nat) : Prop :=
  nth k sources [] <> [] /\ forall j, (j < k)%nat -> nth j sources [] = [].

(** The XPath of the text-qualified variant. *)
Definition xpathFor (selector text : jsstring) : jsstring :=
  js "//" ++ selector ++ jsq "[contains(normalize-space(.), '"
  ++ escapeText text ++ jsq "')]".

(** ** The sources of an element's texts, in the document

    What follows is written from the document alone: the properties and
    attributes of the element, the labels of the document and the chain
    of the element's ancestors. *)

(** A node of the tree under [node], with the chain of its ancestors,
    nearest first; [ancestors] is the chain of [node] itself. *)
Inductive occurs : DomNode -> list DomElement -> DomElement -> list DomElement -> Prop :=
| occurs_here el children ancestors :
    occurs (DNode el children) ancestors el ancestors
| occurs_below el children ancestors child x chain :
    In child children ->
    occurs child (el :: ancestors) x chain ->
    occurs (DNode el children) ancestors x chain.

(** The element is of a kind that a label names. *)
Definition labelled (el : DomElement) : bool :=
  let tag := toLowerCase (dom_tagName el) in
  JsString.eqb tag (js "input") || JsString.eqb tag (js "textarea")
  || JsString.eqb tag (js "select").

(** No label of the document names the element by its id. *)
Definition noLabelFor (doc : Document) (el : DomElement) : Prop :=
  dom_id el = []
  \/ exists labels,
       doc_querySelectorAll doc (js "label[for]") = Ok labels
       /\ Forall (fun l => dom_htmlFor l <> Some (dom_id el)) labels.

(** An ancestor below the body that is no label. *)
Definition plainAncestor (body a : DomElement) : Prop :=
  dom_node a <> dom_node body /\ dom_tagName a <> js "LABEL".

Definition labelTextOf (label : DomElement) : jsstring :=
  slice0 80 (trim (dom_textContent label)).

(** The label text of an element: the text of the first label of the
    document whose [for] is the id of the element; without such a label,
    the text of the nearest ancestor below the body that is a label;
    without either, nothing. *)
Inductive AssociatedLabel (doc : Document) (body : DomElement)
    (ancestors : list DomElement) (el : DomElement) : jsstring -> Prop :=
| label_for before label after :
    dom_id el <> [] ->
    doc_querySelectorAll doc (js "label[for]") = Ok (before ++ label :: after) ->
    Forall (fun l => dom_htmlFor l <> Some (dom_id el)) before ->
    dom_htmlFor label = Some (dom_id el) ->
    AssociatedLabel doc body ancestors el (labelTextOf label)
| label_around below parent above :
    noLabelFor doc el ->
    ancestors = below ++ parent :: above ->
    Forall (plainAncestor body) below ->
    dom_node parent <> dom_node body ->
    dom_tagName parent = js "LABEL" ->
    AssociatedLabel doc body ancestors el (labelTextOf parent)
| label_absent below rest :
    noLabelFor doc el ->
    ancestors = below ++ rest ->
    Forall (plainAncestor body) below ->
    match rest with
    | [] => True
    | top :: _ => dom_node top = dom_node body
    end ->
    AssociatedLabel doc body ancestors el [].

(** The seven sources of the display text of [el], the last one from the
    label text [labelText]. *)
Definition sourcesOf (el : DomElement) (labelText : jsstring) : list jsstring :=
  textSources
    (slice0 200 (trim (or_else (dom_innerText el) (dom_textContent el))))
    (slice0 100 (trim (attr el (js "aria-label"))))
    (slice0 100 (trim (attr el (js "title"))))
    (slice0 100 (trim (match dom_value el with
                       | JUndefined => []
                       | v => ToString v
                       end)))
    (slice0 60 (trim (attr el (js "placeholder"))))
    (trim (attr el (js "href")))
    labelText.

(** The record [e] shows the element [el]: its label is the label text
    of [el] when [el] is of a kind that a label names, and its text is
    the first of the seven sources that is not empty. *)
Definition shows (doc : Document) (body : DomElement) (ancestors : list DomElement)
    (el : DomElement) (e : Element) : Prop :=
  exists labelText,
    (if labelled el then AssociatedLabel doc body ancestors el labelText
     else labelText = [])
    /\ el_labelText e = (if is_empty labelText then None else Some labelText)
    /\ let sources := sourcesOf el labelText in
       (forall k, wins sources k -> el_text e = nth k sources [])
       /\ (forall k k', wins sources k -> wins sources k' -> k = k')
       /\ (el_text e <> [] -> exists k, (k < 7)%nat /\ wins sources k)
       /\ ((forall k, nth k sources [] = []) -> el_text e = []).

(** The text that tells an element from the others its selector
    matches: its inner text, else its value, else its aria-label,
    trimmed and cut to 80 code units. *)
Definition distinguishingText (el : DomElement) : jsstring :=
  slice0 80
    (trim (or_else (dom_innerText el)
             (or_else (match dom_value el with JStr v => v | _ => [] end)
                (attr el (js "aria-label"))))).

(** The position [i] is the first at which the node of [el] stands
    among [all], or -1 when it is not among them. *)
Definition firstPosition (el : DomElement) (all : list DomElement) (i : Z) : Prop :=
  (i = (-1)%Z /\ Forall (fun x => dom_node x <> dom_node el) all)
  \/ ((0 <= i < Z.of_nat (List.length all))%Z
      /\ (exists x, nth_error all (Z.to_nat i) = Some x /\ dom_node x = dom_node el)
      /\ Forall (fun x => dom_node x <> dom_node el) (firstn (Z.to_nat i) all)).

(** The selector descriptor of the record [e] follows the rule for
    [el]: plain when at most one node matches the structural selector,
    qualified by the distinguishing text when several match and that
    text is not empty, indexed by the position of [el] among the matches
    when several match and that text is empty. *)
Definition selectedFor (doc : Document) (el : DomElement) (e : Element) : Prop :=
  exists all,
    doc_querySelectorAll doc (structuralSelector el) = Ok all
    /\ let selector := structuralSelector el in
       let text := distinguishingText el in
       ((List.length all <= 1)%nat -> el_selector e = SelPlain selector)
       /\ ((1 < List.length all)%nat -> text <> [] ->
           el_selector e = SelXPath (xpathFor selector text))
       /\ ((1 < List.length all)%nat -> text = [] ->
           exists i, el_selector e = SelNth selector (Int i) /\ firstPosition el all i)
       /\ (text <> [] -> forall s i, el_selector e <> SelNth s i).

(** The element shows no text but its own: no value, title or label. *)
Definition carriesNoOtherText (el : Element) : Prop :=
  filterBoolean [el_value el; el_title el; el_labelText el] = [].

(** Induction on a node with the property known of all its children. *)
Section DomNode_induction.

Variable P : DomNode -> Prop.
Hypothesis step : forall el children, Forall P children -> P (DNode el children).

Fixpoint DomNode_nested_ind (n : DomNode) : P n :=
  match n with
  | DNode el children =>
      @step el children
        ((fix all (cs : list DomNode) : Forall P cs :=
            match cs with
            | [] => Forall_nil P
            | c :: rest => Forall_cons c (DomNode_nested_ind c) (all rest)
            end) children)
  end.

End DomNode_induction.

(** ** Dialog handling *)

(** The handler is the context's only page listener and each page's
    only dialog listener. *)
Definition guarded_context (ctx : ContextState) : Prop :=
  page_listeners ctx = [attachDialogHandler]
  /\ Forall (fun p => dialog_listeners p = [acceptDialog]) (ctx_pages ctx).

(** ** Sample data

    A small account page: three buttons, and a snapshot of it with a
    disabled input added. *)

Definition demoElement (id : Z) (tag text : string) (disabled : bool) : Element :=
  {| el_id := Int id; el_role := js tag; el_tagName := js tag; el_text := js text;
     el_placeholder := None; el_href := None; el_value := None; el_type := None;
     el_labelText := None; el_title := None; el_selector := SelPlain (js tag);
     el_isInDialog := false; el_disabled := disabled; el_options := None |}.

Definition demoSnapshot : Snapshot :=
  {| snap_url := js "https://example.test/account"; snap_title := js "Account";
     snap_elements := [demoElement 1 "button" "Delete account" false;
                       demoElement 2 "button" "Cancel" false;
                       demoElement 3 "input" "Name" true];
     snap_headings := []; snap_contentExcerpt := [];
     snap_tabs := []; snap_activeTabIndex := Int 0 |}.

(** A "Cancel" button with a title, and a page that shows it. *)
Definition cancelDraft : Element :=
  {| el_id := Int 1; el_role := js "button"; el_tagName := js "button";
     el_text := js "Cancel";
     el_placeholder := None; el_href := None; el_value := None; el_type := None;
     el_labelText := None; el_title := Some (js "Delete draft");
     el_selector := SelPlain (js "button");
     el_isInDialog := false; el_disabled := false; el_options := None |}.

Definition demoTitled : Snapshot :=
  {| snap_url := js "https://example.test/drafts"; snap_title := js "Drafts";
     snap_elements := [cancelDraft];
     snap_headings := []; snap_contentExcerpt := [];
     snap_tabs := []; snap_activeTabIndex := Int 0 |}.

Definition demoController : BrowserController := {| ctl_page := Some 0%nat |}.

Definition demoRect (top : Z) : DOMRect :=
  {| rect_width := Int 96; rect_height := Int 28;
     rect_top := Int top; rect_left := Int 16 |}.

Definition demoButton (node : nat) (text : string) (top : Z) : DomElement :=
  {| dom_node := node;
     dom_tagName := js "BUTTON";
     dom_id := [];
     dom_htmlFor := None;
     dom_innerText := js text;
     dom_textContent := js text;
     dom_value := JStr [];
     dom_options := None;
     getAttribute := fun _ => None;
     matches :=
       fun sel => JsString.eqb sel interactiveSelector || JsString.eqb sel leafSelector;
     closest := fun _ => false;
     getBoundingClientRect := demoRect top;
     style_visibility := js "visible";
     style_display := js "inline-block" |}.

Definition demoBody : DomElement :=
  {| dom_node := 0;
     dom_tagName := js "BODY";
     dom_id := [];
     dom_htmlFor := None;
     dom_innerText := js "Save Delete account Cancel";
     dom_textContent := js "Save Delete account Cancel";
     dom_value := JUndefined;
     dom_options := None;
     getAttribute := fun _ => None;
     matches := fun _ => false;
     closest := fun _ => false;
     getBoundingClientRect := demoRect 0;
     style_visibility := js "visible";
     style_display := js "block" |}.

Definition demoDelete : DomElement := demoButton 2 "Delete account" 50.

Definition demoButtons : list DomElement :=
  [demoButton 1 "Save" 10; demoDelete; demoButton 3 "Cancel" 90].

Definition demoDocument : Document :=
  {| doc_body := Some (DNode demoBody (map (fun b => DNode b []) demoButtons));
     doc_href := js "https://example.test/account";
     doc_title := js "Account";
     doc_querySelectorAll :=
       fun sel => if JsString.eqb sel (js "button") then Ok demoButtons else Ok [];
     body_querySelectorAll := fun _ => [];
     body_querySelector := fun _ => None |}.

Definition demoPageSnapshot : PageSnapshot :=
  match collectSnapshotScript demoDocument with
  | Ok ps => ps
  | Err _ =>
      {| ps_url := []; ps_title := []; ps_elements := []; ps_headings := [];
         ps_contentExcerpt := [] |}
  end.

Definition demoCaptured : Element :=
  match capture demoDocument demoBody [demoBody] demoDelete (js "Delete account")
          (Int 2) with
  | Ok e => e
  | Err _ => demoElement 0 "button" "" false
  end.

(** Two buttons that show no text of their own, only a title, and an
    input named by a label of the document. *)
Definition demoCloser (node : nat) (top : Z) : DomElement :=
  {| dom_node := node;
     dom_tagName := js "BUTTON";
     dom_id := [];
     dom_htmlFor := None;
     dom_innerText := [];
     dom_textContent := [];
     dom_value := JStr [];
     dom_options := None;
     getAttribute :=
       fun name => if JsString.eqb name (js "title") then Some (js "Close") else None;
     matches :=
       fun sel => JsString.eqb sel interactiveSelector || JsString.eqb sel leafSelector;
     closest := fun _ => false;
     getBoundingClientRect := demoRect top;
     style_visibility := js "visible";
     style_display := js "inline-block" |}.

Definition demoClosers : Document :=
  let buttons := [demoCloser 1 10; demoCloser 2 50] in
  {| doc_body := Some (DNode demoBody (map (fun b => DNode b []) buttons));
     doc_href := js "https://example.test/dialogs";
     doc_title := js "Dialogs";
     doc_querySelectorAll :=
       fun sel => if JsString.eqb sel (js "button") then Ok buttons else Ok [];
     body_querySelectorAll := fun _ => [];
     body_querySelector := fun _ => None |}.

Definition demoEmailLabel : DomElement :=
  {| dom_node := 5;
     dom_tagName := js "LABEL";
     dom_id := [];
     dom_htmlFor := Some (js "email");
     dom_innerText := js "E-mail address";
     dom_textContent := js " E-mail address ";
     dom_value := JUndefined;
     dom_options := None;
     getAttribute := fun _ => None;
     matches := fun _ => false;
     closest := fun _ => false;
     getBoundingClientRect := demoRect 10;
     style_visibility := js "visible";
     style_display := js "inline" |}.

Definition demoEmailInput : DomElement :=
  {| dom_node := 6;
     dom_tagName := js "INPUT";
     dom_id := js "email";
     dom_htmlFor := None;
     dom_innerText := [];
     dom_textContent := [];
     dom_value := JStr [];
     dom_options := None;
     getAttribute := fun _ => None;
     matches :=
       fun sel => JsString.eqb sel interactiveSelector || JsString.eqb sel leafSelector;
     closest := fun _ => false;
     getBoundingClientRect := demoRect 30;
     style_visibility := js "visible";
     style_display := js "inline-block" |}.

Definition demoForm : Document :=
  {| doc_body :=
       Some (DNode demoBody [DNode demoEmailLabel []; DNode demoEmailInput []]);
     doc_href := js "https://example.test/signup";
     doc_title := js "Sign up";
     doc_querySelectorAll :=
       fun sel =>
         if JsString.eqb sel (js "label[for]") then Ok [demoEmailLabel]
         else if JsString.eqb sel (js "input") then Ok [demoEmailInput]
         else Ok [];
     body_querySelectorAll := fun _ => [];
     body_querySelector := fun _ => None |}.

Definition demoFormSnapshot : PageSnapshot :=
  match collectSnapshotScript demoForm with
  | Ok ps => ps
  | Err _ => demoPageSnapshot
  end.

Definition TimeoutError : JsError :=
  {| err_name := js "TimeoutError"; err_message := js "Timeout 30000ms exceeded." |}.

(** An environment without state, showing the sample page.  The model
    service answers [decision] and the user answers [allow]; when
    [actionable] is unset the page refuses native clicks and fills, as it
    does for a covered or disabled element; every other call succeeds. *)
Definition scriptedEnv (decision : option Choice) (allow actionable : bool)
    : Handler unit :=
  fun X c w =>
    match c in Cmd X return X * unit with
    | ChatCompletion _ => (Ok decision, w)
    | GetUserConfirmation _ => (Ok allow, w)
    | SetTimeout _ => (tt, w)
    | SetTimeoutSeconds _ => (tt, w)
    | ContextPages => ([0%nat], w)
    | ContextNewPage => (Ok 1%nat, w)
    | PageGoto _ _ _ => (Ok tt, w)
    | PageWaitForLoadState _ _ _ => (Ok tt, w)
    | PageBringToFront _ => (Ok tt, w)
    | PageUrl _ => (Ok (js "about:blank"), w)
    | PageTitle _ => (Ok [], w)
    | PageEvaluateSnapshot _ => (Ok demoDocument, w)
    | PageEvaluateClick _ _ _ => (Ok tt, w)
    | KeyboardType _ _ _ => (Ok tt, w)
    | MouseWheel _ _ _ => (Ok tt, w)
    | LocatorWaitFor _ _ => (Ok tt, w)
    | LocatorScrollIntoViewIfNeeded _ _ => (Ok tt, w)
    | LocatorClick _ _ force =>
        (if actionable || force then Ok tt else Err TimeoutError, w)
    | LocatorFill _ _ _ => (if actionable then Ok tt else Err TimeoutError, w)
    | LocatorSelectOption _ _ _ _ => (Ok tt, w)
    | LocatorCheck _ _ => (Ok tt, w)
    | LocatorUncheck _ _ => (Ok tt, w)
    | DialogAccept _ => (Ok tt, w)
    end.

(** The snapshot that the controller returns in that environment. *)
Definition demoLoopSnapshot : Snapshot :=
  match fst (outcome (scriptedEnv None true true) (getSnapshot demoController) tt) with
  | Ok snapshot => snapshot
  | Err _ => demoSnapshot
  end.

(** Stand-ins for what the engine provides: a [Number] that reads no
    string as a number, and a [JSON.parse] that knows three argument
    texts. *)
Definition noNumber : jsstring -> number := fun _ => NaN.

Definition demoParse (text : jsstring) : option JsValue :=
  if JsString.eqb text (jsq "{'result':'Deleted the draft'}")
  then Some (JObj [(js "result", JStr (js "Deleted the draft"))])
  else if JsString.eqb text (jsq "{'direction':'down'}")
  then Some (JObj [(js "direction", JStr (js "down"))])
  else if JsString.eqb text (jsq "{'tab_index':0.5}")
  then Some (JObj [(js "tab_index", JNum (Frac 0 (js "0.5")))])
  else None.

Definition demoPrompts : jsstring -> jsstring :=
  fun _ => js "You are a browser agent.".

Definition demoCall (name arguments : string) : ToolCall :=
  {| call_id := js "call_1"; call_name := js name; call_arguments := jsq arguments |}.

Definition demoChoice (name arguments : string) : option Choice :=
  Some {| finish_reason := js "tool_calls"; message_content := [];
          tool_calls := [demoCall name arguments] |}.

Definition finishingOracle : Handler unit :=
  scriptedEnv (demoChoice "task_done" "{'result':'Deleted the draft'}") true true.

Definition scrollingOracle : Handler unit :=
  scriptedEnv (demoChoice "scroll" "{'direction':'down'}") true true.

(** A model that always asks for the tab of index one half. *)
Definition fractionalOracle : Handler unit :=
  scriptedEnv (demoChoice "switch_tab" "{'tab_index':0.5}") true true.

Definition demoAgent : Prog (Result AgentResult * BrowserController) :=
  Agent.runAgent noNumber demoParse demoPrompts true (js "Delete my draft")
    demoController.

Definition demoContext : ContextState :=
  {| ctx_pages := [{| page_ref := 0%nat; dialog_listeners := [] |}];
     page_listeners := [] |}.

Definition typeIntoDisabled : Prog (Result ActionResult * BrowserController) :=
  executeTool noNumber (js "type_text")
    [(js "text", JStr (js "Ann")); (js "element_id", JNum (Int 3))]
    demoSnapshot demoController.

Definition waitWithoutSeconds : Prog (Result ActionResult * BrowserController) :=
  executeTool noNumber (js "wait") [] demoSnapshot demoController.

(** ** Further vocabulary: texts, answers, bounds *)

(** No code unit of [s] is an ASCII letter, digit or underscore. *)
Definition wordless (s : jsstring) : bool :=
  forallb (fun c => negb (is_word_char c)) s.

Definition demoCyrillic : Snapshot :=
  {| snap_url := js "https://example.test/account"; snap_title := js "Account";
     snap_elements := [demoElement 1 "button" "Удалить аккаунт" false];
     snap_headings := []; snap_contentExcerpt := [];
     snap_tabs := []; snap_activeTabIndex := Int 0 |}.

(** The code points that a mapping sends to [r], [r] itself apart. *)
Definition preimages (table : list (N * N * N * N)) (r : N) : list N :=
  flat_map
    (fun entry =>
       match entry with
       | (first, last, step, image) =>
           if ((image <=? r) && (r <=? image + (last - first)))%N
           then [(first + (r - image))%N] else []
       end)
    table.

(** The answer has neither the letter y, small or capital, nor the
    Cyrillic letter de, small, capital or long-legged (U+1C81). *)
Definition withoutConsentLetter (s : jsstring) : Prop :=
  Forall (fun c => ~ In c [121; 89; 1076; 1044; 7297]%N) s.

(** An optional text field: absent, or not empty and of at most [n]
    code units. *)
Definition within (n : nat) (o : option jsstring) : Prop :=
  match o with
  | Some s => s <> [] /\ (List.length s <= n)%nat
  | None => True
  end.

(** The bounds the script puts on the record of an element. *)
Definition fieldsBounded (e : Element) : Prop :=
  within 60 (el_placeholder e)
  /\ within 100 (el_value e)
  /\ within 100 (el_title e)
  /\ within 80 (el_labelText e)
  /\ el_href e <> Some [] /\ el_type e <> Some []
  /\ ((List.length (el_text e) <= 200)%nat
      \/ exists href, el_href e = Some href /\ el_text e = js "link: " ++ href)
  /\ match el_options e with
     | Some opts =>
         (List.length opts <= MAX_OPTIONS)%nat
         /\ Forall (fun o => (List.length (snd o) <= 60)%nat) opts
     | None => True
     end.

(** White space in [s] is the single space, never twice in a row. *)
Fixpoint singleSpaced (s : jsstring) : Prop :=
  match s with
  | [] => True
  | a :: r =>
      (is_space a = true -> a = 32%N)
      /\ match r with
         | b :: _ => ~ (a = 32%N /\ b = 32%N)
         | [] => True
         end
      /\ singleSpaced r
  end.

(** The entry a heading node contributes: none when its text is blank. *)
Definition headingOf (h : DomElement) : list Heading :=
  let text := slice0 120 (trim (dom_textContent h)) in
  if is_empty text then []
  else [{| h_level := headingLevel (dom_tagName h); h_text := text |}].

(** The heading nodes of the body, in document order. *)
Definition headingNodes (doc : Document) : list DomElement :=
  body_querySelectorAll doc (js "H1,H2,H3,H4,H5,H6").

(** A page with three headings, a blank one among them, and text full of
    white space. *)
Definition demoHeading (node : nat) (tag text : string) : DomElement :=
  {| dom_node := node;
     dom_tagName := js tag;
     dom_id := [];
     dom_htmlFor := None;
     dom_innerText := js text;
     dom_textContent := js text;
     dom_value := JUndefined;
     dom_options := None;
     getAttribute := fun _ => None;
     matches := fun _ => false;
     closest := fun _ => false;
     getBoundingClientRect := demoRect 0;
     style_visibility := js "visible";
     style_display := js "block" |}.

Definition demoArticle : Document :=
  let headings :=
    [demoHeading 1 "H1" " Account settings "; demoHeading 2 "H2" "   ";
     demoHeading 3 "H2" "Danger zone"] in
  {| doc_body :=
       Some (DNode (demoHeading 0 "BODY" "  Account   settings    Danger zone ")
               (map (fun h => DNode h []) headings));
     doc_href := js "https://example.test/settings";
     doc_title := js "Settings";
     doc_querySelectorAll := fun _ => Ok [];
     body_querySelectorAll := fun _ => headings;
     body_querySelector := fun _ => None |}.

Definition demoArticleSnapshot : PageSnapshot :=
  match collectSnapshotScript demoArticle with
  | Ok ps => ps
  | Err _ => demoPageSnapshot
  end.

(** The tool is one of the catalog. *)
Definition known (name : jsstring) : bool :=
  existsb (fun tool => JsString.eqb name (tool_name tool)) TOOL_DEFINITIONS.

(** [page.goto] rejects with [e]. *)
Definition gotoFails (e : JsError) : Assumption :=
  fun X c =>
    match c in Cmd X return X -> Prop with
    | PageGoto _ _ _ => fun r => r = Err e
    | _ => fun _ => True
    end.

(** An environment without network: [page.goto] times out. *)
Definition offline : Handler unit :=
  fun X c w =>
    match c in Cmd X return X * unit with
    | PageGoto _ _ _ => (Err TimeoutError, w)
    | c' => scriptedEnv None true true c' w
    end.

(** The message of [findElementInSnapshot] for an id that is not listed. *)
Definition notFound (id : number) : jsstring :=
  js "Element id not found in snapshot: " ++ Number.toString id.

(** The runs of the snapshot script in a trace. *)
Definition isEvaluation (e : Event) : bool :=
  match e with
  | Ev c _ => match c with PageEvaluateSnapshot _ => true | _ => false end
  end.

Definition evaluations (tr : list Event) : nat :=
  List.length (filter isEvaluation tr).

Arguments evaluations : simpl never.

(** [page.evaluate] rejects with [e] each time the script is sent. *)
Definition scriptFails (e : JsError) : Assumption :=
  fun X c =>
    match c in Cmd X return X -> Prop with
    | PageEvaluateSnapshot _ => fun r => r = Err e
    | _ => fun _ => True
    end.

Definition navigating : JsError :=
  Error (js "page.evaluate: Execution context was destroyed, most likely because of a navigation").

(** An environment in which the page is forever navigating. *)
Definition restless : Handler unit :=
  fun X c w =>
    match c in Cmd X return X * unit with
    | PageEvaluateSnapshot _ => (Err navigating, w)
    | c' => scriptedEnv None true true c' w
    end.

(** [context.pages()] answers [pages]. *)
Definition tabsAre (pages : list PageRef) : Assumption :=
  fun X c =>
    match c in Cmd X return X -> Prop with
    | ContextPages => fun r => r = pages
    | _ => fun _ => True
    end.

(** The index is within the tabs: [0 <= tabIndex < count]. *)
Definition withinTabs (tabIndex : number) (count : nat) : bool :=
  negb (Number.lt_int tabIndex 0 || Number.ge_int tabIndex (Z.of_nat count)).

Definition invalidTab (tabIndex : number) (count : nat) : jsstring :=
  js "Invalid tab index: " ++ Number.toString tabIndex ++ js " (tabs: 0–"
  ++ Number.toString (Int (Z.of_nat count - 1)) ++ js ")".

Definition noBringToFront : jsstring :=
  js "Cannot read properties of undefined (reading 'bringToFront')".

(** [context.newPage()] answers [r]. *)
Definition newPageAnswers (r : Result PageRef) : Assumption :=
  fun X c =>
    match c in Cmd X return X -> Prop with
    | ContextNewPage => fun x => x = r
    | _ => fun _ => True
    end.

(** An environment in which no page can be opened. *)
Definition crowded : Handler unit :=
  fun X c w =>
    match c in Cmd X return X * unit with
    | ContextNewPage => (Err TimeoutError, w)
    | c' => scriptedEnv None true true c' w
    end.

(** What [getSnapshot] returns, when it returns, can be put into the
    prompt. *)
Definition promptable (rb : Result Snapshot * BrowserController) : Prop :=
  forall snapshot,
    fst rb = Ok snapshot ->
    isOk (Prompt.formatSnapshotForPrompt snapshot) = true.

(* ===================================================================== *)
(** * Properties                                                          *)
(* ===================================================================== *)

(** ** Strings *)

Lemma JsString_eqb_refl (s : jsstring) : JsString.eqb s s = true.
Proof.
  induction s as [|c s IH]; simpl; [reflexivity|]. now rewrite N.eqb_refl.
Qed.

Lemma JsString_eqb_eq (a b : jsstring) : JsString.eqb a b = true <-> a = b.
Proof.
  split.
  - revert b. induction a as [|x a IH]; intros [|y b] H; simpl in H;
      try discriminate; [reflexivity|].
    apply andb_true_iff in H. destruct H as [Hx Hab].
    apply N.eqb_eq in Hx. subst y. f_equal. now apply IH.
  - intros ->. apply JsString_eqb_refl.
Qed.

Lemma JsString_eqb_neq (a b : jsstring) : JsString.eqb a b = false <-> a <> b.
Proof.
  split.
  - intros H E. apply JsString_eqb_eq in E. congruence.
  - intros H. destruct (JsString.eqb a b) eqn:E; [|reflexivity].
    apply JsString_eqb_eq in E. contradiction.
Qed.

Lemma or_else_nonempty a b : a <> [] -> or_else a b = a.
Proof. destruct a; [congruence|reflexivity]. Qed.

(** ** Programs *)

Lemma wp_sound {W A : Type} (h : Handler W) (ok : Assumption) (p : Prog A) :
  obeys h ok ->
  forall (Q : list Event -> A -> Prop) (w : W),
    wp ok p Q -> Q (trace h p w) (outcome h p w).
Proof.
  intros Hh. unfold trace, outcome.
  induction p as [a|X c k IH]; intros Q w H; simpl in *.
  - exact H.
  - specialize (Hh X c w). destruct (h X c w) as [x w1]. simpl in Hh.
    specialize (IH x _ w1 (H x Hh)).
    destruct (run h (k x) w1) as [[tr a] w2]. simpl in *. exact IH.
Qed.

Lemma wp_mono {A : Type} (ok : Assumption) (p : Prog A) :
  forall (Q Q' : list Event -> A -> Prop),
    (forall tr a, Q tr a -> Q' tr a) -> wp ok p Q -> wp ok p Q'.
Proof.
  induction p as [a|X c k IH]; intros Q Q' HQ H; simpl in *.
  - apply HQ, H.
  - intros x Hx. eapply IH; [|apply H, Hx]. intros tr a. apply HQ.
Qed.

Lemma wp_bind {A B : Type} (ok : Assumption) (p : Prog A) (f : A -> Prog B) :
  forall (Q : list Event -> B -> Prop),
    wp ok p (fun tr a => wp ok (f a) (fun tr' b => Q (tr ++ tr') b)) ->
    wp ok (pbind p f) Q.
Proof.
  induction p as [a|X c k IH]; intros Q H; simpl in *.
  - exact H.
  - intros x Hx. apply IH. apply H, Hx.
Qed.

Lemma wp_mbind {A B : Type} (ok : Assumption) (m : M A) (f : A -> M B)
    (b : BrowserController) (Q : list Event -> Result B * BrowserController -> Prop) :
  wp ok (m b)
    (fun tr rb =>
       match fst rb with
       | Ok a => wp ok (f a (snd rb)) (fun tr' rb' => Q (tr ++ tr') rb')
       | Err e => Q tr (Err e, snd rb)
       end) ->
  wp ok (bind m f b) Q.
Proof.
  intros H. unfold bind. apply wp_bind. eapply wp_mono; [|exact H].
  intros tr [[a|e] b1]; simpl; [auto|]. now rewrite app_nil_r.
Qed.

Lemma wp_attempt {A : Type} (ok : Assumption) (m : M A) (b : BrowserController)
    (Q : list Event -> Result (Result A) * BrowserController -> Prop) :
  wp ok (m b) (fun tr rb => Q tr (Ok (fst rb), snd rb)) ->
  wp ok (attempt m b) Q.
Proof.
  intros H. unfold attempt. apply wp_bind. eapply wp_mono; [|exact H].
  intros tr rb HQ. simpl. now rewrite app_nil_r.
Qed.

Lemma wp_guarded (ok : Assumption) (m : M unit) (good : ActionResult)
    (onError : JsError -> ActionResult) (b : BrowserController)
    (Q : list Event -> Result ActionResult * BrowserController -> Prop) :
  wp ok (m b)
    (fun tr rb =>
       Q tr (Ok (match fst rb with Ok _ => good | Err e => onError e end), snd rb)) ->
  wp ok (guarded m good onError b) Q.
Proof.
  intros H. unfold guarded. apply wp_mbind. apply wp_attempt.
  eapply wp_mono; [|exact H].
  intros tr [[u|e] b1] HQ; simpl in *; now rewrite app_nil_r.
Qed.

Lemma decisions_app tr tr' : decisions (tr ++ tr') = (decisions tr + decisions tr')%nat.
Proof. unfold decisions. now rewrite filter_app, length_app. Qed.

Lemma decisions_cons e tr :
  decisions (e :: tr) = ((if isDecision e then 1 else 0) + decisions tr)%nat.
Proof. unfold decisions. simpl. destruct (isDecision e); reflexivity. Qed.

Lemma decisions_nil : decisions [] = 0%nat.
Proof. reflexivity. Qed.

Ltac tally :=
  repeat first [rewrite decisions_app | rewrite decisions_cons | rewrite decisions_nil];
  cbn [isDecision req_tools Nat.add];
  repeat match goal with
         | H : decisions _ = _ |- _ => rewrite H
         end;
  cbn [Nat.add]; try reflexivity.

Ltac answer :=
  match goal with
  | |- forall x : Result _, _ => intros [?|?] ?
  | |- forall x : unit, _ => intros [] ?
  | |- forall x : list _, _ => intros ? ?
  | |- forall x, _ -> _ => intros ? ?
  end.

(** Listing the tabs asks no decision, never throws and leaves the
    controller as it was. *)
Lemma listTabs_quiet ok pages :
  forall i b,
    wp ok (listTabs pages i b)
      (fun tr rb => decisions tr = 0%nat /\ snd rb = b /\ isOk (fst rb) = true).
Proof.
  induction pages as [|p rest IH]; intros i b.
  - cbn. auto.
  - cbn [listTabs]. apply wp_mbind.
    assert (Hhead :
      forall k : list Event -> Result (Result TabInfo) * BrowserController -> Prop,
        (forall tr r, decisions tr = 0%nat -> k tr (Ok r, b)) ->
        wp ok (attempt (bind (await (PageUrl p))
                          (fun url => bind (await (PageTitle p))
                             (fun title => ret {| tab_index := Int i; tab_url := url;
                                                  tab_title := title |}))) b) k).
    { intros k Hk. cbn. intros [u|e] _; cbn; [|apply Hk; reflexivity].
      intros [t|e] _; cbn; apply Hk; reflexivity. }
    apply Hhead. intros tr r Htr. cbn [fst snd].
    apply wp_mbind. eapply wp_mono; [|apply IH].
    intros tr' [r' b'] [Hd [Hb Hok]]. cbn in *. subst b'.
    destruct r' as [tabs|e]; [|discriminate]. cbn.
    split; [tally|auto].
Qed.

(** ** Policy gate *)

Lemma firstMatch_destructive ps text el :
  destructive (firstMatch ps text el) = existsb (fun p => test p text) ps.
Proof.
  induction ps as [|p ps IH]; simpl; [reflexivity|].
  destruct (test p text); simpl; [reflexivity|exact IH].
Qed.

Lemma textSurface_head el :
  is_empty (el_text el) = false ->
  textSurface el =
    match filterBoolean [el_value el; el_title el; el_labelText el] with
    | [] => toLowerCase (el_text el)
    | rest => toLowerCase (el_text el) ++ js " " ++ join (js " ") (map toLowerCase rest)
    end.
Proof.
  intros H. unfold textSurface.
  change (filterBoolean [Some (el_text el); el_value el; el_title el; el_labelText el])
    with ((if is_empty (el_text el) then [] else [el_text el])
            ++ filterBoolean [el_value el; el_title el; el_labelText el]).
  rewrite H.
  destruct (filterBoolean [el_value el; el_title el; el_labelText el]); reflexivity.
Qed.

(** The deletion pattern matches at the head of the text, whatever
    follows the word [account]. *)
Lemma delete_account_matches tail :
  existsb (fun p => test p (js "delete account" ++ tail)) DESTRUCTIVE_PATTERNS = true.
Proof.
  apply existsb_exists.
  exists (nth 3 DESTRUCTIVE_PATTERNS REps). split.
  - simpl. auto 6.
  - lazy. reflexivity.
Qed.

Lemma click_on_element args snapshot id el :
  prop args (js "element_id") = JNum id ->
  findById (snap_elements snapshot) id = Some el ->
  is_empty (textSurface el) = false ->
  destructive (checkDestructiveAction (js "click_element") args snapshot)
  = existsb (fun p => test p (textSurface el)) DESTRUCTIVE_PATTERNS.
Proof.
  intros Ha Hf Ht. unfold checkDestructiveAction.
  change (negb (JsString.eqb (js "click_element") (js "click_element"))) with false.
  cbv iota. rewrite Ha, Hf. cbv zeta. rewrite Ht.
  apply firstMatch_destructive.
Qed.

Lemma empty_text_unmatched :
  existsb (fun p => test p []) DESTRUCTIVE_PATTERNS = false.
Proof. vm_compute. reflexivity. Qed.

Lemma click_verdict args snapshot id el :
  prop args (js "element_id") = JNum id ->
  findById (snap_elements snapshot) id = Some el ->
  destructive (checkDestructiveAction (js "click_element") args snapshot)
  = existsb (fun p => test p (textSurface el)) DESTRUCTIVE_PATTERNS.
Proof.
  intros Ha Hf.
  destruct (is_empty (textSurface el)) eqn:Ht.
  - unfold checkDestructiveAction.
    change (negb (JsString.eqb (js "click_element") (js "click_element"))) with false.
    cbv iota. rewrite Ha, Hf. cbv zeta. rewrite Ht.
    destruct (textSurface el); [|discriminate Ht].
    now rewrite empty_text_unmatched.
  - exact (click_on_element _ _ Ha Hf Ht).
Qed.

(** C2, as the code has it.  The policy gate answers destructive for a
    click on an element whose text is "Delete account", whatever else
    the element carries.  For a click on an element whose text is
    "Cancel" it answers not destructive when the element carries no
    value, title or label; in general the verdict of a click on a listed
    element is destructive exactly when one of the patterns matches the
    text that is tested, which is the text, value, title and label of
    the element in lower case, joined by spaces.  It answers not
    destructive for every tool other than [click_element], whatever its
    arguments, and when [element_id] is missing or not a number, or names
    no element of the snapshot. *)
Theorem C2_policy_gate_verdicts :
  (forall args snapshot id el,
      prop args (js "element_id") = JNum id ->
      findById (snap_elements snapshot) id = Some el ->
      el_text el = js "Delete account" ->
      destructive (checkDestructiveAction (js "click_element") args snapshot) = true)
  /\ (forall args snapshot id el,
      prop args (js "element_id") = JNum id ->
      findById (snap_elements snapshot) id = Some el ->
      el_text el = js "Cancel" ->
      carriesNoOtherText el ->
      destructive (checkDestructiveAction (js "click_element") args snapshot) = false)
  /\ (forall args snapshot id el,
      prop args (js "element_id") = JNum id ->
      findById (snap_elements snapshot) id = Some el ->
      (destructive (checkDestructiveAction (js "click_element") args snapshot) = true
       <-> exists pattern,
             In pattern DESTRUCTIVE_PATTERNS
             /\ test pattern
                  (join (js " ")
                     (map toLowerCase
                        (filterBoolean
                           [Some (el_text el); el_value el; el_title el;
                            el_labelText el]))) = true))
  /\ (forall toolName args snapshot,
      toolName <> js "click_element" ->
      destructive (checkDestructiveAction toolName args snapshot) = false)
  /\ (forall args snapshot,
      is_number (prop args (js "element_id")) = false ->
      destructive (checkDestructiveAction (js "click_element") args snapshot) = false)
  /\ (forall args snapshot id,
      prop args (js "element_id") = JNum id ->
      findById (snap_elements snapshot) id = None ->
      destructive (checkDestructiveAction (js "click_element") args snapshot) = false).
Proof.
  split; [|split; [|split; [|split; [|split]]]].
  - intros args snapshot id el Ha Hf Ht.
    assert (Hne : is_empty (el_text el) = false) by (rewrite Ht; reflexivity).
    pose proof (textSurface_head el Hne) as Hs. rewrite Ht in Hs.
    change (toLowerCase (js "Delete account")) with (js "delete account") in Hs.
    assert (Hsurf : exists tail, textSurface el = js "delete account" ++ tail).
    { destruct (filterBoolean _) in Hs; rewrite Hs.
      - exists []. now rewrite app_nil_r.
      - eexists. reflexivity. }
    destruct Hsurf as [tail Htail].
    rewrite (click_on_element _ _ Ha Hf); rewrite Htail.
    + apply delete_account_matches.
    + reflexivity.
  - intros args snapshot id el Ha Hf Ht Hno.
    assert (Hne : is_empty (el_text el) = false) by (rewrite Ht; reflexivity).
    pose proof (textSurface_head el Hne) as Hs.
    unfold carriesNoOtherText in Hno. rewrite Hno, Ht in Hs.
    rewrite (click_on_element _ _ Ha Hf); rewrite Hs; reflexivity.
  - intros args snapshot id el Ha Hf.
    rewrite (click_verdict _ _ Ha Hf). fold (textSurface el).
    rewrite existsb_exists. reflexivity.
  - intros toolName args snapshot Hn. unfold checkDestructiveAction.
    apply JsString_eqb_neq in Hn. rewrite Hn. reflexivity.
  - intros args snapshot Hn. unfold checkDestructiveAction.
    change (negb (JsString.eqb (js "click_element") (js "click_element"))) with false.
    cbv iota. destruct (prop args (js "element_id")); try reflexivity. discriminate Hn.
  - intros args snapshot id Ha Hf. unfold checkDestructiveAction.
    change (negb (JsString.eqb (js "click_element") (js "click_element"))) with false.
    cbv iota. rewrite Ha, Hf. reflexivity.
Qed.

Lemma C2_witness :
  destructive (checkDestructiveAction (js "click_element")
                 [(js "element_id", JNum (Int 1))] demoSnapshot) = true
  /\ destructive (checkDestructiveAction (js "click_element")
                    [(js "element_id", JNum (Int 2))] demoSnapshot) = false
  /\ destructive (checkDestructiveAction (js "scroll")
                    [(js "direction", JStr (js "down"))] demoSnapshot) = false
  /\ destructive (checkDestructiveAction (js "click_element") [] demoSnapshot) = false
  /\ destructive (checkDestructiveAction (js "click_element")
                    [(js "element_id", JNum (Int 9))] demoSnapshot) = false.
Proof.
  destruct C2_policy_gate_verdicts as [H1 [H2 [_ [H3 [H4 H5]]]]].
  split; [|split; [|split; [|split]]].
  - apply (H1 _ demoSnapshot (Int 1) (demoElement 1 "button" "Delete account" false));
      reflexivity.
  - apply (H2 _ demoSnapshot (Int 2) (demoElement 2 "button" "Cancel" false));
      reflexivity.
  - apply H3. discriminate.
  - apply H4. reflexivity.
  - apply (H5 _ demoSnapshot (Int 9)); reflexivity.
Defined.

(** A "Cancel" button whose title names a deletion: the title is read
    with the text, and the answer is destructive. *)
Lemma C2_counterexample_cancel_with_title :
  findById (snap_elements demoTitled) (Int 1) = Some cancelDraft
  /\ el_text cancelDraft = js "Cancel"
  /\ el_title cancelDraft = Some (js "Delete draft")
  /\ checkDestructiveAction (js "click_element") [(js "element_id", JNum (Int 1))]
       demoTitled
     = {| destructive := true; description := Some (js "Cancel") |}.
Proof. split; [|split; [|split]]; vm_compute; reflexivity. Qed.

(** The whole text surface is tested: a title that names a deletion
    makes a "Cancel" button destructive, and a keyword written in
    Cyrillic letters only is not found, [\b] knowing ASCII words alone. *)
Example gate_reads_title :
  test (nth 3 DESTRUCTIVE_PATTERNS REps) (js "cancel delete draft") = true
  /\ existsb (fun p => test p (js "удалить")) DESTRUCTIVE_PATTERNS = false.
Proof. split; vm_compute; reflexivity. Qed.

(** ** Perception builder *)

Lemma first_wins sources k :
  wins sources k -> fold_left or_else sources [] = nth k sources [].
Proof.
  revert k.
  assert (G : forall srcs acc, acc <> [] -> fold_left or_else srcs acc = acc).
  { induction srcs as [|s srcs IH]; intros acc Ha; simpl; [reflexivity|].
    rewrite (or_else_nonempty _ Ha). now apply IH. }
  induction sources as [|s sources IH]; intros k [Hk Hlt].
  - destruct k; simpl in Hk; congruence.
  - destruct k as [|k]; simpl in *.
    + apply G. exact Hk.
    + assert (s = []) by (apply (Hlt 0%nat); lia). subst s. simpl.
      apply IH. split; [exact Hk|]. intros j Hj. apply (Hlt (S j)). lia.
Qed.

Lemma displayText_fold t a ti v p h l :
  displayText t a ti v p h l = fold_left or_else (textSources t a ti v p h l) [].
Proof. reflexivity. Qed.

Lemma wins_unique sources k k' : wins sources k -> wins sources k' -> k = k'.
Proof.
  intros [Hk Hlt] [Hk' Hlt'].
  destruct (Nat.lt_trichotomy k k') as [H|[H|H]]; [|exact H|].
  - exfalso. apply Hk. now apply Hlt'.
  - exfalso. apply Hk'. now apply Hlt.
Qed.

Lemma some_wins sources :
  fold_left or_else sources [] <> [] ->
  exists k, (k < List.length sources)%nat /\ wins sources k.
Proof.
  induction sources as [|s sources IH]; simpl; [congruence|].
  destruct s as [|c s].
  - intros H. destruct (IH H) as [k [Hk [Hn Hlt]]].
    exists (S k). split; [lia|]. split; [exact Hn|].
    intros [|j] Hj; [reflexivity|]. apply Hlt. lia.
  - intros _. exists 0%nat. split; [lia|]. split; [simpl; congruence|].
    intros j Hj. lia.
Qed.

Lemma display_text_priority (t a ti v p h l : jsstring) :
  let sources := textSources t a ti v p h l in
  (forall k, wins sources k -> displayText t a ti v p h l = nth k sources [])
  /\ (forall k k', wins sources k -> wins sources k' -> k = k')
  /\ (displayText t a ti v p h l <> [] -> exists k, (k < 7)%nat /\ wins sources k)
  /\ ((forall k, nth k sources [] = []) -> displayText t a ti v p h l = []).
Proof.
  intros sources. repeat split.
  - intros k Hk. rewrite displayText_fold. now apply first_wins.
  - apply wins_unique.
  - rewrite displayText_fold. intros H. apply (some_wins _ H).
  - intros H. destruct (displayText t a ti v p h l) eqn:E; [reflexivity|].
    exfalso.
    assert (Hne : displayText t a ti v p h l <> []) by (rewrite E; congruence).
    rewrite displayText_fold in Hne. destruct (some_wins _ Hne) as [k [_ [Hk _]]].
    apply Hk, H.
Qed.

(** What [capture] puts into the record it returns. *)
Lemma capture_fields doc body ancestors el rawInner id e :
  capture doc body ancestors el rawInner id = Ok e ->
  el_id e = id
  /\ (exists labelText,
        el_text e =
          displayText (slice0 200 rawInner)
            (slice0 100 (trim (attr el (js "aria-label"))))
            (slice0 100 (trim (attr el (js "title"))))
            (slice0 100 (trim (match dom_value el with
                               | JUndefined => []
                               | v => ToString v
                               end)))
            (slice0 60 (trim (attr el (js "placeholder"))))
            (trim (attr el (js "href")))
            labelText)
  /\ getStableSelector doc el = Ok (el_selector e).
Proof.
  unfold capture. intros H.
  match type of H with
  | match ?x with Ok _ => _ | Err _ => _ end = _ =>
      destruct x as [labelText|err]; [|discriminate]
  end.
  destruct (getStableSelector doc el) as [stable|err]; [|discriminate].
  inversion H; subst e; clear H. simpl.
  split; [reflexivity|]. split; [|reflexivity].
  exists labelText. reflexivity.
Qed.

Lemma Ok_inj (A : Type) (a b : A) : Ok a = Ok b -> a = b.
Proof. congruence. Qed.

Lemma Some_inj (A : Type) (a b : A) : Some a = Some b -> a = b.
Proof. congruence. Qed.

(** The record that [capture] returns, field by field. *)
Lemma capture_record doc body ancestors el rawInner id e :
  capture doc body ancestors el rawInner id = Ok e ->
  exists labelText,
    (if labelled el then getAssociatedLabelText doc body ancestors el = Ok labelText
     else labelText = [])
    /\ el_labelText e = orUndefined labelText
    /\ el_text e =
         displayText (slice0 200 rawInner)
           (slice0 100 (trim (attr el (js "aria-label"))))
           (slice0 100 (trim (attr el (js "title"))))
           (slice0 100 (trim (match dom_value el with
                              | JUndefined => []
                              | v => ToString v
                              end)))
           (slice0 60 (trim (attr el (js "placeholder"))))
           (trim (attr el (js "href")))
           labelText
    /\ getStableSelector doc el = Ok (el_selector e).
Proof.
  unfold capture. intros H. cbv zeta in H. fold (labelled el) in H.
  destruct (labelled el).
  - destruct (getAssociatedLabelText doc body ancestors el) as [labelText|err];
      [|discriminate].
    destruct (getStableSelector doc el) as [stable|err]; [|discriminate].
    apply Ok_inj in H. subst e. exists labelText. repeat split.
  - destruct (getStableSelector doc el) as [stable|err]; [|discriminate].
    apply Ok_inj in H. subst e. exists []. repeat split.
Qed.

(** ** Labels *)

Lemma labelFor_first id labels :
  match labelFor id labels with
  | Some t =>
      exists before label after,
        labels = before ++ label :: after
        /\ Forall (fun l => dom_htmlFor l <> Some id) before
        /\ dom_htmlFor label = Some id
        /\ t = labelTextOf label
  | None => Forall (fun l => dom_htmlFor l <> Some id) labels
  end.
Proof.
  induction labels as [|l rest IH]; cbn [labelFor]; [constructor|].
  destruct (dom_htmlFor l) as [f|] eqn:Ef.
  - destruct (JsString.eqb f id) eqn:E.
    + apply JsString_eqb_eq in E. subst f.
      exists [], l, rest. repeat split; [constructor|exact Ef].
    + apply JsString_eqb_neq in E.
      destruct (labelFor id rest) as [t|].
      * destruct IH as [before [label [after [Hl [Hb [Hf Ht]]]]]].
        exists (l :: before), label, after. subst rest. repeat split; try assumption.
        constructor; [|exact Hb]. rewrite Ef. congruence.
      * constructor; [|exact IH]. rewrite Ef. congruence.
  - destruct (labelFor id rest) as [t|].
    + destruct IH as [before [label [after [Hl [Hb [Hf Ht]]]]]].
      exists (l :: before), label, after. subst rest. repeat split; try assumption.
      constructor; [|exact Hb]. rewrite Ef. discriminate.
    + constructor; [|exact IH]. rewrite Ef. discriminate.
Qed.

Lemma enclosingLabel_nearest body ancestors :
  (exists below parent above,
      ancestors = below ++ parent :: above
      /\ Forall (plainAncestor body) below
      /\ dom_node parent <> dom_node body
      /\ dom_tagName parent = js "LABEL"
      /\ enclosingLabel body ancestors = labelTextOf parent)
  \/ (enclosingLabel body ancestors = []
      /\ exists below rest,
           ancestors = below ++ rest
           /\ Forall (plainAncestor body) below
           /\ match rest with
              | [] => True
              | top :: _ => dom_node top = dom_node body
              end).
Proof.
  induction ancestors as [|p up IH]; cbn [enclosingLabel].
  - right. split; [reflexivity|]. exists [], []. repeat split. constructor.
  - destruct (dom_node p =? dom_node body)%nat eqn:Eb.
    + apply Nat.eqb_eq in Eb. right. split; [reflexivity|].
      exists [], (p :: up). repeat split; [constructor|exact Eb].
    + apply Nat.eqb_neq in Eb.
      destruct (JsString.eqb (dom_tagName p) (js "LABEL")) eqn:El.
      * apply JsString_eqb_eq in El. left.
        exists [], p, up. repeat split; try assumption. constructor.
      * apply JsString_eqb_neq in El.
        destruct IH as [[below [parent [above [Ha [Hb [Hn [Ht He]]]]]]]
                       |[He [below [rest [Ha [Hb Hr]]]]]].
        -- left. exists (p :: below), parent, above. subst up.
           repeat split; try assumption. constructor; [split; assumption|exact Hb].
        -- right. split; [exact He|]. exists (p :: below), rest. subst up.
           repeat split; try assumption. constructor; [split; assumption|exact Hb].
Qed.

(** What [getAssociatedLabelText] returns is the label text of the
    element, read off the document. *)
Lemma getAssociatedLabelText_sound doc body ancestors el t :
  getAssociatedLabelText doc body ancestors el = Ok t ->
  AssociatedLabel doc body ancestors el t.
Proof.
  unfold getAssociatedLabelText.
  assert (Haround : noLabelFor doc el ->
            AssociatedLabel doc body ancestors el (enclosingLabel body ancestors)).
  { intros Hno.
    destruct (enclosingLabel_nearest body ancestors)
      as [[below [parent [above [Ha [Hb [Hn [Ht He]]]]]]]
         |[He [below [rest [Ha [Hb Hr]]]]]]; rewrite He.
    - eapply label_around; eassumption.
    - eapply label_absent; eassumption. }
  destruct (dom_id el) as [|c r] eqn:Eid; cbn [is_empty].
  - intros H. apply Ok_inj in H. subst t. apply Haround. left. exact Eid.
  - rewrite <- Eid in *.
    destruct (doc_querySelectorAll doc (js "label[for]")) as [labels|err] eqn:Eq;
      [|discriminate].
    pose proof (labelFor_first (dom_id el) labels) as Hfirst.
    destruct (labelFor (dom_id el) labels) as [l|]; intros H; apply Ok_inj in H; subst t.
    + destruct Hfirst as [before [label [after [Hl [Hb [Hf Ht]]]]]]. subst l labels.
      eapply label_for; try eassumption. rewrite Eid. discriminate.
    + apply Haround. right. exists labels. split; [exact Eq|exact Hfirst].
Qed.

(** The record of an element shows it, when [capture] is given the
    text that the traversal gives it. *)
Lemma capture_shows doc body ancestors el id e :
  capture doc body ancestors el
    (trim (or_else (dom_innerText el) (dom_textContent el))) id = Ok e ->
  shows doc body ancestors el e.
Proof.
  intros H. destruct (capture_record _ _ _ _ _ _ H) as [labelText [Hl [Hr [Ht _]]]].
  exists labelText. split; [|split; [exact Hr|]].
  - destruct (labelled el); [|exact Hl].
    now apply getAssociatedLabelText_sound.
  - rewrite Ht. apply display_text_priority.
Qed.

(** ** Selectors *)

Lemma selectorText_distinguishing el text :
  selectorText el = Ok text -> text = distinguishingText el.
Proof.
  unfold selectorText, distinguishingText. cbv zeta.
  destruct (dom_innerText el) as [|c r]; cbn [is_empty negb or_else].
  - destruct (dom_value el) as [| |b|n|v|items|fields]; cbn [truthy].
    + intros H. apply Ok_inj in H. now subst text.
    + intros H. apply Ok_inj in H. now subst text.
    + destruct b; [discriminate|]. intros H. apply Ok_inj in H. now subst text.
    + destruct (Number.truthy n); [discriminate|].
      intros H. apply Ok_inj in H. now subst text.
    + destruct v as [|c r]; cbn [is_empty negb or_else];
        intros H; apply Ok_inj in H; now subst text.
    + discriminate.
    + discriminate.
  - intros H. apply Ok_inj in H. now subst text.
Qed.

Lemma indexOfNode_first el all :
  forall base,
    let i := indexOfNode el all base in
    (i = (-1)%Z /\ Forall (fun x => dom_node x <> dom_node el) all)
    \/ ((base <= i < base + Z.of_nat (List.length all))%Z
        /\ (exists x, nth_error all (Z.to_nat (i - base)) = Some x
                      /\ dom_node x = dom_node el)
        /\ Forall (fun x => dom_node x <> dom_node el)
             (firstn (Z.to_nat (i - base)) all)).
Proof.
  induction all as [|x rest IH]; intros base; cbn [indexOfNode].
  - left. split; [reflexivity|constructor].
  - destruct (dom_node x =? dom_node el)%nat eqn:E.
    + apply Nat.eqb_eq in E. cbv zeta. right.
      replace (base - base)%Z with 0%Z by lia. cbn [Z.to_nat nth_error firstn].
      split; [cbn [List.length]; lia|]. split; [now exists x|constructor].
    + apply Nat.eqb_neq in E. cbv zeta.
      destruct (IH (base + 1)%Z) as [[Hi Hall]|[Hr [[y [Hy Hn]] Hf]]].
      * left. split; [exact Hi|]. now constructor.
      * right. cbn [List.length]. split; [lia|].
        replace (Z.to_nat (indexOfNode el rest (base + 1) - base))
          with (S (Z.to_nat (indexOfNode el rest (base + 1) - (base + 1)))) by lia.
        cbn [nth_error firstn]. split; [now exists y|now constructor].
Qed.

Lemma getStableSelector_rule doc el e :
  getStableSelector doc el = Ok (el_selector e) -> selectedFor doc el e.
Proof.
  unfold getStableSelector. intros Hs.
  destruct (selectorText el) as [text|err] eqn:Et; [|discriminate].
  apply selectorText_distinguishing in Et. cbv zeta in Hs.
  destruct (doc_querySelectorAll doc (structuralSelector el)) as [all|err] eqn:Eall;
    [|discriminate].
  exists all. split; [exact Eall|]. cbv zeta. rewrite <- Et.
  destruct (1 <? List.length all)%nat eqn:Hlen.
  - apply Nat.ltb_lt in Hlen.
    destruct text as [|c text]; cbn [is_empty negb andb] in Hs;
      apply Ok_inj in Hs; rewrite <- Hs.
    + split; [intros; lia|]. split; [congruence|]. split; [|congruence].
      intros _ _. exists (indexOfNode el all 0). split; [reflexivity|].
      pose proof (indexOfNode_first el all 0) as Hspec. cbv zeta in Hspec.
      rewrite Z.sub_0_r, Z.add_0_l in Hspec. exact Hspec.
    + split; [intros; lia|]. split; [reflexivity|]. split; [congruence|].
      intros _ s i. discriminate.
  - apply Nat.ltb_ge in Hlen. cbn [andb] in Hs. apply Ok_inj in Hs. rewrite <- Hs.
    split; [reflexivity|]. split; [intros; lia|]. split; [intros; lia|].
    intros _ s i. discriminate.
Qed.

(** ** The elements of a snapshot are records of nodes of the body *)

Lemma eachChild_among (R : WalkState -> Prop)
    (visit : DomNode -> WalkState -> Result WalkState) (children : list DomNode) :
  (forall c, In c children ->
             forall st st', R st -> visit c st = Ok st' -> R st') ->
  forall st st', R st -> eachChild visit children st = Ok st' -> R st'.
Proof.
  induction children as [|c rest IH]; intros Hc st st' Hb H; cbn [eachChild] in H.
  - apply Ok_inj in H. now subst st'.
  - destruct (visit c st) as [st1|err] eqn:E; [|discriminate].
    apply (IH (fun c' Hin => Hc c' (or_intror Hin)) st1 st'); [|exact H].
    apply (Hc c (or_introl eq_refl) st st1 Hb E).
Qed.

(** Every element that the traversal adds is the record of a node of
    the tree, made by [capture] from the text of that node. *)
Lemma walk_records (Q : Element -> Prop) doc body node :
  forall ancestors st st',
    (forall x chain id e,
        occurs node ancestors x chain ->
        capture doc body chain x
          (trim (or_else (dom_innerText x) (dom_textContent x))) id = Ok e ->
        Q e) ->
    Forall Q (elements st) ->
    walk doc body ancestors node st = Ok st' ->
    Forall Q (elements st').
Proof.
  induction node as [el children IH] using DomNode_nested_ind.
  intros ancestors st st' HQ Hb H.
  assert (Hkids : forall s s', Forall Q (elements s) ->
            eachChild (walk doc body (el :: ancestors)) children s = Ok s' ->
            Forall Q (elements s')).
  { apply (@eachChild_among (fun s => Forall Q (elements s))).
    intros c Hin s s' Hs Hw.
    rewrite Forall_forall in IH. apply (IH c Hin (el :: ancestors) s s'); auto.
    intros x chain id e Hocc Hcap. eapply HQ; [|exact Hcap].
    eapply occurs_below; eassumption. }
  cbn [walk] in H.
  destruct (MAX_ELEMENTS <=? List.length (elements st))%nat;
    [apply Ok_inj in H; subst; exact Hb|].
  destruct (negb (matches el interactiveSelector)); [exact (Hkids _ _ Hb H)|].
  destruct (_ && negb _); [exact (Hkids _ _ Hb H)|].
  destruct (JsString.eqb (style_visibility el) (js "hidden") || _);
    [exact (Hkids _ _ Hb H)|].
  destruct (existsb _ (seen st)); [exact (Hkids _ _ Hb H)|].
  destruct (capture doc body ancestors el _ _) as [recorded|err] eqn:Ecap;
    [|discriminate].
  assert (Hb' : Forall Q (elements st ++ [recorded])).
  { apply Forall_app. split; [exact Hb|]. constructor; [|constructor].
    eapply HQ; [apply occurs_here|exact Ecap]. }
  destruct (negb (matches el leafSelector)).
  - refine (Hkids _ _ _ H). exact Hb'.
  - apply Ok_inj in H. subst st'. exact Hb'.
Qed.

Lemma script_records (P : DomElement -> list DomElement -> DomElement -> Element -> Prop)
    doc ps e :
  (forall body ancestors el id e',
      capture doc body ancestors el
        (trim (or_else (dom_innerText el) (dom_textContent el))) id = Ok e' ->
      P body ancestors el e') ->
  collectSnapshotScript doc = Ok ps ->
  In e (ps_elements ps) ->
  exists body kids el ancestors,
    doc_body doc = Some (DNode body kids)
    /\ occurs (DNode body kids) [] el ancestors
    /\ P body ancestors el e.
Proof.
  intros HP. unfold collectSnapshotScript.
  destruct (doc_body doc) as [[root kids]|].
  - destruct (walk doc root [] (DNode root kids) _) as [st|err] eqn:E; [|discriminate].
    intros H Hin. apply Ok_inj in H. subst ps. cbn [ps_elements] in Hin.
    apply (@walk_records
             (fun e0 => exists el ancestors,
                          occurs (DNode root kids) [] el ancestors
                          /\ P root ancestors el e0)) in E.
    + rewrite Forall_forall in E. destruct (E e Hin) as [el [ancestors [Ho Hp]]].
      exists root, kids, el, ancestors. auto.
    + intros x chain id e0 Hocc Hcap. exists x, chain. split; [exact Hocc|].
      eapply HP. exact Hcap.
    + constructor.
  - intros H Hin. apply Ok_inj in H. subst ps. contradiction.
Qed.

(** C9. The display text of every captured element is the first source
    that is not empty, in the order own text (inner text, else text
    content, trimmed and cut to 200 code units), aria-label, title,
    value, placeholder hint, href hint, label hint; the label is the
    text of the label of the document whose [for] names the element,
    else of the nearest enclosing label, for inputs, text areas and
    selects, and nothing for the other elements.  A source wins only
    when every earlier one is empty, at most one source wins, and the
    text is empty only when all seven are.  This holds of the record
    that [capture] makes of an element, and so of every element of a
    snapshot, which is such a record of a node of the body. *)
Theorem C9_display_text_priority :
  (forall doc body ancestors el id e,
      capture doc body ancestors el
        (trim (or_else (dom_innerText el) (dom_textContent el))) id = Ok e ->
      shows doc body ancestors el e)
  /\ (forall doc ps e,
      collectSnapshotScript doc = Ok ps ->
      In e (ps_elements ps) ->
      exists body kids el ancestors,
        doc_body doc = Some (DNode body kids)
        /\ occurs (DNode body kids) [] el ancestors
        /\ shows doc body ancestors el e).
Proof.
  split.
  - intros doc body ancestors el id e. apply capture_shows.
  - intros doc ps e.
    apply (@script_records (fun body ancestors el e' => shows doc body ancestors el e')).
    intros body ancestors el id e'. apply capture_shows.
Qed.

Lemma C9_witness :
  shows demoDocument demoBody [demoBody] demoDelete demoCaptured
  /\ (forall e,
        In e (ps_elements demoFormSnapshot) ->
        exists body kids el ancestors,
          doc_body demoForm = Some (DNode body kids)
          /\ occurs (DNode body kids) [] el ancestors
          /\ shows demoForm body ancestors el e).
Proof.
  destruct C9_display_text_priority as [Hrecord Hsnapshot].
  split.
  - apply (Hrecord demoDocument demoBody [demoBody] demoDelete (Int 2) demoCaptured).
    vm_compute. reflexivity.
  - intros e. apply (Hsnapshot demoForm demoFormSnapshot e).
    vm_compute. reflexivity.
Defined.

(** An input that has nothing but its label is shown by the label. *)
Example demo_label_hint :
  map (fun e => (el_text e, el_labelText e)) (ps_elements demoFormSnapshot)
  = [(js "label: E-mail address", Some (js "E-mail address"))].
Proof. vm_compute. reflexivity. Qed.

(** C5, as the code has it.  The selector descriptor of every captured
    element is the plain variant when the structural selector matches at
    most one node; the text-qualified variant when it matches several and
    the distinguishing text of the element is not empty, that text being
    the inner text, else the value, else the aria-label (trimmed, 80
    code units); the indexed variant, with the position of the element
    among the matches, when it matches several and that text is empty.
    The indexed variant is never chosen for an element whose
    distinguishing text is not empty.  The text that the element
    displays does not enter: title, placeholder and label are not read. *)
Theorem C5_selector_variant :
  (forall doc body ancestors el rawInner id e,
      capture doc body ancestors el rawInner id = Ok e -> selectedFor doc el e)
  /\ (forall doc ps e,
      collectSnapshotScript doc = Ok ps ->
      In e (ps_elements ps) ->
      exists body kids el ancestors,
        doc_body doc = Some (DNode body kids)
        /\ occurs (DNode body kids) [] el ancestors
        /\ selectedFor doc el e).
Proof.
  assert (Hrecord : forall doc body ancestors el rawInner id e,
            capture doc body ancestors el rawInner id = Ok e -> selectedFor doc el e).
  { intros doc body ancestors el rawInner id e H.
    destruct (capture_record _ _ _ _ _ _ H) as [labelText [_ [_ [_ Hs]]]].
    now apply getStableSelector_rule. }
  split; [exact Hrecord|].
  intros doc ps e.
  apply (@script_records (fun _ _ el e' => selectedFor doc el e')).
  intros body ancestors el id e'. apply Hrecord.
Qed.

Lemma C5_witness :
  selectedFor demoDocument demoDelete demoCaptured
  /\ (forall e,
        In e (ps_elements demoPageSnapshot) ->
        exists body kids el ancestors,
          doc_body demoDocument = Some (DNode body kids)
          /\ occurs (DNode body kids) [] el ancestors
          /\ selectedFor demoDocument el e).
Proof.
  destruct C5_selector_variant as [Hrecord Hsnapshot].
  split.
  - apply (Hrecord demoDocument demoBody [demoBody] demoDelete (js "Delete account")
             (Int 2) demoCaptured).
    vm_compute. reflexivity.
  - intros e. apply (Hsnapshot demoDocument demoPageSnapshot e).
    vm_compute. reflexivity.
Defined.

(** Two buttons that display the text of their title: the text is not
    empty, and both get the indexed variant. *)
Lemma C5_counterexample_title_only_buttons :
  match collectSnapshotScript demoClosers with
  | Ok ps =>
      map (fun e => (el_text e, el_selector e)) (ps_elements ps)
      = [(js "Close", SelNth (js "button") (Int 0));
         (js "Close", SelNth (js "button") (Int 1))]
  | Err _ => False
  end.
Proof. vm_compute. reflexivity. Qed.

Example demo_selector_variants :
  map el_selector (ps_elements demoPageSnapshot)
  = [SelXPath (xpathFor (js "button") (js "Save"));
     SelXPath (xpathFor (js "button") (js "Delete account"));
     SelXPath (xpathFor (js "button") (js "Cancel"))].
Proof. vm_compute. reflexivity. Qed.

Lemma dense_push els e :
  dense els -> el_id e = Number.ofNat (List.length els + 1) -> dense (els ++ [e]).
Proof.
  unfold dense. intros Hd He.
  rewrite map_app, length_app. simpl.
  rewrite Nat.add_1_r. rewrite seq_S, map_app. simpl.
  rewrite Hd, He. rewrite Nat.add_1_r. reflexivity.
Qed.

Lemma eachChild_preserves (visit : DomNode -> WalkState -> Result WalkState)
    (children : list DomNode) :
  Forall (fun c => forall st st', bounded st -> visit c st = Ok st' -> bounded st')
    children ->
  forall st st', bounded st -> eachChild visit children st = Ok st' -> bounded st'.
Proof.
  induction 1 as [|c rest Hc _ IH]; intros st st' Hb H; simpl in H.
  - inversion H; subst; exact Hb.
  - destruct (visit c st) as [st1|err] eqn:E; [|discriminate].
    apply (IH st1 st'); [|exact H]. apply (Hc st st1 Hb E).
Qed.

(** The traversal keeps the ids dense and the array within the cap. *)
Lemma walk_bounded doc body node :
  forall ancestors st st',
    bounded st -> walk doc body ancestors node st = Ok st' -> bounded st'.
Proof.
  induction node as [el children IH] using DomNode_nested_ind.
  intros ancestors st st' Hb H.
  assert (Hkids : forall s s', bounded s ->
            eachChild (walk doc body (el :: ancestors)) children s = Ok s' ->
            bounded s').
  { apply eachChild_preserves.
    eapply Forall_impl; [|exact IH]. intros c Hc s s'. apply Hc. }
  cbn [walk] in H.
  destruct (MAX_ELEMENTS <=? List.length (elements st))%nat eqn:Hcap;
    [inversion H; subst; exact Hb|].
  apply Nat.leb_gt in Hcap.
  destruct (negb (matches el interactiveSelector)); [exact (Hkids _ _ Hb H)|].
  destruct (_ && negb _); [exact (Hkids _ _ Hb H)|].
  destruct (JsString.eqb (style_visibility el) (js "hidden") || _);
    [exact (Hkids _ _ Hb H)|].
  destruct (existsb _ (seen st)); [exact (Hkids _ _ Hb H)|].
  destruct (capture doc body ancestors el _ _) as [recorded|err] eqn:Ecap;
    [|discriminate].
  destruct (capture_fields _ _ _ _ _ _ Ecap) as [Hid _].
  assert (Hb' : bounded {| seen := dedupKey el
                             (trim (or_else (dom_innerText el) (dom_textContent el)))
                             :: seen st;
                           elements := elements st ++ [recorded] |}).
  { destruct Hb as [Hd Hl]. split; simpl.
    - apply dense_push; assumption.
    - rewrite length_app. simpl. lia. }
  destruct (negb (matches el leafSelector)).
  - exact (Hkids _ _ Hb' H).
  - inversion H; subst. exact Hb'.
Qed.

Lemma ofNat_inj a b : Number.ofNat a = Number.ofNat b -> a = b.
Proof. unfold Number.ofNat. intros H. inversion H. lia. Qed.

Lemma dense_NoDup els : dense els -> NoDup (map el_id els).
Proof.
  unfold dense. intros ->.
  apply Injective_map_NoDup; [intros a b; apply ofNat_inj|apply seq_NoDup].
Qed.

Lemma script_bounded doc ps :
  collectSnapshotScript doc = Ok ps ->
  dense (ps_elements ps) /\ (List.length (ps_elements ps) <= MAX_ELEMENTS)%nat.
Proof.
  unfold collectSnapshotScript. intros H.
  change (bounded {| seen := []; elements := ps_elements ps |}).
  destruct (doc_body doc) as [[root kids]|].
  - destruct (walk doc root [] (DNode root kids) _) as [st|err] eqn:E;
      [|discriminate].
    inversion H; subst ps; clear H. simpl.
    assert (Hb : bounded st).
    { eapply walk_bounded; [|exact E]. split; [reflexivity|].
      simpl. unfold MAX_ELEMENTS. lia. }
    exact Hb.
  - inversion H; subst ps. split; [reflexivity|]. simpl. unfold MAX_ELEMENTS. lia.
Qed.

(** The same of the snapshot that the controller hands to the loop,
    whether the script ran at once or after the one retry. *)
Lemma getSnapshot_dense ok b :
  wp ok (getSnapshot b) (fun _ rb => denseSnapshot rb).
Proof.
  unfold getSnapshot, denseSnapshot.
  destruct b as [[page|]]; cbn; [|intros s H; discriminate H].
  intros pages _. cbn.
  apply wp_bind. eapply wp_mono; [|apply listTabs_quiet].
  intros tr [r b'] [Hd [Hb Hok]]. cbn in *. subst b'.
  destruct r as [tabs|e]; [|discriminate]. clear Hd Hok. cbn.
  intros x _ [doc|e] _; cbn.
  - destruct (collectSnapshotScript doc) as [ps|e] eqn:Eps; cbn.
    + intros s H. inversion H; subst s; clear H. cbn. apply (script_bounded _ Eps).
    + match goal with |- context [if ?c then _ else _] => destruct c end; cbn.
      * intros x0 H0 x1 H1 [doc2|e2] H2; cbn.
        -- destruct (collectSnapshotScript doc2) as [ps2|e3] eqn:Eps2; cbn;
             [|intros s H; discriminate H].
           intros s H. inversion H; subst s; clear H. cbn.
           apply (script_bounded _ Eps2).
        -- intros s H; discriminate H.
      * intros s H; discriminate H.
  - match goal with |- context [if ?c then _ else _] => destruct c end; cbn.
    + intros x0 H0 x1 H1 [doc2|e2] H2; cbn.
      * destruct (collectSnapshotScript doc2) as [ps2|e3] eqn:Eps2; cbn;
          [|intros s H; discriminate H].
        intros s H. inversion H; subst s; clear H. cbn.
        apply (script_bounded _ Eps2).
      * intros s H; discriminate H.
    + intros s H; discriminate H.
Qed.

(** C3. In every snapshot the script returns, and so in every snapshot
    the controller hands to the loop in any environment, the element ids
    are [1, 2, ..., N] in the order of the traversal, [N] being the
    number of elements; [N] is at most 200; no two elements share an id. *)
Theorem C3_snapshot_ids_dense :
  (forall doc ps,
      collectSnapshotScript doc = Ok ps ->
      map el_id (ps_elements ps)
      = map Number.ofNat (seq 1 (List.length (ps_elements ps)))
      /\ (List.length (ps_elements ps) <= MAX_ELEMENTS)%nat
      /\ NoDup (map el_id (ps_elements ps)))
  /\ (forall (W : Type) (h : Handler W) (w : W) b snapshot,
      fst (outcome h (getSnapshot b) w) = Ok snapshot ->
      map el_id (snap_elements snapshot)
      = map Number.ofNat (seq 1 (List.length (snap_elements snapshot)))
      /\ (List.length (snap_elements snapshot) <= MAX_ELEMENTS)%nat
      /\ NoDup (map el_id (snap_elements snapshot)))
  /\ MAX_ELEMENTS = 200%nat.
Proof.
  split; [|split; [|reflexivity]].
  - intros doc ps H. destruct (script_bounded _ H) as [Hd Hl].
    split; [exact Hd|]. split; [exact Hl|]. now apply dense_NoDup.
  - intros W h w b snapshot H.
    assert (Hs : denseSnapshot (outcome h (getSnapshot b) w)).
    { apply (@wp_sound W _ h anything (getSnapshot b) (fun X c w0 => I)
               (fun _ rb => denseSnapshot rb) w).
      apply getSnapshot_dense. }
    destruct (Hs snapshot H) as [Hd Hl].
    split; [exact Hd|]. split; [exact Hl|]. now apply dense_NoDup.
Qed.

Lemma C3_witness :
  (map el_id (ps_elements demoPageSnapshot)
   = map Number.ofNat (seq 1 (List.length (ps_elements demoPageSnapshot)))
   /\ (List.length (ps_elements demoPageSnapshot) <= MAX_ELEMENTS)%nat
   /\ NoDup (map el_id (ps_elements demoPageSnapshot)))
  /\ (map el_id (snap_elements demoLoopSnapshot)
      = map Number.ofNat (seq 1 (List.length (snap_elements demoLoopSnapshot)))
      /\ (List.length (snap_elements demoLoopSnapshot) <= MAX_ELEMENTS)%nat
      /\ NoDup (map el_id (snap_elements demoLoopSnapshot))).
Proof.
  destruct C3_snapshot_ids_dense as [Hscript [Hloop _]].
  split.
  - apply (Hscript demoDocument demoPageSnapshot). vm_compute. reflexivity.
  - apply (Hloop unit (scriptedEnv None true true) tt demoController demoLoopSnapshot).
    vm_compute. reflexivity.
Defined.

Example demo_snapshot_ids :
  map el_id (ps_elements demoPageSnapshot) = [Int 1; Int 2; Int 3]
  /\ map el_id (snap_elements demoLoopSnapshot) = [Int 1; Int 2; Int 3].
Proof. split; vm_compute; reflexivity. Qed.

(** ** Tool dispatch *)




Lemma waitSeconds_range stn args :
  let sec := waitSeconds stn args in
  sec <> NaN /\ Number.lt_int sec 1 = false
  /\ (Number.ge_int sec 10 = true -> sec = Int 10).
Proof.
  unfold waitSeconds.
  set (n := ToNumber stn (prop args (js "seconds"))).
  destruct n as [|[|]|z|fl r]; cbn.
  - repeat split; congruence.
  - repeat split; congruence.
  - repeat split; congruence.
  - destruct (z =? 0)%Z eqn:Ez; cbn.
    + repeat split; congruence.
    + destruct (z <? 1)%Z eqn:E1; cbn.
      * repeat split; congruence.
      * destruct (10 <=? z)%Z eqn:E10; cbn; rewrite ?E1, ?E10;
          repeat split; congruence.
  - destruct (fl <? 1)%Z eqn:E1; cbn.
    + repeat split; congruence.
    + destruct (10 <=? fl)%Z eqn:E10; cbn; rewrite ?E1, ?E10;
        repeat split; congruence.
Qed.

(** The seconds that [wait] sleeps, by the number that [seconds] holds. *)
Lemma waitSeconds_cases stn args :
  let n := ToNumber stn (prop args (js "seconds")) in
  let sec := waitSeconds stn args in
  (Number.truthy n = false -> sec = Int 2)
  /\ (Number.truthy n = true -> Number.lt_int n 1 = true -> sec = Int 1)
  /\ (Number.truthy n = true -> Number.ge_int n 10 = true -> sec = Int 10)
  /\ (Number.truthy n = true -> Number.lt_int n 1 = false ->
      Number.ge_int n 10 = false -> sec = n).
Proof.
  unfold waitSeconds.
  set (n := ToNumber stn (prop args (js "seconds"))).
  destruct n as [|[|]|z|fl r]; cbn.
  - repeat split; congruence.
  - repeat split; congruence.
  - repeat split; congruence.
  - destruct (z =? 0)%Z eqn:Ez; cbn.
    + repeat split; congruence.
    + destruct (z <? 1)%Z eqn:E1; cbn.
      * apply Z.ltb_lt in E1.
        assert (H10 : (10 <=? z)%Z = false) by (apply Z.leb_gt; lia).
        rewrite H10. repeat split; congruence.
      * destruct (10 <=? z)%Z eqn:E10; cbn; rewrite ?E1, ?E10;
          repeat split; congruence.
  - destruct (fl <? 1)%Z eqn:E1; cbn.
    + apply Z.ltb_lt in E1.
      assert (H10 : (10 <=? fl)%Z = false) by (apply Z.leb_gt; lia).
      rewrite H10. repeat split; congruence.
    + destruct (10 <=? fl)%Z eqn:E10; cbn; rewrite ?E1, ?E10;
        repeat split; congruence.
Qed.

Ltac by_argument v :=
  intros H; unfold executeTool; revert H;
  destruct v; intros H; try discriminate H; reflexivity.

Ltac by_arguments v1 v2 :=
  intros H1 H2; unfold executeTool; revert H1 H2;
  destruct v1; destruct v2; intros H1 H2;
  try discriminate H1; try discriminate H2; reflexivity.

Ltac pick_case :=
  repeat match goal with
         | |- context [JsString.eqb (js ?a) (js ?b)] =>
             let r := eval vm_compute in (JsString.eqb (js a) (js b)) in
             change (JsString.eqb (js a) (js b)) with r
         end;
  cbv iota.

(** Every tool of the catalog but the lenient ones rejects an argument
    list in which a required parameter has not the [typeof] of its
    declared type. *)
Lemma catalog_validation stn args snapshot ctl tool p :
  In tool TOOL_DEFINITIONS ->
  lenient (tool_name tool) = false ->
  In p (tool_required tool) ->
  typeof (prop args p) <> typeofDeclared (declaredType tool p) ->
  exists msg,
    executeTool stn (tool_name tool) args snapshot ctl = Ret (Ok (failed msg), ctl).
Proof.
  intros Hin Hl Hp Ht.
  unfold TOOL_DEFINITIONS in Hin. simpl in Hin.
  repeat (destruct Hin as [<-|Hin]); try contradiction;
    try discriminate Hl; clear Hl; simpl in Hp;
    repeat (destruct Hp as [<-|Hp]); try contradiction;
    unfold executeTool; cbn [tool_name]; pick_case;
    match type of Ht with
    | context [typeofDeclared ?t] =>
        let r := eval vm_compute in (typeofDeclared t) in
        change (typeofDeclared t) with r in Ht
    end;
    match type of Ht with
    | context [prop args ?k] => remember (prop args k) as v eqn:Hv
    end;
    destruct v; try (exfalso; apply Ht; vm_compute; reflexivity);
    try (eexists; reflexivity).
  all: match goal with
       | |- context [prop ?a ?k] => destruct (prop a k)
       end; eexists; reflexivity.
Qed.




(** ** Click fallback chain *)

(** Every run of [clickElement] on an element that is not a wrapper card
    attempts the tiers in one of five ways. *)
Lemma clickElement_plain_wp snapshot elementId el ctl :
  findById (snap_elements snapshot) elementId = Some el ->
  isWrapper el = false ->
  wp anything (clickElement snapshot elementId ctl)
    (fun tr _ => tiersInOrder (attempts tr)).
Proof.
  intros Hfind Hw. unfold clickElement, findElementInSnapshot. rewrite Hfind.
  unfold tiersInOrder.
  destruct ctl as [[page|]]; cbn.
  2: { auto. }
  unfold locatorFromSelector.
  destruct (el_selector el) as [v|sel idx|v]; cbn.
  all: try (destruct (is_empty v); cbn; [auto|]).
  all: rewrite Hw; cbn.
  all: intros [[]|e1] _; cbn; [|auto].
  all: intros [[]|e2] _; cbn; [|auto].
  all: intros [] _; cbn.
  all: intros [[]|e3] _; cbn; [intros [] _; cbn; auto 6|].
  all: intros [[]|e4] _; cbn; [intros [] _; cbn; auto 6|].
  all: intros [[]|e5] _; cbn; [intros [] _; cbn; auto 6|auto 6].
Qed.

(** C8. On an element that is not a wrapper card, in every environment:
    when the native click (tier 1) succeeds it is the only tier
    attempted; when it raises, the next attempt is the forced click
    (tier 2), and the in-page script (tier 3) is attempted only after
    the forced click has failed. *)
Theorem C8_click_fallback_order (W : Type) (h : Handler W) (w : W)
    snapshot elementId el ctl :
  findById (snap_elements snapshot) elementId = Some el ->
  isWrapper el = false ->
  let a := attempts (trace h (clickElement snapshot elementId ctl) w) in
  tiersInOrder a
  /\ (In (1%nat, true) a -> a = [(1%nat, true)])
  /\ (In (1%nat, false) a ->
      exists ok2 rest,
        a = (1%nat, false) :: (2%nat, ok2) :: rest
        /\ (rest = [] \/ exists ok3, ok2 = false /\ rest = [(3%nat, ok3)])).
Proof.
  intros Hfind Hw a.
  assert (Ht : tiersInOrder a).
  { unfold a.
    apply (@wp_sound W _ h anything (clickElement snapshot elementId ctl)
             (fun X c w0 => I)
             (fun tr _ => tiersInOrder (attempts tr)) w).
    now apply clickElement_plain_wp with (el:=el). }
  split; [exact Ht|].
  destruct Ht as [E|[E|[E|[E|E]]]]; rewrite E; simpl; split; intros H;
    repeat match goal with
           | H : _ \/ _ |- _ => destruct H
           | H : False |- _ => contradiction
           | H : (_, _) = (_, _) |- _ => inversion H; clear H
           end; try reflexivity.
  - exists true, []. split; [reflexivity|]. now left.
  - exists false, [(3%nat, true)]. split; [reflexivity|]. right. now exists true.
  - exists false, [(3%nat, false)]. split; [reflexivity|]. right. now exists false.
Qed.

Lemma C8_witness :
  tiersInOrder
    (attempts (trace (scriptedEnv None true false)
                 (clickElement demoSnapshot (Int 1) demoController) tt))
  /\ (In (1%nat, true)
        (attempts (trace (scriptedEnv None true false)
                     (clickElement demoSnapshot (Int 1) demoController) tt)) ->
      attempts (trace (scriptedEnv None true false)
                  (clickElement demoSnapshot (Int 1) demoController) tt)
      = [(1%nat, true)])
  /\ (In (1%nat, false)
        (attempts (trace (scriptedEnv None true false)
                     (clickElement demoSnapshot (Int 1) demoController) tt)) ->
      exists ok2 rest,
        attempts (trace (scriptedEnv None true false)
                    (clickElement demoSnapshot (Int 1) demoController) tt)
        = (1%nat, false) :: (2%nat, ok2) :: rest
        /\ (rest = [] \/ exists ok3, ok2 = false /\ rest = [(3%nat, ok3)])).
Proof.
  exact (@C8_click_fallback_order unit (scriptedEnv None true false) tt demoSnapshot
           (Int 1) (demoElement 1 "button" "Delete account" false) demoController
           eq_refl eq_refl).
Defined.

Example demo_click_tiers :
  attempts (trace (scriptedEnv None true false)
              (clickElement demoSnapshot (Int 1) demoController) tt)
  = [(1%nat, false); (2%nat, true)].
Proof. vm_compute. reflexivity. Qed.

(** ** The controller's methods leave the loop in shape *)

Lemma clickElement_quiet ok snapshot elementId b :
  wp ok (clickElement snapshot elementId b) (quiet b).
Proof.
  unfold clickElement, findElementInSnapshot, quiet.
  destruct (findById (snap_elements snapshot) elementId) as [el|]; cbn; [|auto].
  destruct b as [[page|]]; cbn; [|auto].
  unfold locatorFromSelector.
  destruct (el_selector el) as [v|sel idx|v]; cbn.
  all: try (destruct (is_empty v); cbn; [auto|]).
  all: destruct (isWrapper el); cbn.
  all: repeat (answer; cbn; auto).
Qed.

Ltac locate snapshot elementId b :=
  unfold findElementInSnapshot, quiet;
  destruct (findById (snap_elements snapshot) elementId) as [el|]; cbn; [|auto];
  destruct b as [[page|]]; cbn; [|auto];
  unfold locatorFromSelector;
  destruct (el_selector el) as [sv|sel idx|sv]; cbn;
  try (destruct (is_empty sv); cbn; [auto|]).

Lemma typeText_quiet ok snapshot elementId text b :
  wp ok (typeText snapshot elementId text b) (quiet b).
Proof.
  unfold typeText, quiet.
  destruct elementId as [id|].
  - unfold findElementInSnapshot.
    destruct b as [[page|]]; cbn; [|auto].
    destruct (findById (snap_elements snapshot) id) as [el|]; cbn; [|auto].
    unfold locatorFromSelector.
    destruct (el_selector el) as [v|sel idx|v]; cbn.
    all: try (destruct (is_empty v); cbn; [auto|]).
    all: repeat (answer; cbn; auto).
  - destruct b as [[page|]]; cbn; [|auto].
    repeat (answer; cbn; auto).
Qed.

Lemma selectOption_quiet ok snapshot elementId v b :
  wp ok (selectOption snapshot elementId v b) (quiet b).
Proof.
  unfold selectOption. locate snapshot elementId b.
  all: repeat (answer; cbn; auto).
Qed.

Lemma setCheckbox_quiet ok snapshot elementId checked b :
  wp ok (setCheckbox snapshot elementId checked b) (quiet b).
Proof.
  unfold setCheckbox. locate snapshot elementId b.
  all: destruct checked; cbn.
  all: repeat (answer; cbn; auto).
Qed.

Lemma navigate_healthy d url b :
  ctl_page b <> None ->
  wp (healthy d) (navigate url b)
    (fun tr rb => decisions tr = 0%nat /\ snd rb = b /\ isOk (fst rb) = true).
Proof.
  intros Hp. unfold navigate. destruct b as [[page|]]; [|now contradiction Hp]. cbn.
  intros [[]|e] H; [|discriminate H]. cbn.
  repeat (answer; cbn; auto).
Qed.

Lemma scroll_healthy d direction b :
  ctl_page b <> None ->
  wp (healthy d) (scroll direction b)
    (fun tr rb => decisions tr = 0%nat /\ snd rb = b /\ isOk (fst rb) = true).
Proof.
  intros Hp. unfold scroll. destruct b as [[page|]]; [|now contradiction Hp]. cbn.
  repeat match goal with
         | |- context [if ?c then _ else _] => destruct c; cbn
         end.
  all: try (intros [[]|e] H; [|discriminate H]; cbn).
  all: repeat (answer; cbn; auto).
Qed.

Lemma newTab_keeps_page ok url b :
  ctl_page b <> None ->
  wp ok (newTab url b)
    (fun tr rb => decisions tr = 0%nat /\ ctl_page (snd rb) <> None).
Proof.
  intros Hp. unfold newTab. cbn.
  intros [p|e] _; cbn; [|auto].
  destruct url as [u|]; cbn.
  - destruct (is_empty u); cbn.
    + repeat (answer; cbn; auto). split; [reflexivity|congruence].
    + intros [[]|e] _; cbn; [|split; [reflexivity|congruence]].
      repeat (answer; cbn; auto); split; try reflexivity; congruence.
  - repeat (answer; cbn; auto). split; [reflexivity|congruence].
Qed.

Lemma pageAt_in_range pages z :
  (z <? 0)%Z = false -> (Z.of_nat (List.length pages) <=? z)%Z = false ->
  pageAt pages (Int z) <> None.
Proof.
  intros H0 H1. unfold pageAt. rewrite H0.
  apply nth_error_Some. apply Z.ltb_ge in H0. apply Z.leb_gt in H1. lia.
Qed.

(** A whole tab index that passes the range check names a page. *)
Lemma switchTab_keeps_page ok tabIndex b :
  ctl_page b <> None -> wholeIndex (JNum tabIndex) ->
  wp ok (switchTab tabIndex b)
    (fun tr rb => decisions tr = 0%nat /\ ctl_page (snd rb) <> None).
Proof.
  intros Hp Hw. unfold switchTab. cbn. intros pages _.
  destruct (Number.lt_int tabIndex 0 || _) eqn:Hr; cbn; [auto|].
  apply orb_false_iff in Hr. destruct Hr as [H0 H1].
  destruct tabIndex as [|neg|z|fl r]; cbn in Hw; try contradiction.
  - destruct neg; discriminate.
  - cbn in H0, H1. pose proof (pageAt_in_range pages z H0 H1) as Hs.
    destruct (pageAt pages (Int z)) as [p|]; [|congruence]. cbn.
    intros [[]|e] _; cbn.
    + intros [] _. cbn. split; [reflexivity|congruence].
    + split; [reflexivity|congruence].
Qed.

Lemma headingLevel_renders tag : isOk (Prompt.repeatHash (headingLevel tag)) = true.
Proof.
  unfold headingLevel.
  destruct tag as [|c0 [|c tag]]; try reflexivity.
  destruct ((48 <=? c) && (c <=? 57))%N; [|reflexivity].
  unfold Prompt.repeatHash.
  destruct (Z.of_N (c - 48) <? 0)%Z eqn:E; [|reflexivity].
  apply Z.ltb_lt in E. lia.
Qed.

Lemma collectHeadings_renderable nodes :
  forall hs, renderable hs -> renderable (collectHeadings nodes hs).
Proof.
  induction nodes as [|h rest IH]; intros hs Hhs;
    cbn [collectHeadings]; [exact Hhs|].
  destruct (MAX_HEADINGS <=? List.length hs)%nat; [now apply IH|].
  destruct (is_empty _); [now apply IH|].
  apply IH. apply Forall_app. split; [exact Hhs|].
  constructor; [|constructor]. simpl. apply headingLevel_renders.
Qed.

Lemma headingLines_ok hs : renderable hs -> isOk (Prompt.headingLines hs) = true.
Proof.
  induction 1 as [|h rest Hh _ IH]; simpl; [reflexivity|].
  destruct (Prompt.repeatHash (h_level h)); [|discriminate].
  destruct (Prompt.headingLines rest); [reflexivity|discriminate].
Qed.

Lemma script_headings_renderable doc ps :
  collectSnapshotScript doc = Ok ps -> renderable (ps_headings ps).
Proof.
  unfold collectSnapshotScript.
  destruct (doc_body doc) as [[root kids]|].
  - destruct (walk _ _ _ _ _); [|discriminate].
    intros H. inversion H; subst ps; clear H. simpl.
    apply collectHeadings_renderable. constructor.
  - intros H. inversion H; subst ps. constructor.
Qed.

(** The rendering of a snapshot that the script produced never throws. *)
Lemma formatSnapshot_ok snapshot :
  renderable (snap_headings snapshot) ->
  isOk (Prompt.formatSnapshotForPrompt snapshot) = true.
Proof.
  intros H. unfold Prompt.formatSnapshotForPrompt.
  pose proof (headingLines_ok H) as Hl.
  destruct (Prompt.headingLines (snap_headings snapshot)); [reflexivity|discriminate].
Qed.

Lemma getSnapshot_healthy d b :
  ctl_page b <> None ->
  wp (healthy d) (getSnapshot b)
    (fun tr rb =>
       decisions tr = 0%nat /\ snd rb = b
       /\ exists snapshot, fst rb = Ok snapshot
                           /\ renderable (snap_headings snapshot)).
Proof.
  intros Hp. unfold getSnapshot.
  destruct b as [[page|]] eqn:Eb; [|now contradiction Hp]. rewrite <- Eb.
  apply wp_mbind. subst b. cbn.
  intros pages _. cbn.
  apply wp_mbind. eapply wp_mono; [|apply listTabs_quiet].
  intros tr [r b'] [Hd [Hb Hok]]. cbn in *. subst b'.
  destruct r as [tabs|e]; [|discriminate]. cbn.
  intros x _ [doc|e] Hdoc; [|contradiction].
  destruct (collectSnapshotScript doc) as [ps|e] eqn:Eps; [|discriminate].
  cbn.
  split; [|split; [reflexivity|]].
  - tally.
  - eexists. split; [reflexivity|]. cbn.
    apply (script_headings_renderable _ Eps).
Qed.

Lemma guarded_quiet ok (m : M unit) good onError b :
  ctl_page b <> None -> stop good = false -> (forall e, stop (onError e) = false) ->
  wp ok (m b) (quiet b) ->
  wp ok (guarded m good onError b) carriesOn.
Proof.
  intros Hp Hg He H. apply wp_guarded. eapply wp_mono; [|exact H].
  intros tr [r b1] [Hd Hb]. simpl in *. subst b1.
  split; [exact Hd|]. split; [exact Hp|].
  destruct r; eexists; split; try reflexivity; auto.
Qed.

(** A tool other than the two terminal ones returns a result without
    [stop], throws nothing, and leaves the controller on a page. *)
Lemma executeTool_continues d stn name args snapshot b :
  terminal name = false -> ctl_page b <> None ->
  (name = js "switch_tab" -> wholeIndex (prop args (js "tab_index"))) ->
  wp (healthy d) (executeTool stn name args snapshot b) carriesOn.
Proof.
  intros Ht Hp Hw. unfold terminal in Ht. apply orb_false_iff in Ht.
  destruct Ht as [Hdone Hask].
  assert (Hret : forall msg, wp (healthy d) (ret (failed msg) b) carriesOn).
  { intros msg. cbn. split; [reflexivity|]. split; [exact Hp|].
    eexists. split; reflexivity. }
  unfold executeTool.
  destruct (JsString.eqb name (js "navigate")).
  { destruct (prop args (js "url")); try apply Hret.
    apply wp_mbind. eapply wp_mono; [|apply navigate_healthy; exact Hp].
    intros tr [r b1] [Hd [Hb Hok]]. simpl in *. subst b1.
    destruct r as [[]|e]; [|discriminate]. cbn.
    rewrite app_nil_r. split; [exact Hd|]. split; [exact Hp|].
    eexists. split; reflexivity. }
  destruct (JsString.eqb name (js "open_new_tab")).
  { apply wp_mbind. apply wp_attempt. apply wp_mbind.
    eapply wp_mono; [|apply newTab_keeps_page; exact Hp].
    intros tr [r b1] [Hd Hb]. simpl in *.
    destruct r as [p|e]; cbn.
    - intros pages _. cbn. rewrite app_nil_r.
      split; [tally|]. split; [exact Hb|].
      eexists. split; reflexivity.
    - rewrite app_nil_r. split; [exact Hd|]. split; [exact Hb|].
      eexists. split; reflexivity. }
  destruct (JsString.eqb name (js "switch_tab")) eqn:Esw.
  { apply JsString_eqb_eq in Esw. specialize (Hw Esw).
    destruct (prop args (js "tab_index")) as [| |?|tabIndex|?|?|?]; try apply Hret.
    apply wp_guarded. eapply wp_mono; [|apply switchTab_keeps_page; assumption].
    intros tr [r b1] [Hd Hb]. simpl in *.
    split; [exact Hd|]. split; [exact Hb|].
    destruct r; eexists; split; reflexivity. }
  destruct (JsString.eqb name (js "click_element")).
  { destruct (prop args (js "element_id")) as [| |?|elementId|?|?|?]; try apply Hret.
    destruct (match findById _ _ with Some el => el_disabled el | None => false end);
      [apply Hret|].
    apply guarded_quiet; auto. apply clickElement_quiet. }
  destruct (JsString.eqb name (js "type_text")).
  { destruct (prop args (js "text")); try apply Hret.
    apply guarded_quiet; auto. apply typeText_quiet. }
  destruct (JsString.eqb name (js "select_option")).
  { destruct (prop args (js "element_id")) as [| |?|elementId|?|?|?]; try apply Hret.
    destruct (prop args (js "value_or_label")); try apply Hret.
    apply guarded_quiet; auto. apply selectOption_quiet. }
  destruct (JsString.eqb name (js "set_checkbox")).
  { destruct (prop args (js "element_id")) as [| |?|elementId|?|?|?]; try apply Hret.
    destruct (prop args (js "checked")); try apply Hret.
    apply guarded_quiet; auto. apply setCheckbox_quiet. }
  destruct (JsString.eqb name (js "scroll")).
  { destruct (isDirection (prop args (js "direction"))); try apply Hret.
    apply wp_mbind. eapply wp_mono; [|apply scroll_healthy; exact Hp].
    intros tr [r b1] [Hd [Hb Hok]]. simpl in *. subst b1.
    destruct r as [[]|e]; [|discriminate]. cbn.
    rewrite app_nil_r. split; [exact Hd|]. split; [exact Hp|].
    eexists. split; reflexivity. }
  destruct (JsString.eqb name (js "wait")).
  { cbn. intros [] _. cbn. split; [reflexivity|]. split; [exact Hp|].
    eexists. split; reflexivity. }
  rewrite Hdone, Hask. apply Hret.
Qed.

(** ** Control loop *)

(** C1. When the policy gate finds the proposed action destructive, a
    confirmation capability is present and it answers false, the gated
    step consists of that one question: the result is the synthesized
    [success = false] "User denied the action." and no call reaches the
    executor or the browser. *)
Theorem C1_denied_action_not_executed (W : Type) (h : Handler W) (w w' : W)
    stn name args snapshot ctl :
  let verdict := checkDestructiveAction name args snapshot in
  let question :=
    match description verdict with
    | Some d => d
    | None => js "Sensitive action"
    end in
  destructive verdict = true ->
  h _ (GetUserConfirmation question) w = (Ok false, w') ->
  run h (Agent.gateAndExecute stn true name args snapshot ctl) w
  = ([Ev (GetUserConfirmation question) (Ok false)], (Ok Agent.DENIED, ctl), w')
  /\ success Agent.DENIED = false
  /\ message Agent.DENIED = js "User denied the action.".
Proof.
  intros verdict question Hd Hh. split; [|split; reflexivity].
  unfold Agent.gateAndExecute. fold verdict. rewrite Hd. simpl.
  fold question. rewrite Hh. reflexivity.
Qed.

Lemma C1_witness :
  run (scriptedEnv None false true)
    (Agent.gateAndExecute noNumber true (js "click_element")
       [(js "element_id", JNum (Int 1))] demoSnapshot demoController) tt
  = ([Ev (GetUserConfirmation (js "Delete account")) (Ok false)],
     (Ok Agent.DENIED, demoController), tt)
  /\ success Agent.DENIED = false
  /\ message Agent.DENIED = js "User denied the action.".
Proof.
  exact (@C1_denied_action_not_executed unit (scriptedEnv None false true) tt tt
           noNumber (js "click_element") [(js "element_id", JNum (Int 1))]
           demoSnapshot demoController eq_refl eq_refl).
Defined.

Section LoopFacts.

Variable StringToNumber : jsstring -> number.
Variable JSON_parse : jsstring -> option JsValue.
Variable SUB_AGENT_PROMPTS : jsstring -> jsstring.
Variable hasUserConfirmation : bool.

Local Abbreviation gateAndExecute :=
  (Agent.gateAndExecute StringToNumber hasUserConfirmation).
Local Abbreviation iteration :=
  (Agent.iteration StringToNumber JSON_parse hasUserConfirmation).
Local Abbreviation loop := (Agent.loop StringToNumber JSON_parse hasUserConfirmation).

Lemma gateAndExecute_continues d name args snapshot b :
  terminal name = false -> ctl_page b <> None ->
  (name = js "switch_tab" -> wholeIndex (prop args (js "tab_index"))) ->
  wp (healthy d) (gateAndExecute name args snapshot b) carriesOn.
Proof.
  intros Ht Hp Hw. unfold Agent.gateAndExecute.
  destruct (destructive _ && hasUserConfirmation).
  - apply wp_mbind. cbn. intros [allowed|e] Hc; [|discriminate Hc]. cbn.
    destruct allowed; cbn.
    + eapply wp_mono; [|apply executeTool_continues; assumption].
      intros tr rb H. exact H.
    + split; [reflexivity|]. split; [exact Hp|]. eexists. split; reflexivity.
  - apply executeTool_continues; assumption.
Qed.

Lemma executeTool_task_done args snapshot b summary :
  prop args (js "result") = JStr summary ->
  executeTool StringToNumber (js "task_done") args snapshot b
  = Ret (Ok {| success := true; message := summary; stop := true;
               userQuestion := None |}, b).
Proof. intros H. unfold executeTool. rewrite H. reflexivity. Qed.

Lemma gateAndExecute_task_done args snapshot b summary :
  prop args (js "result") = JStr summary ->
  gateAndExecute (js "task_done") args snapshot b
  = Ret (Ok {| success := true; message := summary; stop := true;
               userQuestion := None |}, b).
Proof.
  intros H. unfold Agent.gateAndExecute.
  change (checkDestructiveAction (js "task_done") args snapshot)
    with not_destructive.
  cbn [destructive not_destructive andb].
  now apply executeTool_task_done.
Qed.

(** One round with a decision that is not terminal: one decision is
    asked and the loop goes on, the controller still on a page. *)
Lemma iteration_continues i messages b :
  ctl_page b <> None ->
  wp (healthy (continuing JSON_parse)) (iteration i messages b)
    (fun tr rb =>
       decisions tr = 1%nat /\ ctl_page (snd rb) <> None
       /\ exists messages', fst rb = Ok (inl messages')).
Proof.
  intros Hp. unfold Agent.iteration.
  apply wp_mbind. eapply wp_mono; [|apply getSnapshot_healthy; exact Hp].
  intros tr [r b1] [Hd [Hb [snapshot [Hr Hh]]]]. simpl in *. subst b1 r.
  apply wp_mbind. unfold lift.
  pose proof (formatSnapshot_ok _ Hh) as Hf.
  destruct (Prompt.formatSnapshotForPrompt snapshot) as [text|e]; [|discriminate].
  cbn [wp fst snd].
  apply wp_mbind. cbn [await wp].
  intros [[choice|]|e] Hc; cbn in Hc; try discriminate Hc; try contradiction.
  specialize (Hc eq_refl). unfold continuing in Hc.
  cbn [fst snd].
  destruct (tool_calls choice) as [|toolCall rest].
  - destruct (JsString.eqb (finish_reason choice) (js "stop")); cbn;
      (split; [tally|]); (split; [exact Hp|]); eexists; reflexivity.
  - destruct Hc as [Hterm [args [Hargs Hwhole]]].
    apply wp_mbind. unfold lift. rewrite Hargs. cbn [wp fst snd].
    apply wp_mbind.
    eapply wp_mono; [|apply gateAndExecute_continues; eassumption].
    intros tr' [r' b'] [Hd' [Hb' [res [Hres Hstop]]]]. simpl in *. subst r'.
    rewrite Hstop. cbn.
    split; [tally|]. split; [exact Hb'|]. eexists. reflexivity.
Qed.

(** [n] rounds of decisions that are not terminal: [n] decisions are
    asked and the loop reports exhaustion. *)
Lemma loop_exhausts n :
  forall i messages b,
    ctl_page b <> None ->
    wp (healthy (continuing JSON_parse)) (loop n i messages b)
      (fun tr rb => decisions tr = n /\ fst rb = Ok Agent.exhausted).
Proof.
  induction n as [|n IH]; intros i messages b Hp.
  - cbn. auto.
  - cbn [Agent.loop]. apply wp_mbind.
    eapply wp_mono; [|apply iteration_continues; exact Hp].
    intros tr [r b1] [Hd [Hb [messages' Hr]]]. simpl in *. subst r.
    eapply wp_mono; [|apply (IH (S i) messages' b1 Hb)].
    intros tr' rb' [Hd' Hr']. split; [tally|exact Hr'].
Qed.

(** A round whose decision calls [task_done]. *)
Lemma iteration_finishes summary i messages b :
  ctl_page b <> None ->
  wp (healthy (finishing JSON_parse summary)) (iteration i messages b)
    (fun tr rb =>
       decisions tr = 1%nat
       /\ fst rb = Ok (inr {| done := true; result := Some summary;
                              agentQuestion := None; error := None |})).
Proof.
  intros Hp. unfold Agent.iteration.
  apply wp_mbind. eapply wp_mono; [|apply getSnapshot_healthy; exact Hp].
  intros tr [r b1] [Hd [Hb [snapshot [Hr Hh]]]]. simpl in *. subst b1 r.
  apply wp_mbind. unfold lift.
  pose proof (formatSnapshot_ok _ Hh) as Hf.
  destruct (Prompt.formatSnapshotForPrompt snapshot) as [text|e]; [|discriminate].
  cbn [wp fst snd].
  apply wp_mbind. cbn [await wp].
  intros [[choice|]|e] Hc; cbn in Hc; try discriminate Hc; try contradiction.
  specialize (Hc eq_refl).
  destruct Hc as [toolCall [rest [args [Hcalls [Hname [Hargs Hres]]]]]].
  cbn [fst snd]. rewrite Hcalls.
  apply wp_mbind. unfold lift. rewrite Hargs. cbn [wp fst snd].
  apply wp_mbind. rewrite Hname.
  rewrite (gateAndExecute_task_done _ _ _ Hres). cbn.
  split; [tally|reflexivity].
Qed.

Lemma classifyTask_healthy d userTask b :
  wp (healthy d) (Agent.classifyTask userTask b)
    (fun tr rb => decisions tr = 0%nat /\ snd rb = b /\ isOk (fst rb) = true).
Proof.
  unfold Agent.classifyTask. cbn.
  intros [response|e] H; [|contradiction]. cbn. auto.
Qed.

End LoopFacts.




(** ** Launch and native dialogs *)

Lemma openPage_guarded ref ctx :
  guarded_context ctx -> guarded_context (openPage ref ctx).
Proof.
  intros [Hl Hp]. unfold openPage, guarded_context. simpl. split; [exact Hl|].
  apply Forall_app. split; [exact Hp|]. rewrite Hl. simpl.
  constructor; [reflexivity|constructor].
Qed.

Lemma afterOpening_guarded refs :
  forall ctx, guarded_context ctx -> guarded_context (afterOpening refs ctx).
Proof.
  unfold afterOpening.
  induction refs as [|r refs IH]; intros ctx H; simpl; [exact H|].
  apply IH. now apply openPage_guarded.
Qed.

Lemma launch_guarded newRef context :
  pristine context -> guarded_context (fst (launch newRef context)).
Proof.
  intros [Hl Hp]. unfold launch.
  assert (Hg : guarded_context
                 (onPage attachDialogHandler
                    {| ctx_pages := map attachDialogHandler (ctx_pages context);
                       page_listeners := page_listeners context |})).
  { unfold guarded_context, onPage. simpl. rewrite Hl. split; [reflexivity|].
    apply Forall_map. eapply Forall_impl; [|exact Hp].
    intros p Hpl. unfold attachDialogHandler, onDialog. simpl. now rewrite Hpl. }
  destruct (ctx_pages (onPage _ _)) eqn:E.
  - simpl. now apply openPage_guarded.
  - simpl. exact Hg.
Qed.

Lemma afterOpening_refs refs :
  forall ctx,
    guarded_context ctx ->
    map page_ref (ctx_pages (afterOpening refs ctx))
    = map page_ref (ctx_pages ctx) ++ refs.
Proof.
  unfold afterOpening.
  induction refs as [|r refs IH]; intros ctx Hg; simpl; [now rewrite app_nil_r|].
  rewrite (IH _ (openPage_guarded r Hg)).
  destruct Hg as [Hl _]. unfold openPage. simpl. rewrite Hl. simpl.
  rewrite map_app, <- app_assoc. reflexivity.
Qed.

Lemma launch_keeps_pages newRef context p :
  In p (map page_ref (ctx_pages context)) ->
  In p (map page_ref (ctx_pages (fst (launch newRef context)))).
Proof.
  unfold launch. simpl.
  destruct (ctx_pages context) as [|first rest]; simpl; [contradiction|].
  rewrite map_map. simpl. intros H. exact H.
Qed.

(** C10. After [launch] on a fresh context, and after any pages opened
    since, every page the context had at launch and every page opened
    later is in the context, and a dialog raised on any page of the
    context is handled by the single call [dialog.accept()]: the handler
    asks nothing of the policy gate or of the user. *)
Theorem C10_native_dialogs_accepted context newRef opened :
  pristine context ->
  let ctx := afterOpening opened (fst (launch newRef context)) in
  (forall p, In p (map page_ref (ctx_pages context)) \/ In p opened ->
             In p (map page_ref (ctx_pages ctx)))
  /\ Forall (fun page =>
               forall dialog,
                 dispatchDialog (dialog_listeners page) dialog
                 = Vis (DialogAccept dialog) (fun _ => Ret tt))
       (ctx_pages ctx).
Proof.
  intros Hp ctx.
  pose proof (launch_guarded newRef Hp) as Hg.
  split.
  - intros p Hin. unfold ctx. rewrite (afterOpening_refs opened Hg).
    apply in_or_app. destruct Hin as [Hin|Hin]; [left|now right].
    now apply launch_keeps_pages.
  - destruct (afterOpening_guarded opened Hg) as [_ Hall].
    eapply Forall_impl; [|exact Hall].
    intros page Hl dialog. rewrite Hl. reflexivity.
Qed.

Lemma C10_witness :
  (forall p, In p (map page_ref (ctx_pages demoContext)) \/ In p [4%nat; 7%nat] ->
             In p (map page_ref
                     (ctx_pages (afterOpening [4%nat; 7%nat]
                                   (fst (launch 1%nat demoContext))))))
  /\ Forall (fun page =>
               forall dialog,
                 dispatchDialog (dialog_listeners page) dialog
                 = Vis (DialogAccept dialog) (fun _ => Ret tt))
       (ctx_pages (afterOpening [4%nat; 7%nat] (fst (launch 1%nat demoContext)))).
Proof.
  apply (@C10_native_dialogs_accepted demoContext 1%nat [4%nat; 7%nat]).
  split; [reflexivity|]. repeat constructor.
Defined.

(* ===================================================================== *)
(** * Further properties of the code                                      *)
(* ===================================================================== *)


(** ** Trimming and slicing *)

Lemma trimStart_suffix s :
  exists pre, s = pre ++ trimStart s /\ forallb is_space pre = true.
Proof.
  induction s as [|c s [pre [E F]]]; simpl.
  - exists []. auto.
  - destruct (is_space c) eqn:Ec.
    + exists (c :: pre). simpl. rewrite Ec, F. split; [now f_equal|reflexivity].
    + exists []. auto.
Qed.

Lemma trimStart_head s c r : trimStart s = c :: r -> is_space c = false.
Proof.
  induction s as [|x s IH]; simpl; [discriminate|].
  destruct (is_space x) eqn:Ex; [exact IH|].
  intros H. inversion H; subst. exact Ex.
Qed.

Lemma trimStart_fixed c r : is_space c = false -> trimStart (c :: r) = c :: r.
Proof. intros H. simpl. now rewrite H. Qed.

Lemma trimEnd_prefix s :
  exists post, s = trimEnd s ++ post /\ forallb is_space post = true.
Proof.
  unfold trimEnd. destruct (trimStart_suffix (rev s)) as [pre [E F]].
  exists (rev pre). split.
  - rewrite <- rev_app_distr, <- E. now rewrite rev_involutive.
  - rewrite forallb_forall in *. intros x Hx. apply F. now apply in_rev.
Qed.

Lemma trim_infix s :
  exists pre post,
    s = pre ++ trim s ++ post
    /\ forallb is_space pre = true /\ forallb is_space post = true.
Proof.
  unfold trim. destruct (trimStart_suffix s) as [pre [E F]].
  destruct (trimEnd_prefix (trimStart s)) as [post [E' F']].
  exists pre, post. split; [|auto]. now rewrite <- E'.
Qed.

Lemma trim_length s : (List.length (trim s) <= List.length s)%nat.
Proof.
  destruct (trim_infix s) as [pre [post [E _]]].
  rewrite E at 2. rewrite !length_app. lia.
Qed.

Lemma trim_Forall (P : N -> Prop) s : Forall P s -> Forall P (trim s).
Proof.
  destruct (trim_infix s) as [pre [post [E _]]]. intros H. rewrite E in H.
  apply Forall_app in H. destruct H as [_ H]. apply Forall_app in H. tauto.
Qed.

Lemma slice0_length n s : (List.length (slice0 n s) <= n)%nat.
Proof. unfold slice0. apply firstn_le_length. Qed.

Lemma slice0_Forall (P : N -> Prop) n s : Forall P s -> Forall P (slice0 n s).
Proof.
  unfold slice0. intros H. revert n.
  induction H as [|x l Hx _ IH]; intros [|n]; simpl; constructor; auto.
Qed.

(** The trimmed text neither starts nor ends with white space. *)
Lemma trim_head s c r : trim s = c :: r -> is_space c = false.
Proof.
  unfold trim. intros H.
  destruct (trimEnd_prefix (trimStart s)) as [post [E _]]. rewrite H in E.
  simpl in E. eapply trimStart_head. exact E.
Qed.

Lemma trimEnd_last s r c : trimEnd s = r ++ [c] -> is_space c = false.
Proof.
  unfold trimEnd. intros H.
  apply (f_equal (@rev N)) in H. rewrite rev_involutive, rev_app_distr in H.
  simpl in H. eapply trimStart_head. exact H.
Qed.

Lemma trimEnd_fixed r c : is_space c = false -> trimEnd (r ++ [c]) = r ++ [c].
Proof.
  intros H. unfold trimEnd. rewrite rev_app_distr. simpl. rewrite H.
  change (c :: rev r) with ([c] ++ rev r). rewrite rev_app_distr, rev_involutive.
  reflexivity.
Qed.

Lemma trim_idempotent s : trim (trim s) = trim s.
Proof.
  destruct (trim s) as [|c r] eqn:E; [reflexivity|].
  pose proof (@trim_head s c r E) as Hc.
  unfold trim at 1. rewrite (@trimStart_fixed c r Hc).
  destruct (@exists_last _ (c :: r)) as [r' [c' E']]; [discriminate|].
  rewrite E'. apply trimEnd_fixed.
  unfold trim in E. rewrite E' in E. eapply trimEnd_last. exact E.
Qed.

(** ** The description of a gated action *)

Lemma describe_bounded el :
  describe el <> [] /\ (List.length (describe el) <= 80)%nat
  /\ trim (describe el) = describe el.
Proof.
  unfold describe. cbv zeta.
  set (d := slice0 80 _).
  destruct (trim d) as [|c r] eqn:E.
  - split; [discriminate|]. split; [vm_compute; lia|]. vm_compute. reflexivity.
  - cbn [or_else is_empty]. rewrite <- E. split; [rewrite E; discriminate|].
    split; [|apply trim_idempotent].
    etransitivity; [apply trim_length|]. apply slice0_length.
Qed.

Lemma firstMatch_description ps text el :
  description (firstMatch ps text el)
  = if destructive (firstMatch ps text el) then Some (describe el) else None.
Proof.
  induction ps as [|p ps IH]; simpl; [reflexivity|].
  destruct (test p text); simpl; [reflexivity|exact IH].
Qed.

(** Whenever [checkDestructiveAction] flags an action it describes it: the
    description is not empty, has at most 80 code units and neither
    starts nor ends with white space; an action that is not flagged has
    no description. *)
Theorem gate_description_bounded toolName args snapshot :
  match description (checkDestructiveAction toolName args snapshot) with
  | Some d =>
      destructive (checkDestructiveAction toolName args snapshot) = true
      /\ d <> [] /\ (List.length d <= 80)%nat /\ trim d = d
  | None => destructive (checkDestructiveAction toolName args snapshot) = false
  end.
Proof.
  unfold checkDestructiveAction.
  destruct (negb (JsString.eqb toolName (js "click_element"))); [reflexivity|].
  destruct (prop args (js "element_id")); try reflexivity.
  destruct (findById (snap_elements snapshot) n) as [el|]; [|reflexivity].
  cbv zeta. destruct (is_empty (textSurface el)); [reflexivity|].
  rewrite firstMatch_description.
  destruct (destructive (firstMatch DESTRUCTIVE_PATTERNS (textSurface el) el));
    [|reflexivity].
  split; [reflexivity|]. apply describe_bounded.
Qed.

(** ** Word boundaries *)

Lemma wordless_search rest s :
  forall prev,
    word_before prev = false -> wordless s = true ->
    search (RSeq RWordB rest) prev s = false.
Proof.
  induction s as [|c s IH]; intros prev Hp Hs.
  - simpl. rewrite Hp. reflexivity.
  - simpl in Hs. apply andb_true_iff in Hs. destruct Hs as [Hc Hs].
    apply negb_true_iff in Hc.
    cbn [search rmatch word_after]. rewrite Hp, Hc. cbn [xorb orb].
    apply IH; [exact Hc|exact Hs].
Qed.

Lemma patterns_are_whole_words :
  Forall (fun p => exists rest, p = RSeq RWordB rest) DESTRUCTIVE_PATTERNS.
Proof.
  unfold DESTRUCTIVE_PATTERNS, whole_word.
  repeat constructor; eexists; cbn [seqs]; reflexivity.
Qed.

Lemma wordless_unmatched text :
  wordless text = true ->
  existsb (fun p => test p text) DESTRUCTIVE_PATTERNS = false.
Proof.
  intros H. pose proof patterns_are_whole_words as Hall.
  induction Hall as [|p ps [rest ->] _ IH]; simpl; [reflexivity|].
  unfold test at 1. rewrite (wordless_search rest text None eq_refl H).
  exact IH.
Qed.

(** A click is never flagged when the text that is tested (text,
    value, title and label of the element, in lower case, joined by
    spaces) has no ASCII letter, digit or underscore: [\b] holds only next to such a
    code unit, so a label written in Cyrillic letters alone matches none
    of the patterns, the Cyrillic keywords included. *)
Theorem gate_needs_ascii_word toolName args snapshot id el :
  prop args (js "element_id") = JNum id ->
  findById (snap_elements snapshot) id = Some el ->
  wordless
    (join (js " ")
       (map toLowerCase
          (filterBoolean
             [Some (el_text el); el_value el; el_title el; el_labelText el])))
  = true ->
  destructive (checkDestructiveAction toolName args snapshot) = false.
Proof.
  intros Ha Hf Hw. fold (textSurface el) in Hw. unfold checkDestructiveAction.
  destruct (negb (JsString.eqb toolName (js "click_element"))); [reflexivity|].
  rewrite Ha, Hf. cbv zeta.
  destruct (is_empty (textSurface el)); [reflexivity|].
  rewrite firstMatch_destructive. now apply wordless_unmatched.
Qed.

Lemma gate_needs_ascii_word_witness :
  destructive (checkDestructiveAction (js "click_element")
                 [(js "element_id", JNum (Int 1))] demoCyrillic) = false.
Proof.
  apply (@gate_needs_ascii_word (js "click_element") _ demoCyrillic (Int 1)
           (demoElement 1 "button" "Удалить аккаунт" false)); vm_compute; reflexivity.
Defined.

(** ** Answers to the confirmation question *)

(** Any answer whose first letter, white space apart, is y or Y is
    taken as consent, whatever follows it. *)
Theorem answer_starting_with_y_approves answer c rest :
  trim answer = c :: rest -> c = 121%N \/ c = 89%N ->
  Launcher.getUserConfirmation answer = true.
Proof.
  intros E Hc. unfold Launcher.getUserConfirmation. rewrite E.
  destruct rest; destruct Hc; subst c; reflexivity.
Qed.

Lemma answer_starting_with_y_approves_witness :
  Launcher.getUserConfirmation (js "  yikes, no!") = true.
Proof.
  apply (@answer_starting_with_y_approves (js "  yikes, no!") 121%N (js "ikes, no!"));
    [vm_compute; reflexivity|now left].
Defined.

(** What a mapping sends to [r] is [r] or one of its preimages. *)
Lemma mapped_preimages table c r :
  mapped table c = r -> c = r \/ In c (preimages table r).
Proof.
  induction table as [|[[[first last] step] image] rest IH]; cbn [mapped preimages flat_map].
  - auto.
  - destruct (c <? first)%N eqn:Ef; [auto|].
    apply N.ltb_ge in Ef.
    destruct ((c <=? last)%N && ((c - first) mod step =? 0)%N) eqn:Ein.
    + apply andb_true_iff in Ein. destruct Ein as [El _]. apply N.leb_le in El.
      intros Hr. right. apply in_or_app. left.
      assert (H1 : (image <=? r)%N = true) by (apply N.leb_le; lia).
      assert (H2 : (r <=? image + (last - first))%N = true) by (apply N.leb_le; lia).
      rewrite H1, H2. cbn [andb]. left. lia.
    + intros Hr. destruct (IH Hr) as [H|H]; [auto|].
      right. apply in_or_app. now right.
Qed.

(** Only y and Y are read as the letter y, and only the three letters
    de as the letter de. *)
Lemma canonicalize_consent c :
  ~ In c [121; 89; 1076; 1044; 7297]%N ->
  (canonicalize c =? canonicalize 121)%N = false
  /\ (canonicalize c =? canonicalize 1076)%N = false.
Proof.
  intros Hc.
  change (canonicalize 121) with 89%N. change (canonicalize 1076) with 1044%N.
  unfold canonicalize.
  split; apply N.eqb_neq; intros E; apply mapped_preimages in E;
    apply Hc; destruct E as [E|E].
  - subst c. simpl. auto.
  - vm_compute in E. destruct E as [E|[]]. subst c. simpl. auto.
  - subst c. simpl. auto.
  - vm_compute in E. destruct E as [E|[E|[]]]; subst c; simpl; auto 6.
Qed.

Lemma approvalFrom_without_letter s :
  withoutConsentLetter s -> forall prev, Launcher.approvalFrom false prev s = false.
Proof.
  induction 1 as [|c s Hc _ IH]; intros prev; [reflexivity|].
  cbn [Launcher.approvalFrom andb orb].
  change (lit (js "yes")) with (RSeq (RChar 121) (RSeq (RChar 101) (RChar 115))).
  change (lit (js "да")) with (RSeq (RChar 1076) (RChar 1072)).
  change (lit (js "д")) with (RChar 1076).
  cbn [rmatch].
  destruct (canonicalize_consent Hc) as [H1 H2].
  rewrite H1, H2. cbn [orb]. apply IH.
Qed.

(** An answer that has neither the letter y nor a Cyrillic letter de
    is a refusal: "no" and the empty line, and also "ok" and "sure". *)
Theorem answer_without_letter_refuses answer :
  withoutConsentLetter answer -> Launcher.getUserConfirmation answer = false.
Proof.
  intros H. unfold Launcher.getUserConfirmation.
  pose proof (@trim_Forall _ answer H) as Ht. clear H.
  destruct Ht as [|c s Hc Hs]; [reflexivity|].
  cbn [Launcher.approvalFrom andb orb].
  change (lit (js "y")) with (RChar 121).
  change (lit (js "yes")) with (RSeq (RChar 121) (RSeq (RChar 101) (RChar 115))).
  change (lit (js "да")) with (RSeq (RChar 1076) (RChar 1072)).
  change (lit (js "д")) with (RChar 1076).
  cbn [rmatch].
  destruct (canonicalize_consent Hc) as [H1 H2].
  rewrite H1, H2. cbn [orb]. now apply approvalFrom_without_letter.
Qed.

Lemma answer_without_letter_refuses_witness :
  Launcher.getUserConfirmation (js "ok, sure") = false.
Proof.
  apply (@answer_without_letter_refuses (js "ok, sure")).
  repeat constructor; cbn [In]; intros H; repeat destruct H as [H|H];
    try discriminate H; exact H.
Defined.

(** The strictness of the alternatives: "eyes" holds "yes" and is a
    consent, "maybe" is not; the Cyrillic "да" is a consent wherever it
    stands, the letter de alone only as the last letter, and there
    also as the long-legged de that has the same capital. *)
Example answers :
  map Launcher.getUserConfirmation
    [js "yes"; js "Y"; js "eyes"; js "maybe"; js "no"; js "";
     js "да"; js "Да, конечно"; js "навсегда"; js "дом"; js "год"; [7297%N]]
  = [true; true; true; false; false; false; true; true; true; false; true; true].
Proof. vm_compute. reflexivity. Qed.

(** ** Bounds of the snapshot *)

Lemma orUndefined_within n s :
  (List.length s <= n)%nat -> within n (orUndefined s).
Proof.
  intros H. unfold orUndefined. destruct s; simpl; [exact I|].
  split; [discriminate|exact H].
Qed.

Lemma orUndefined_present s : orUndefined s <> Some [].
Proof. unfold orUndefined. destruct s; simpl; congruence. Qed.

Lemma labelFor_bounded id labels t :
  labelFor id labels = Some t -> (List.length t <= 80)%nat.
Proof.
  induction labels as [|l rest IH]; cbn [labelFor]; [discriminate|].
  destruct (dom_htmlFor l) as [f|]; [|exact IH].
  destruct (JsString.eqb f id); [|exact IH].
  intros H. apply Some_inj in H. subst t. apply slice0_length.
Qed.

Lemma enclosingLabel_bounded body ancestors :
  (List.length (enclosingLabel body ancestors) <= 80)%nat.
Proof.
  induction ancestors as [|p up IH]; cbn [enclosingLabel]; [simpl; lia|].
  destruct (dom_node p =? dom_node body)%nat; [simpl; lia|].
  destruct (JsString.eqb (dom_tagName p) (js "LABEL")); [apply slice0_length|exact IH].
Qed.

Lemma getAssociatedLabelText_bounded doc body ancestors el t :
  getAssociatedLabelText doc body ancestors el = Ok t -> (List.length t <= 80)%nat.
Proof.
  unfold getAssociatedLabelText.
  destruct (is_empty (dom_id el)).
  - intros H. apply Ok_inj in H. subst t. apply enclosingLabel_bounded.
  - destruct (doc_querySelectorAll doc (js "label[for]")) as [labels|e]; [|discriminate].
    destruct (labelFor (dom_id el) labels) as [l|] eqn:E; intros H;
      apply Ok_inj in H; subst t.
    + eapply labelFor_bounded. exact E.
    + apply enclosingLabel_bounded.
Qed.

Lemma displayText_bounded text aria title value placeholder href label :
  (List.length text <= 200)%nat -> (List.length aria <= 100)%nat ->
  (List.length title <= 100)%nat -> (List.length value <= 100)%nat ->
  (List.length placeholder <= 60)%nat -> (List.length label <= 80)%nat ->
  (List.length (displayText text aria title value placeholder href label) <= 200)%nat
  \/ (href <> []
      /\ displayText text aria title value placeholder href label = js "link: " ++ href).
Proof.
  intros Ht Ha Hti Hv Hp Hl. unfold displayText.
  destruct text; [|left; exact Ht].
  destruct aria; [|left; cbn [or_else is_empty]; lia].
  destruct title; [|left; cbn [or_else is_empty]; lia].
  destruct value; [|left; cbn [or_else is_empty]; lia].
  change (js "placeholder: ")
    with ([112; 108; 97; 99; 101; 104; 111; 108; 100; 101; 114; 58; 32]%N).
  change (js "label: ") with ([108; 97; 98; 101; 108; 58; 32]%N).
  change (js "link: ") with ([108; 105; 110; 107; 58; 32]%N).
  destruct placeholder.
  - destruct href.
    + left. destruct label; cbn [or_else is_empty app List.length]; [lia|].
      simpl in Hl. lia.
    + right. split; [discriminate|reflexivity].
  - left. cbn [or_else is_empty app List.length]. simpl in Hp. lia.
Qed.

Lemma selectOptions_bounded el tagName opts :
  selectOptions el tagName = Some opts ->
  (List.length opts <= MAX_OPTIONS)%nat
  /\ Forall (fun o => (List.length (snd o) <= 60)%nat) opts.
Proof.
  unfold selectOptions.
  destruct (JsString.eqb tagName (js "select")); [|discriminate].
  destruct (dom_options el) as [os|]; [|discriminate].
  intros H. apply Some_inj in H. subst opts. split.
  - rewrite length_map. apply firstn_le_length.
  - apply Forall_map. apply Forall_forall. intros o _. cbn [snd]. apply slice0_length.
Qed.

Lemma capture_bounded doc body ancestors el rawInner id e :
  capture doc body ancestors el rawInner id = Ok e -> fieldsBounded e.
Proof.
  unfold capture. cbv zeta. intros H.
  match type of H with
  | match ?x with Ok _ => _ | Err _ => _ end = _ =>
      destruct x as [labelText|err] eqn:El; [|discriminate]
  end.
  assert (Hl : (List.length labelText <= 80)%nat).
  { match type of El with
    | (if ?c then _ else _) = _ => destruct c
    end.
    - eapply getAssociatedLabelText_bounded. exact El.
    - apply Ok_inj in El. subst labelText. simpl. lia. }
  destruct (getStableSelector doc el) as [stable|err]; [|discriminate].
  apply Ok_inj in H. subst e. unfold fieldsBounded. cbn [el_placeholder el_value
    el_title el_labelText el_href el_type el_text el_options].
  repeat split.
  - apply orUndefined_within, slice0_length.
  - apply orUndefined_within, slice0_length.
  - apply orUndefined_within, slice0_length.
  - apply orUndefined_within, Hl.
  - apply orUndefined_present.
  - apply orUndefined_present.
  - match goal with
    | |- (List.length (displayText ?t ?a ?ti ?v ?p ?h ?l) <= _)%nat \/ _ =>
        destruct (@displayText_bounded t a ti v p h l) as [Hb|[Hne Hb]];
          try apply slice0_length; try exact Hl
    end.
    + left. exact Hb.
    + right. eexists. split; [|exact Hb].
      unfold orUndefined. destruct (trim (attr el (js "href"))); [congruence|reflexivity].
  - destruct (selectOptions el _) as [opts|] eqn:Eo; [|exact I].
    eapply selectOptions_bounded. exact Eo.
Qed.

(** In every snapshot the script returns, the record of each
    element keeps its bounds: placeholder at most 60 code units, value
    and title at most 100, label at most 80, text at most 200 unless it
    is the link hint; a select lists at most 30 options, each label at
    most 60; an optional text field is absent rather than empty. *)
Theorem snapshot_fields_bounded doc ps :
  collectSnapshotScript doc = Ok ps -> Forall fieldsBounded (ps_elements ps).
Proof.
  intros H. apply Forall_forall. intros e Hin.
  destruct (@script_records (fun _ _ _ e' => fieldsBounded e') doc ps e)
    as [body [kids [el [ancestors [_ [_ Hb]]]]]]; auto.
  intros body ancestors el id e'. apply capture_bounded.
Qed.

Lemma snapshot_fields_bounded_witness :
  Forall fieldsBounded (ps_elements demoPageSnapshot).
Proof.
  apply (@snapshot_fields_bounded demoDocument demoPageSnapshot).
  vm_compute. reflexivity.
Defined.


(** ** Headings and excerpt *)

Lemma collectHeadings_take nodes :
  forall acc,
    (List.length acc <= MAX_HEADINGS)%nat ->
    collectHeadings nodes acc
    = acc ++ firstn (MAX_HEADINGS - List.length acc) (flat_map headingOf nodes).
Proof.
  induction nodes as [|h rest IH]; intros acc Hacc; cbn [collectHeadings flat_map].
  - now rewrite firstn_nil, app_nil_r.
  - destruct (MAX_HEADINGS <=? List.length acc)%nat eqn:Efull.
    + apply Nat.leb_le in Efull. rewrite (IH acc Hacc).
      replace (MAX_HEADINGS - List.length acc)%nat with 0%nat by lia.
      reflexivity.
    + apply Nat.leb_gt in Efull. unfold headingOf at 1. cbv zeta.
      destruct (is_empty (slice0 120 (trim (dom_textContent h)))).
      * cbn [app]. apply IH. exact Hacc.
      * rewrite IH by (rewrite length_app; simpl; lia).
        rewrite <- app_assoc. f_equal. rewrite length_app. cbn [List.length app].
        replace (MAX_HEADINGS - List.length acc)%nat
          with (S (MAX_HEADINGS - (List.length acc + 1)))%nat by lia.
        reflexivity.
Qed.

Lemma headingOf_bounded h x :
  In x (headingOf h) -> h_text x <> [] /\ (List.length (h_text x) <= 120)%nat.
Proof.
  unfold headingOf. cbv zeta.
  destruct (slice0 120 (trim (dom_textContent h))) as [|c r] eqn:E;
    cbn [is_empty]; [contradiction|].
  intros [<-|[]]. cbn [h_text]. split; [discriminate|].
  rewrite <- E. apply slice0_length.
Qed.

(** The headings of a snapshot are the first 30 heading nodes of
    the body whose text is not blank, in document order, each with its
    text trimmed and cut to 120 code units. *)
Theorem snapshot_headings_first_thirty doc ps :
  doc_body doc <> None ->
  collectSnapshotScript doc = Ok ps ->
  ps_headings ps = firstn 30 (flat_map headingOf (headingNodes doc))
  /\ (List.length (ps_headings ps) <= 30)%nat
  /\ Forall (fun h => h_text h <> [] /\ (List.length (h_text h) <= 120)%nat)
       (ps_headings ps).
Proof.
  intros Hbody. unfold collectSnapshotScript.
  destruct (doc_body doc) as [[root kids]|]; [|contradiction].
  destruct (walk doc root [] (DNode root kids) _) as [st|err]; [|discriminate].
  intros H. apply Ok_inj in H. subst ps. cbn [ps_headings].
  rewrite collectHeadings_take by (simpl; unfold MAX_HEADINGS; lia).
  cbn [app List.length]. change (MAX_HEADINGS - 0)%nat with 30%nat.
  fold (headingNodes doc).
  split; [reflexivity|]. split; [apply firstn_le_length|].
  apply Forall_forall. intros x Hx.
  assert (Hin : In x (flat_map headingOf (headingNodes doc))).
  { revert Hx. generalize (flat_map headingOf (headingNodes doc)) as l.
    generalize 30%nat as n.
    induction n as [|n IHn]; intros [|y l] Hx; simpl in Hx; try contradiction.
    destruct Hx as [Hx|Hx]; [now left|right; now apply IHn]. }
  apply in_flat_map in Hin. destruct Hin as [h [_ Hh]].
  eapply headingOf_bounded. exact Hh.
Qed.

Lemma collapseSpaces_shape s :
  forall inRun,
    singleSpaced (collapseSpaces inRun s)
    /\ (inRun = true ->
        match collapseSpaces inRun s with
        | a :: _ => is_space a = false
        | [] => True
        end).
Proof.
  induction s as [|c s IH]; intros inRun; cbn [collapseSpaces].
  - split; [exact I|intros _; exact I].
  - destruct (is_space c) eqn:Ec.
    + destruct inRun.
      * apply IH.
      * split; [|discriminate].
        destruct (IH true) as [Hs Hh]. specialize (Hh eq_refl).
        cbn [singleSpaced]. split; [reflexivity|]. split; [|exact Hs].
        destruct (collapseSpaces true s) as [|b r]; [exact I|].
        intros [_ Hb]. subst b. discriminate Hh.
    + destruct (IH false) as [Hs _]. split; [|intros _; exact Ec].
      cbn [singleSpaced]. split; [intros H; congruence|]. split; [|exact Hs].
      destruct (collapseSpaces false s); [exact I|].
      intros [Hc _]. subst c. discriminate Ec.
Qed.

Lemma singleSpaced_app_r a b : singleSpaced (a ++ b) -> singleSpaced b.
Proof.
  induction a as [|x a IH]; cbn [app singleSpaced]; [auto|].
  intros [_ [_ H]]. now apply IH.
Qed.

Lemma singleSpaced_app_l a b : singleSpaced (a ++ b) -> singleSpaced a.
Proof.
  induction a as [|x a IH]; cbn [app singleSpaced]; [auto|].
  intros [H1 [H2 H3]]. split; [exact H1|]. split; [|now apply IH].
  destruct a; [exact I|exact H2].
Qed.

(** The content excerpt of a snapshot has at most 1200 code units;
    it does not start with white space, and the only white space in it
    is the single space, never twice in a row. *)
Theorem snapshot_excerpt_normalised doc ps :
  collectSnapshotScript doc = Ok ps ->
  (List.length (ps_contentExcerpt ps) <= 1200)%nat
  /\ singleSpaced (ps_contentExcerpt ps)
  /\ match ps_contentExcerpt ps with
     | c :: _ => is_space c = false
     | [] => True
     end.
Proof.
  unfold collectSnapshotScript.
  destruct (doc_body doc) as [[root kids]|].
  - destruct (walk doc root [] (DNode root kids) _) as [st|err]; [|discriminate].
    intros H. apply Ok_inj in H. subst ps. cbn [ps_contentExcerpt].
    set (raw := collapseSpaces false _).
    split; [apply slice0_length|].
    assert (Hs : singleSpaced (trim raw)).
    { destruct (trim_infix raw) as [pre [post [E _]]].
      destruct (collapseSpaces_shape
                  (dom_textContent
                     match body_querySelector doc (jsq "main, [role='main']") with
                     | Some m => m
                     | None => root
                     end) false) as [Hraw _].
      fold raw in Hraw. rewrite E in Hraw.
      apply singleSpaced_app_r in Hraw. now apply singleSpaced_app_l in Hraw. }
    split.
    + unfold slice0. rewrite <- (firstn_skipn MAX_CONTENT_CHARS (trim raw)) in Hs.
      now apply singleSpaced_app_l in Hs.
    + unfold slice0. destruct (trim raw) as [|c r] eqn:E; [exact I|].
      cbn [MAX_CONTENT_CHARS firstn]. eapply trim_head. exact E.
  - intros H. apply Ok_inj in H. subst ps. cbn. split; [lia|]. split; exact I.
Qed.

Lemma snapshot_headings_first_thirty_witness :
  ps_headings demoArticleSnapshot = firstn 30 (flat_map headingOf (headingNodes demoArticle))
  /\ (List.length (ps_headings demoArticleSnapshot) <= 30)%nat
  /\ Forall (fun h => h_text h <> [] /\ (List.length (h_text h) <= 120)%nat)
       (ps_headings demoArticleSnapshot).
Proof.
  apply (@snapshot_headings_first_thirty demoArticle demoArticleSnapshot).
  - discriminate.
  - vm_compute. reflexivity.
Defined.

Lemma snapshot_excerpt_normalised_witness :
  (List.length (ps_contentExcerpt demoArticleSnapshot) <= 1200)%nat
  /\ singleSpaced (ps_contentExcerpt demoArticleSnapshot)
  /\ match ps_contentExcerpt demoArticleSnapshot with
     | c :: _ => is_space c = false
     | [] => True
     end.
Proof.
  apply (@snapshot_excerpt_normalised demoArticle demoArticleSnapshot).
  vm_compute. reflexivity.
Defined.

Example demo_article :
  map h_text (ps_headings demoArticleSnapshot) = [js "Account settings"; js "Danger zone"]
  /\ ps_contentExcerpt demoArticleSnapshot = js "Account settings Danger zone".
Proof. split; vm_compute; reflexivity. Qed.

(** ** Selectors and locators *)

Lemma toLowerCase_nonempty s : s <> [] -> toLowerCase s <> [].
Proof.
  intros Hs. destruct s as [|hi tail]; [congruence|]. clear Hs.
  unfold toLowerCase.
  assert (H : exists cp cps, codePoints (hi :: tail) = cp :: cps).
  { cbn [codePoints]. destruct tail as [|lo rest]; [eauto|].
    match goal with |- context [if ?c then _ else _] => destruct c end; eauto. }
  destruct H as [cp [cps ->]]. cbn [lowerPoints].
  assert (Hu : forall x rest, flat_map codeUnits (x :: rest) <> []).
  { intros x rest. cbn [flat_map]. unfold codeUnits.
    destruct (x <? 65536)%N; discriminate. }
  destruct (cp =? 931)%N; [apply Hu|].
  destruct (cp =? 304)%N; apply Hu.
Qed.

Lemma structuralSelector_nonempty el :
  dom_tagName el <> [] -> is_empty (structuralSelector el) = false.
Proof.
  intros H. apply toLowerCase_nonempty in H.
  unfold structuralSelector. cbv zeta.
  destruct (toLowerCase (dom_tagName el)) as [|c r]; [congruence|]. reflexivity.
Qed.

(** A selector descriptor that the snapshot script builds for an
    element with a tag name always resolves to a locator: the plain
    variant to the first match of the selector, the indexed variant to
    the match of that index, the XPath variant to the first match of
    the XPath. *)
Theorem stable_selector_resolves doc el page desc :
  dom_tagName el <> [] ->
  getStableSelector doc el = Ok desc ->
  let selector := structuralSelector el in
  match desc with
  | SelPlain value =>
      value = selector /\ locatorFromSelector page desc = Ok (LocFirst page selector)
  | SelNth s index =>
      s = selector /\ locatorFromSelector page desc = Ok (LocNth page selector index)
  | SelXPath value =>
      locatorFromSelector page desc = Ok (LocFirst page (js "xpath=" ++ value))
  end.
Proof.
  intros Htag H selector. unfold getStableSelector in H.
  destruct (selectorText el) as [text|e]; [|discriminate].
  cbv zeta in H. fold selector in H.
  destruct (doc_querySelectorAll doc selector) as [all|e]; [|discriminate].
  pose proof (structuralSelector_nonempty el Htag) as Hne. fold selector in Hne.
  destruct ((1 <? List.length all)%nat && negb (is_empty text)).
  - apply Ok_inj in H. subst desc. reflexivity.
  - destruct (1 <? List.length all)%nat; apply Ok_inj in H; subst desc.
    + split; reflexivity.
    + split; [reflexivity|]. unfold locatorFromSelector. now rewrite Hne.
Qed.

Lemma stable_selector_resolves_witness :
  locatorFromSelector 0%nat (el_selector demoCaptured)
  = Ok (LocFirst 0%nat (js "xpath=" ++ xpathFor (js "button") (js "Delete account"))).
Proof.
  exact (@stable_selector_resolves demoDocument demoDelete 0%nat
           (SelXPath (xpathFor (js "button") (js "Delete account")))
           ltac:(discriminate) eq_refl).
Defined.


(** ** Runs in every environment *)

Lemma wp_every_run {A : Type} (p : Prog A) (Q : list Event -> A -> Prop) :
  wp anything p Q ->
  forall (W : Type) (h : Handler W) (w : W), Q (trace h p w) (outcome h p w).
Proof.
  intros H W h w. apply (@wp_sound W A h anything p (fun X c w0 => I) Q w H).
Qed.

Lemma wp_trivial {A : Type} (ok : Assumption) (p : Prog A) : wp ok p (fun _ _ => True).
Proof. induction p as [a|X c k IH]; simpl; auto. Qed.

(** ** Tool dispatch *)

(** A guarded call returns one of its two results. *)
Lemma guarded_returns ok (m : M unit) good onError b
    (Q : ActionResult -> Prop) :
  Q good -> (forall e, Q (onError e)) ->
  wp ok (guarded m good onError b)
    (fun _ rb => exists r, fst rb = Ok r /\ Q r).
Proof.
  intros Hg He. apply wp_guarded. eapply wp_mono; [|apply wp_trivial].
  intros tr [[u|e] b1] _; cbn [fst snd]; eexists; split; try reflexivity; auto.
Qed.

(** What every tool but [navigate] and [scroll] does with a failure: it
    returns a result. *)
Lemma executeTool_returns ok stn name args snapshot b (Q : ActionResult -> Prop) :
  JsString.eqb name (js "navigate") = false ->
  JsString.eqb name (js "scroll") = false ->
  (forall r, stop r = false -> Q r) ->
  (forall r, terminal name = true -> success r = true -> stop r = true -> Q r) ->
  wp ok (executeTool stn name args snapshot b)
    (fun _ rb => exists r, fst rb = Ok r /\ Q r).
Proof.
  intros Hnav Hscr Hgo Hend.
  assert (Hret : forall r, stop r = false ->
            wp ok (ret r b) (fun _ rb => exists r, fst rb = Ok r /\ Q r)).
  { intros r Hr. cbn. exists r. auto. }
  unfold executeTool. rewrite Hnav.
  destruct (JsString.eqb name (js "open_new_tab")).
  { apply wp_mbind. apply wp_attempt. eapply wp_mono; [|apply wp_trivial].
    intros tr [[pages|e] b1] _; cbn; eexists; split; try reflexivity;
      apply Hgo; reflexivity. }
  destruct (JsString.eqb name (js "switch_tab")).
  { destruct (prop args (js "tab_index")); try (apply Hret; reflexivity).
    apply guarded_returns; intros; apply Hgo; reflexivity. }
  destruct (JsString.eqb name (js "click_element")).
  { destruct (prop args (js "element_id")); try (apply Hret; reflexivity).
    destruct (match findById _ _ with Some el => el_disabled el | None => false end);
      [apply Hret; reflexivity|].
    apply guarded_returns; intros; apply Hgo; reflexivity. }
  destruct (JsString.eqb name (js "type_text")).
  { destruct (prop args (js "text")); try (apply Hret; reflexivity).
    apply guarded_returns; intros; apply Hgo; reflexivity. }
  destruct (JsString.eqb name (js "select_option")).
  { destruct (prop args (js "element_id")); try (apply Hret; reflexivity).
    destruct (prop args (js "value_or_label")); try (apply Hret; reflexivity).
    apply guarded_returns; intros; apply Hgo; reflexivity. }
  destruct (JsString.eqb name (js "set_checkbox")).
  { destruct (prop args (js "element_id")); try (apply Hret; reflexivity).
    destruct (prop args (js "checked")); try (apply Hret; reflexivity).
    apply guarded_returns; intros; apply Hgo; reflexivity. }
  rewrite Hscr.
  destruct (JsString.eqb name (js "wait")).
  { cbn. intros [] _. cbn. eexists. split; [reflexivity|]. apply Hgo. reflexivity. }
  unfold terminal in Hend.
  destruct (JsString.eqb name (js "task_done")).
  { cbn. eexists. split; [reflexivity|]. apply Hend; reflexivity. }
  destruct (JsString.eqb name (js "request_user_input")).
  { cbn. eexists. split; [reflexivity|]. apply Hend; reflexivity. }
  apply Hret. reflexivity.
Qed.



(** A failure of [page.goto] escapes from [navigate]: the
    dispatcher throws the error of the browser instead of returning a
    failed result, after that one call. *)
Theorem navigate_failure_escapes (W : Type) (h : Handler W) (w : W)
    stn args snapshot page url e :
  prop args (js "url") = JStr url ->
  obeys h (gotoFails e) ->
  outcome h (executeTool stn (js "navigate") args snapshot {| ctl_page := Some page |}) w
  = (Err e, {| ctl_page := Some page |})
  /\ List.length
       (trace h (executeTool stn (js "navigate") args snapshot
                   {| ctl_page := Some page |}) w) = 1%nat.
Proof.
  intros Hurl Hh.
  apply (@wp_sound W _ h (gotoFails e)
           (executeTool stn (js "navigate") args snapshot {| ctl_page := Some page |})
           Hh
           (fun tr rb => rb = (Err e, {| ctl_page := Some page |})
                         /\ List.length tr = 1%nat) w).
  unfold executeTool.
  change (JsString.eqb (js "navigate") (js "navigate")) with true. cbv iota.
  rewrite Hurl. cbn. intros r Hr. rewrite Hr. cbn. auto.
Qed.

Lemma navigate_failure_escapes_witness :
  outcome offline
    (executeTool noNumber (js "navigate") [(js "url", JStr (js "https://example.test/"))]
       demoSnapshot {| ctl_page := Some 0%nat |}) tt
  = (Err TimeoutError, {| ctl_page := Some 0%nat |})
  /\ List.length
       (trace offline
          (executeTool noNumber (js "navigate")
             [(js "url", JStr (js "https://example.test/"))]
             demoSnapshot {| ctl_page := Some 0%nat |}) tt) = 1%nat.
Proof.
  apply (@navigate_failure_escapes unit offline tt noNumber
           [(js "url", JStr (js "https://example.test/"))] demoSnapshot 0%nat
           (js "https://example.test/") TimeoutError).
  - reflexivity.
  - intros X c w. destruct c; simpl; auto.
Defined.

(** Only the two terminal tools end the loop: in every environment
    a result with [stop] comes from [task_done] or [request_user_input],
    and it is a success. *)
Theorem only_terminal_tools_stop (W : Type) (h : Handler W) (w : W)
    stn name args snapshot ctl r :
  fst (outcome h (executeTool stn name args snapshot ctl) w) = Ok r ->
  stop r = true ->
  terminal name = true /\ success r = true.
Proof.
  intros Hr Hstop.
  destruct (JsString.eqb name (js "navigate")) eqn:Hnav.
  { exfalso. revert Hr Hstop.
    apply (wp_every_run (executeTool stn name args snapshot ctl)
             (fun _ rb => fst rb = Ok r -> stop r = true -> False)).
    unfold executeTool. rewrite Hnav.
    destruct (prop args (js "url")); try (cbn; intros H; apply Ok_inj in H;
                                          subst r; discriminate).
    apply wp_mbind. eapply wp_mono; [|apply wp_trivial].
    intros tr [[u|e] b1] _; cbn; intros H; [|discriminate H].
    apply Ok_inj in H. subst r. discriminate. }
  destruct (JsString.eqb name (js "scroll")) eqn:Hscr.
  { exfalso. revert Hr Hstop.
    apply (wp_every_run (executeTool stn name args snapshot ctl)
             (fun _ rb => fst rb = Ok r -> stop r = true -> False)).
    apply JsString_eqb_eq in Hscr. subst name. unfold executeTool.
    pick_case.
    destruct (isDirection (prop args (js "direction")));
      [|cbn; intros H; apply Ok_inj in H; subst r; discriminate].
    apply wp_mbind. eapply wp_mono; [|apply wp_trivial].
    intros tr [[u|e] b1] _; cbn; intros H; [|discriminate H].
    apply Ok_inj in H. subst r. discriminate. }
  revert Hr Hstop.
  apply (wp_every_run (executeTool stn name args snapshot ctl)
           (fun _ rb => fst rb = Ok r -> stop r = true ->
                        terminal name = true /\ success r = true)).
  eapply wp_mono;
    [|apply (@executeTool_returns anything stn name args snapshot ctl
               (fun r => stop r = true -> terminal name = true /\ success r = true));
      auto].
  - intros tr rb [r' [Hr' HQ]] Hr Hstop. rewrite Hr' in Hr. apply Ok_inj in Hr.
    subst r'. auto.
  - intros r' Hr' H. congruence.
Qed.

Lemma only_terminal_tools_stop_witness :
  terminal (js "request_user_input") = true
  /\ success {| success := true; message := js "Need your input"; stop := true;
                userQuestion := None |} = true.
Proof.
  apply (@only_terminal_tools_stop unit (scriptedEnv None true true) tt noNumber
           (js "request_user_input") [] demoSnapshot demoController); reflexivity.
Defined.

(** A tool name that the catalog does not list is answered with
    "Unknown tool: " and the name, without any call. *)
Theorem unknown_tool_rejected stn name args snapshot ctl :
  known name = false ->
  executeTool stn name args snapshot ctl
  = Ret (Ok (failed (js "Unknown tool: " ++ name)), ctl).
Proof.
  unfold known, TOOL_DEFINITIONS. cbn [existsb tool_name]. intros H.
  repeat match type of H with
         | (_ || _)%bool = false =>
             apply orb_false_iff in H; let H1 := fresh "H" in destruct H as [H1 H]
         end.
  unfold executeTool.
  repeat match goal with
         | E : JsString.eqb name ?s = false |- _ => rewrite E; clear E
         end.
  reflexivity.
Qed.

Lemma unknown_tool_rejected_witness :
  executeTool noNumber (js "go_back") [] demoSnapshot demoController
  = Ret (Ok (failed (js "Unknown tool: " ++ js "go_back")), demoController).
Proof.
  apply (@unknown_tool_rejected noNumber (js "go_back") [] demoSnapshot demoController).
  vm_compute. reflexivity.
Defined.

(** ** Ids that the snapshot does not list *)

Lemma errorText_message e : err_message e <> [] -> errorText e = err_message e.
Proof. unfold errorText. destruct (err_message e); [congruence|reflexivity]. Qed.

Lemma prefixed_nonempty (p : string) (s : jsstring) : js p <> [] -> js p ++ s <> [].
Proof. destruct (js p); [congruence|discriminate]. Qed.

Lemma findElementInSnapshot_missing snapshot id :
  findById (snap_elements snapshot) id = None ->
  exists e, findElementInSnapshot snapshot id = Err e /\ errorText e = notFound id.
Proof.
  intros Hf. unfold findElementInSnapshot, notFound. rewrite Hf.
  eexists. split; [exact eq_refl|].
  set (m := js "Element id not found in snapshot: " ++ Number.toString id).
  assert (Hm : m <> []).
  { unfold m. apply prefixed_nonempty. vm_compute. discriminate. }
  unfold errorText, Error. cbn [err_message err_name].
  destruct m; [congruence|]. exact eq_refl.
Qed.

(** An element id that the snapshot does not list stops
    [click_element], [select_option] and [set_checkbox] before any call
    is made: the result is a failure that names the id, and the browser
    is not touched.  [type_text] looks for the active page first, and
    reports the missing page when the controller has none. *)
Theorem unknown_element_id_touches_nothing stn args snapshot ctl id :
  prop args (js "element_id") = JNum id ->
  findById (snap_elements snapshot) id = None ->
  executeTool stn (js "click_element") args snapshot ctl
  = Ret (Ok (failed (notFound id ++ CLICK_FAILED_HINT)), ctl)
  /\ (forall v, prop args (js "value_or_label") = JStr v ->
        executeTool stn (js "select_option") args snapshot ctl
        = Ret (Ok (failed (notFound id)), ctl))
  /\ (forall checked, prop args (js "checked") = JBool checked ->
        executeTool stn (js "set_checkbox") args snapshot ctl
        = Ret (Ok (failed (notFound id)), ctl))
  /\ (forall text, prop args (js "text") = JStr text ->
        executeTool stn (js "type_text") args snapshot ctl
        = Ret (Ok (failed (match ctl_page ctl with
                           | Some _ => notFound id
                           | None => js "Browser not launched"
                           end)), ctl)).
Proof.
  intros Hid Hf.
  destruct (@findElementInSnapshot_missing snapshot id Hf) as [e [He Ht]].
  split; [|split; [|split]].
  - unfold executeTool. pick_case. rewrite Hid, Hf.
    unfold clickElement. rewrite He.
    unfold guarded, attempt, bind, lift, ret. cbn [pbind fst snd]. now rewrite Ht.
  - intros v Hv. unfold executeTool. pick_case. rewrite Hid, Hv.
    unfold selectOption. rewrite He.
    unfold guarded, attempt, bind, lift, ret, reportError. cbn [pbind fst snd]. now rewrite Ht.
  - intros checked Hc. unfold executeTool. pick_case. rewrite Hid, Hc.
    unfold setCheckbox. rewrite He.
    unfold guarded, attempt, bind, lift, ret, reportError. cbn [pbind fst snd]. now rewrite Ht.
  - intros text Htext. unfold executeTool. pick_case. rewrite Hid, Htext.
    unfold typeText, getPage, getState. destruct ctl as [[page|]].
    + cbn [ctl_page]. rewrite He.
      unfold guarded, attempt, bind, lift, ret, reportError. cbn [pbind fst snd ctl_page].
      now rewrite Ht.
    + unfold guarded, attempt, bind, lift, ret, throw, reportError.
      cbn [pbind fst snd ctl_page]. reflexivity.
Qed.

Lemma unknown_element_id_touches_nothing_witness :
  executeTool noNumber (js "click_element") [(js "element_id", JNum (Int 9))]
    demoSnapshot demoController
  = Ret (Ok (failed (notFound (Int 9) ++ CLICK_FAILED_HINT)), demoController).
Proof.
  apply (@unknown_element_id_touches_nothing noNumber [(js "element_id", JNum (Int 9))]
           demoSnapshot demoController (Int 9)); reflexivity.
Defined.

(** ** The snapshot script and its one retry *)

Lemma evaluations_app tr tr' :
  evaluations (tr ++ tr') = (evaluations tr + evaluations tr')%nat.
Proof. unfold evaluations. now rewrite filter_app, length_app. Qed.

Lemma evaluations_cons e tr :
  evaluations (e :: tr) = ((if isEvaluation e then 1 else 0) + evaluations tr)%nat.
Proof. unfold evaluations. simpl. destruct (isEvaluation e); reflexivity. Qed.

Lemma evaluations_nil : evaluations [] = 0%nat.
Proof. reflexivity. Qed.

Ltac recount :=
  repeat first [rewrite evaluations_app | rewrite evaluations_cons
               | rewrite evaluations_nil];
  cbn [isEvaluation Nat.add];
  repeat match goal with
         | H : evaluations _ = _ |- _ => rewrite H
         end;
  cbn [Nat.add]; try reflexivity; try lia.

Lemma listTabs_evaluates_nothing ok pages :
  forall i b,
    wp ok (listTabs pages i b)
      (fun tr rb => evaluations tr = 0%nat /\ snd rb = b /\ isOk (fst rb) = true).
Proof.
  induction pages as [|p rest IH]; intros i b.
  - cbn. auto.
  - cbn [listTabs]. apply wp_mbind.
    assert (Hhead :
      forall k : list Event -> Result (Result TabInfo) * BrowserController -> Prop,
        (forall tr r, evaluations tr = 0%nat -> k tr (Ok r, b)) ->
        wp ok (attempt (bind (await (PageUrl p))
                          (fun url => bind (await (PageTitle p))
                             (fun title => ret {| tab_index := Int i; tab_url := url;
                                                  tab_title := title |}))) b) k).
    { intros k Hk. cbn. intros [u|e] _; cbn; [|apply Hk; reflexivity].
      intros [t|e] _; cbn; apply Hk; reflexivity. }
    apply Hhead. intros tr r Htr. cbn [fst snd].
    apply wp_mbind. eapply wp_mono; [|apply IH].
    intros tr' [r' b'] [Hd [Hb Hok]]. cbn in *. subst b'.
    destruct r' as [tabs|e]; [|discriminate]. cbn.
    split; [recount|auto].
Qed.

Lemma getSnapshot_evaluations ok b :
  wp ok (getSnapshot b) (fun tr _ => (evaluations tr <= 2)%nat).
Proof.
  unfold getSnapshot, getPage, getState.
  destruct b as [[page|]]; cbn; [|unfold evaluations; simpl; lia].
  intros pages _. cbn.
  apply wp_bind. eapply wp_mono; [|apply listTabs_evaluates_nothing].
  intros tr [r b'] [Hd [Hb Hok]]. cbn in *. subst b'.
  destruct r as [tabs|e]; [|discriminate]. clear Hok. cbn.
  intros x _ [doc|e] _; cbn.
  - destruct (collectSnapshotScript doc) as [ps|e] eqn:Eps; cbn.
    + recount.
    + match goal with |- context [if ?c then _ else _] => destruct c end; cbn.
      * intros x0 H0 x1 H1 [doc2|e2] H2; cbn.
        -- destruct (collectSnapshotScript doc2) as [ps2|e3]; cbn; recount.
        -- recount.
      * recount.
  - match goal with |- context [if ?c then _ else _] => destruct c end; cbn.
    + intros x0 H0 x1 H1 [doc2|e2] H2; cbn.
      * destruct (collectSnapshotScript doc2) as [ps2|e3]; cbn; recount.
      * recount.
    + recount.
Qed.

Lemma getSnapshot_failing e page :
  wp (scriptFails e) (getSnapshot {| ctl_page := Some page |})
    (fun tr rb =>
       fst rb = Err e
       /\ evaluations tr = if test contextDestroyed (err_message e) then 2%nat else 1%nat).
Proof.
  unfold getSnapshot, getPage, getState. cbn.
  intros pages _. cbn.
  apply wp_bind. eapply wp_mono; [|apply listTabs_evaluates_nothing].
  intros tr [r b'] [Hd [Hb Hok]]. cbn in *. subst b'.
  destruct r as [tabs|e0]; [|discriminate]. clear Hok. cbn.
  intros x _ r Hr. subst r. cbn.
  destruct (test _ (err_message e)); cbn.
  - intros x0 H0 x1 H1 r Hr. subst r. cbn. split; [reflexivity|recount].
  - split; [reflexivity|recount].
Qed.

(** The snapshot script is sent to the page at most twice for one
    snapshot, in every environment.  When the page rejects it each
    time, the snapshot fails with that error: after a second try if the
    message tells that the execution context was destroyed or the target
    closed, at once otherwise. *)
Theorem snapshot_script_retried_once (W : Type) (h : Handler W) (w : W) b :
  (evaluations (trace h (getSnapshot b) w) <= 2)%nat
  /\ (forall e page,
        b = {| ctl_page := Some page |} ->
        obeys h (scriptFails e) ->
        fst (outcome h (getSnapshot b) w) = Err e
        /\ evaluations (trace h (getSnapshot b) w)
           = if test contextDestroyed (err_message e) then 2%nat else 1%nat).
Proof.
  split.
  - apply (@wp_sound W _ h anything (getSnapshot b) (fun X c w0 => I)
             (fun tr _ => (evaluations tr <= 2)%nat) w).
    apply getSnapshot_evaluations.
  - intros e page -> Hh.
    apply (@wp_sound W _ h (scriptFails e) _ Hh
             (fun tr rb =>
                fst rb = Err e
                /\ evaluations tr
                   = if test contextDestroyed (err_message e) then 2%nat else 1%nat) w).
    apply getSnapshot_failing.
Qed.

Lemma snapshot_script_retried_once_witness :
  fst (outcome restless (getSnapshot demoController) tt) = Err navigating
  /\ evaluations (trace restless (getSnapshot demoController) tt) = 2%nat.
Proof.
  apply (proj2 (@snapshot_script_retried_once unit restless tt demoController)
           navigating 0%nat).
  - reflexivity.
  - intros X c w. destruct c; simpl; auto.
Defined.

(** ** Switching tabs *)

Lemma invalidTab_message tabIndex count :
  errorText (Error (invalidTab tabIndex count)) = invalidTab tabIndex count.
Proof.
  unfold errorText, Error. cbn [err_message err_name]. unfold invalidTab.
  remember (js "Invalid tab index: ") as p eqn:E. vm_compute in E. subst p.
  exact eq_refl.
Qed.

Lemma switch_tab_wp stn args snapshot ctl pages tabIndex :
  prop args (js "tab_index") = JNum tabIndex ->
  wp (tabsAre pages) (executeTool stn (js "switch_tab") args snapshot ctl)
    (fun _ rb =>
       if withinTabs tabIndex (List.length pages) then
         match tabIndex with
         | Int k =>
             exists p r,
               nth_error pages (Z.to_nat k) = Some p
               /\ rb = (Ok r, {| ctl_page := Some p |})
         | _ =>
             rb = (Ok (failed noBringToFront), {| ctl_page := None |})
         end
       else rb = (Ok (failed (invalidTab tabIndex (List.length pages))), ctl)).
Proof.
  intros Hi. unfold executeTool. pick_case. rewrite Hi.
  apply wp_guarded. unfold switchTab, getPages.
  apply wp_mbind. cbn [perform wp]. intros x Hx. cbn in Hx. subst x. cbn [fst snd].
  unfold withinTabs.
  destruct (Number.lt_int tabIndex 0 || Number.ge_int tabIndex _) eqn:Eout;
    cbn [negb].
  - cbn [throw wp fst snd]. unfold reportError.
    fold (invalidTab tabIndex (List.length pages)).
    now rewrite invalidTab_message.
  - apply wp_mbind. cbn [setPage wp fst snd].
    destruct tabIndex as [|neg|k|fl repr]; cbn [pageAt].
    + cbn. reflexivity.
    + cbn. reflexivity.
    + apply orb_false_iff in Eout. destruct Eout as [Hlo Hhi].
      cbn [Number.lt_int Number.ge_int] in Hlo, Hhi.
      rewrite Hlo.
      apply Z.ltb_ge in Hlo. apply Z.leb_gt in Hhi.
      destruct (nth_error pages (Z.to_nat k)) as [p|] eqn:Ep.
      * cbn. intros [[]|e] _; cbn; [intros [] _; cbn|]; eauto.
      * exfalso. apply nth_error_None in Ep. lia.
    + cbn. reflexivity.
Qed.

(** [switch_tab] in a context of [pages]: a whole index within the tabs
    makes the page of that index the active one, whether or not the
    page can be brought to the front, and the tool returns a result; an
    index outside the tabs is refused with a message that names it and
    the controller keeps its page; an index within the tabs that is not
    whole leaves the controller without a page. *)
Theorem switch_tab_selects (W : Type) (h : Handler W) (w : W)
    stn args snapshot ctl pages tabIndex :
  prop args (js "tab_index") = JNum tabIndex ->
  obeys h (tabsAre pages) ->
  let rb := outcome h (executeTool stn (js "switch_tab") args snapshot ctl) w in
  (forall k, tabIndex = Int k -> (0 <= k < Z.of_nat (List.length pages))%Z ->
      exists p r,
        nth_error pages (Z.to_nat k) = Some p
        /\ rb = (Ok r, {| ctl_page := Some p |}))
  /\ (withinTabs tabIndex (List.length pages) = false ->
      rb = (Ok (failed (invalidTab tabIndex (List.length pages))), ctl))
  /\ (withinTabs tabIndex (List.length pages) = true ->
      (forall k, tabIndex <> Int k) ->
      rb = (Ok (failed noBringToFront), {| ctl_page := None |})).
Proof.
  intros Hi Hh rb.
  pose proof (@wp_sound W _ h (tabsAre pages) _ Hh _ w
                (@switch_tab_wp stn args snapshot ctl pages tabIndex Hi)) as H.
  cbv beta in H. fold rb in H.
  split; [|split].
  - intros k -> Hk.
    assert (Hw : withinTabs (Int k) (List.length pages) = true).
    { unfold withinTabs. cbn [Number.lt_int Number.ge_int].
      apply negb_true_iff, orb_false_iff. split; [apply Z.ltb_ge|apply Z.leb_gt]; lia. }
    rewrite Hw in H. exact H.
  - intros Hw. rewrite Hw in H. exact H.
  - intros Hw Hn. rewrite Hw in H.
    destruct tabIndex as [|neg|k|fl repr]; try exact H.
    exfalso. now apply (Hn k).
Qed.

Lemma switch_tab_selects_witness :
  (exists p r,
     nth_error [0%nat] (Z.to_nat 0) = Some p
     /\ outcome (scriptedEnv None true true)
          (executeTool noNumber (js "switch_tab") [(js "tab_index", JNum (Int 0))]
             demoSnapshot demoController) tt
        = (Ok r, {| ctl_page := Some p |}))
  /\ outcome (scriptedEnv None true true)
       (executeTool noNumber (js "switch_tab") [(js "tab_index", JNum (Int 3))]
          demoSnapshot demoController) tt
     = (Ok (failed (invalidTab (Int 3) 1)), demoController).
Proof.
  assert (Henv : obeys (scriptedEnv None true true) (tabsAre [0%nat])).
  { intros X c w. destruct c; simpl; auto. }
  split.
  - apply (proj1 (@switch_tab_selects unit (scriptedEnv None true true) tt noNumber
                    [(js "tab_index", JNum (Int 0))] demoSnapshot demoController
                    [0%nat] (Int 0) eq_refl Henv) 0%Z eq_refl).
    simpl. lia.
  - apply (proj1 (proj2 (@switch_tab_selects unit (scriptedEnv None true true) tt
                           noNumber [(js "tab_index", JNum (Int 3))] demoSnapshot
                           demoController [0%nat] (Int 3) eq_refl Henv))).
    reflexivity.
Defined.

Example switch_tab_messages :
  invalidTab (Int 3) 1 = js "Invalid tab index: 3 (tabs: 0–0)"
  /\ invalidTab (Int (-1)) 0 = js "Invalid tab index: -1 (tabs: 0–-1)".
Proof. split; vm_compute; reflexivity. Qed.

(** ** Opening a tab *)

Lemma open_new_tab_wp stn args snapshot ctl r :
  wp (newPageAnswers r) (executeTool stn (js "open_new_tab") args snapshot ctl)
    (fun _ rb =>
       match r with
       | Ok p => exists res, rb = (Ok res, {| ctl_page := Some p |})
       | Err e => rb = (Ok (failed (errorText e)), ctl)
       end).
Proof.
  unfold executeTool. pick_case.
  apply wp_mbind. apply wp_attempt. apply wp_mbind. unfold newTab.
  apply wp_mbind. cbn [await wp]. intros x Hx. cbn in Hx. subst x. cbn [fst snd].
  destruct r as [p|e]; [|cbn; reflexivity].
  apply wp_mbind. cbn [setPage wp fst snd].
  assert (Hrest : forall (m : M unit) (Q : list Event -> Result PageRef * BrowserController -> Prop),
            (forall tr r', Q tr (r', {| ctl_page := Some p |})) ->
            wp (newPageAnswers (Ok p)) (m {| ctl_page := Some p |})
              (fun tr rb => snd rb = {| ctl_page := Some p |}) ->
            wp (newPageAnswers (Ok p))
              (bind m (fun _ => bind delay (fun _ => ret p)) {| ctl_page := Some p |}) Q).
  { intros m Q HQ Hm. apply wp_mbind. eapply wp_mono; [|exact Hm].
    intros tr [[u|e] b1] Hb; cbn [fst snd] in *; subst b1; [|apply HQ].
    cbn. intros [] _. cbn. apply HQ. }
  apply Hrest.
  - intros tr r'. cbn [fst snd].
    destruct r' as [p'|e]; cbn.
    + intros pages _. cbn. eauto.
    + eauto.
  - destruct (match prop args (js "url") with JStr u => Some u | _ => None end)
      as [u|]; [|cbn; reflexivity].
    destruct (is_empty u); [cbn; reflexivity|].
    cbn. intros [[]|e] _; cbn; [|reflexivity].
    intros x _. cbn. reflexivity.
Qed.

(** [open_new_tab] never throws.  Once the context has opened the page
    it is the active one, also when the navigation to the given URL
    fails; when the context cannot open a page the result is a failure
    with the message of the error and the controller keeps its page. *)
Theorem open_new_tab_activates (W : Type) (h : Handler W) (w : W)
    stn args snapshot ctl r :
  obeys h (newPageAnswers r) ->
  let rb := outcome h (executeTool stn (js "open_new_tab") args snapshot ctl) w in
  match r with
  | Ok p => exists res, rb = (Ok res, {| ctl_page := Some p |})
  | Err e => rb = (Ok (failed (errorText e)), ctl)
  end.
Proof.
  intros Hh rb.
  exact (@wp_sound W _ h (newPageAnswers r) _ Hh _ w
           (@open_new_tab_wp stn args snapshot ctl r)).
Qed.

Lemma open_new_tab_activates_witness :
  outcome crowded
    (executeTool noNumber (js "open_new_tab") [] demoSnapshot demoController) tt
  = (Ok (failed (errorText TimeoutError)), demoController).
Proof.
  apply (@open_new_tab_activates unit crowded tt noNumber [] demoSnapshot
           demoController (Err TimeoutError)).
  intros X c w. destruct c; simpl; auto.
Defined.

(** ** The prompt of a snapshot *)

Lemma getSnapshot_promptable ok b :
  wp ok (getSnapshot b) (fun _ rb => promptable rb).
Proof.
  unfold getSnapshot, promptable.
  destruct b as [[page|]]; cbn; [|intros s H; discriminate H].
  intros pages _. cbn.
  apply wp_bind. eapply wp_mono; [|apply listTabs_quiet].
  intros tr [r b'] [Hd [Hb Hok]]. cbn in *. subst b'.
  destruct r as [tabs|e]; [|discriminate]. clear Hd Hok. cbn.
  assert (Hdone : forall doc ps s,
            collectSnapshotScript doc = Ok ps ->
            Ok {| snap_url := ps_url ps; snap_title := ps_title ps;
                  snap_elements := ps_elements ps; snap_headings := ps_headings ps;
                  snap_contentExcerpt := ps_contentExcerpt ps; snap_tabs := tabs;
                  snap_activeTabIndex := Int (indexOfPage page pages 0) |} = Ok s ->
            isOk (Prompt.formatSnapshotForPrompt s) = true).
  { intros doc ps s Eps H. apply Ok_inj in H. subst s.
    apply formatSnapshot_ok. cbn [snap_headings].
    apply (script_headings_renderable _ Eps). }
  intros x _ [doc|e] _; cbn.
  - destruct (collectSnapshotScript doc) as [ps|e] eqn:Eps; cbn.
    + intros s. apply (Hdone doc ps s Eps).
    + match goal with |- context [if ?c then _ else _] => destruct c end; cbn.
      * intros x0 H0 x1 H1 [doc2|e2] H2; cbn.
        -- destruct (collectSnapshotScript doc2) as [ps2|e3] eqn:Eps2; cbn;
             [|intros s H; discriminate H].
           intros s. apply (Hdone doc2 ps2 s Eps2).
        -- intros s H; discriminate H.
      * intros s H; discriminate H.
  - match goal with |- context [if ?c then _ else _] => destruct c end; cbn.
    + intros x0 H0 x1 H1 [doc2|e2] H2; cbn.
      * destruct (collectSnapshotScript doc2) as [ps2|e3] eqn:Eps2; cbn;
          [|intros s H; discriminate H].
        intros s. apply (Hdone doc2 ps2 s Eps2).
      * intros s H; discriminate H.
    + intros s H; discriminate H.
Qed.

(** Whatever snapshot the controller returns, in whatever environment,
    [formatSnapshotForPrompt] renders it without throwing: the level of
    a heading is a digit of its tag name or not a number, and
    ['#'.repeat] takes both. *)
Theorem snapshot_always_rendered (W : Type) (h : Handler W) (w : W) b snapshot :
  fst (outcome h (getSnapshot b) w) = Ok snapshot ->
  exists text, Prompt.formatSnapshotForPrompt snapshot = Ok text.
Proof.
  intros H.
  pose proof (@wp_sound W _ h anything (getSnapshot b) (fun X c w0 => I)
                (fun _ rb => promptable rb) w (getSnapshot_promptable anything b)) as Hp.
  specialize (Hp snapshot H).
  destruct (Prompt.formatSnapshotForPrompt snapshot) as [text|e]; [eauto|discriminate].
Qed.

Lemma snapshot_always_rendered_witness :
  exists text, Prompt.formatSnapshotForPrompt demoLoopSnapshot = Ok text.
Proof.
  apply (@snapshot_always_rendered unit (scriptedEnv None true true) tt
           demoController demoLoopSnapshot).
  vm_compute. reflexivity.
Defined.
